(** * Oracle's Elixir cleaning pipeline: a shallow embedding

    The Python module [oracles_elixir.py] cleans a table of match records and
    adds "opponent" columns by positional pairing.  This file embeds
    [get_opponent] and the stages of [OraclesElixir.clean_data] and proves
    the properties stated about them.

    Conventions.
    - A raised Python exception is a value [Raise e]; a returned value is
      [Ok v].  Statements are chained with a small error monad.
    - A pandas [DataFrame] is an ordered list of labelled columns; a column
      ([Series]) is a list of cells.  Row labels (the index) are unique in
      the frames [read_csv] hands over and the stages keep them so; index
      alignment is then positional and the index is left out.
    - A missing value ([np.nan], [NaT], [None] inside a column) is the cell
      [NaN].
    - A Python string is held as the bytes of its UTF-8 encoding; comparing
      two strings byte by byte is comparing them code point by code point.
    - Column dtypes are not modelled.  The [.str] accessor exists on a
      column of dtype object only; a column that holds a string has that
      dtype, and the statements that depend on the accessor being there
      assume a string in each identifier column.
    - A number is held as the rational it denotes.  The one float operation
      of the pipeline, the division of the game length by 60, rounds to the
      nearest double as IEEE 754 does; infinities are left out.
    - A label carried by several columns selects a frame where the pipeline
      expects a column; the embedding stops there with [TypeError], and the
      statements about the labels of a result assume distinct labels in the
      input.
    - [pd.to_datetime] is a parameter of the pipeline.
    - The stages are embedded as functions; that [format_data_types] and
      [fill_null_team_ids] also write into the frame they are given is not
      observable inside [clean_data], which rebinds its variable at every
      step. *)

From Stdlib Require Import String Ascii DecimalString.
From Stdlib Require Import List ZArith QArith Qcanon Bool Lia Arith.
From Stdlib Require Import Permutation Sorted OrderedTypeEx.
Import ListNotations.

Local Open Scope string_scope.
Local Open Scope list_scope.
Local Open Scope Z_scope.

(** ** Exceptions and the error monad *)

Inductive exn : Type :=
| KeyError (label : string)
| ValueError (msg : string)
| IndexError
| AttributeError
| TypeError.

Inductive result (A : Type) : Type :=
| Ok (a : A)
| Raise (e : exn).

Arguments Ok {A} a.
Arguments Raise {A} e.

Definition bind {A B : Type} (m : result A) (k : A -> result B) : result B :=
  match m with
  | Ok a => k a
  | Raise e => Raise e
  end.

Notation "x <- m ;; k" := (bind m (fun x => k))
  (at level 61, m at next level, right associativity).

Fixpoint mapM {A B : Type} (f : A -> result B) (l : list A) : result (list B) :=
  match l with
  | [] => Ok []
  | a :: l' => b <- f a ;; bs <- mapM f l' ;; Ok (b :: bs)
  end.

(** ** Python lists *)

(** [column[k]] on a Python list: a negative subscript counts from the end,
    anything outside the list raises [IndexError]. *)
Definition list_getitem {A : Type} (l : list A) (k : Z) : result A :=
  let n := Z.of_nat (length l) in
  let k' := if k <? 0 then k + n else k in
  if (k' <? 0) || (n <=? k') then Raise IndexError
  else match nth_error l (Z.to_nat k') with
       | Some x => Ok x
       | None => Raise IndexError
       end.

(** ** get_opponent *)

(** [gap_dict.get(entity)]; [entity] may be Python's [None]. *)
Definition gap_dict_get (entity : option string) : option Z :=
  match entity with
  | Some e => if String.eqb e "player" then Some 5
              else if String.eqb e "team" then Some 1
              else None
  | None => None
  end.

Definition string_of_Z (z : Z) : string := NilZero.string_of_int (Z.to_int z).

(** The body of [for i, obj in enumerate(column)]: [rest] is what is left to
    enumerate, [i] the running index, [flag] the cycle counter and [opponent]
    the list built so far. *)
Fixpoint get_opponent_loop {A : Type} (column : list A) (gap : Z)
    (rest : list A) (i flag : Z) (opponent : list A) : result (list A) :=
  match rest with
  | [] => Ok opponent
  | _ :: rest' =>
      if flag <? gap then
        x <- list_getitem column (i + gap) ;;
        let flag := flag + 1 in
        let flag := if gap * 2 <=? flag then 0 else flag in
        get_opponent_loop column gap rest' (i + 1) flag (opponent ++ [x])
      else if (gap <=? flag) && (flag <? gap * 2) then
        x <- list_getitem column (i - gap) ;;
        let flag := flag + 1 in
        let flag := if gap * 2 <=? flag then 0 else flag in
        get_opponent_loop column gap rest' (i + 1) flag (opponent ++ [x])
      else Raise (ValueError (String.append "Index "
                  (String.append (string_of_Z i) " - Out Of Bounds")))
  end.

Definition get_opponent {A : Type} (column : list A) (entity : option string)
  : result (list A) :=
  match gap_dict_get entity with
  | None => Raise (ValueError "Entity must be either player or team.")
  | Some gap => get_opponent_loop column gap column 0 0 []
  end.

(** The row a cursor at index [i] reads, in the words of the specification:
    offset [+gap] in the first half of a cycle of length [2*gap], offset
    [-gap] in the second half. *)
Definition opponent_index (gap i : Z) : Z :=
  if i mod (2 * gap) <? gap then i + gap else i - gap.

(** [get_opponent] as the specification describes it: every index of the
    column, in order, reads the row at its [opponent_index]. *)
Definition opponent_by_cycle {A : Type} (column : list A) (gap : Z)
  : result (list A) :=
  mapM (fun i => list_getitem column (opponent_index gap i))
       (map Z.of_nat (seq 0 (length column))).

(** ** Cells, Series and DataFrames *)

(** A cell holds a string, a number or a timestamp, or is missing.  Numbers
    are rationals in lowest terms, so that two numbers are equal exactly
    when their values are.  Timestamps are integers (nanoseconds since the
    epoch). *)
Inductive cell : Type :=
| NaN
| Str (s : string)
| Num (q : Qc)
| Date (t : Z).

(** A number written as a fraction. *)
Definition number (q : Q) : cell := Num (Q2Qc q).

Definition Series := list cell.

(** Columns in label order. *)
Definition DataFrame := list (string * Series).

Definition cell_eq_dec (a b : cell) : {a = b} + {a <> b}.
Proof.
  decide equality; [apply string_dec | apply Qc_eq_dec | apply Z.eq_dec].
Defined.

Definition cell_eqb (a b : cell) : bool :=
  if cell_eq_dec a b then true else false.

Definition isna (c : cell) : bool :=
  match c with NaN => true | _ => false end.

Definition notna (c : cell) : bool := negb (isna c).

Definition columns (df : DataFrame) : list string := map fst df.

Definition nrows (df : DataFrame) : nat :=
  match df with
  | [] => O
  | (_, s) :: _ => length s
  end.

Definition has_label (label : string) (c : string * Series) : bool :=
  String.eqb (fst c) label.

(** [df[label]] read as a Series.  A label that is absent raises [KeyError].
    A label carried by several columns selects a frame, not a Series, and the
    Series operations of the pipeline are not defined on it: the embedding
    stops there with [TypeError]. *)
Definition getitem (df : DataFrame) (label : string) : result Series :=
  match filter (has_label label) df with
  | [] => Raise (KeyError label)
  | [c] => Ok (snd c)
  | _ => Raise TypeError
  end.

(** [df[label] = values] and one keyword of [df.assign]: an existing column is
    replaced where it stands, a new one is appended.  Every value the pipeline
    assigns is computed from a column of the same frame and has its length. *)
Definition setitem (df : DataFrame) (label : string) (values : Series)
  : DataFrame :=
  if existsb (String.eqb label) (columns df)
  then map (fun c => if has_label label c then (label, values) else c) df
  else df ++ [(label, values)].

(** [df.assign] on the unpacked dict [metrics]: keywords are applied in the
    order of the dict. *)
Definition assign (df : DataFrame) (metrics : list (string * Series))
  : DataFrame :=
  fold_left (fun d kv => setitem d (fst kv) (snd kv)) metrics df.

(** [df.rename(columns={old: new})]; a label that is absent is ignored. *)
Definition rename (df : DataFrame) (old new : string) : DataFrame :=
  map (fun c => if has_label old c then (new, snd c) else c) df.

(** Boolean indexing. *)
Fixpoint mask_series {A : Type} (mask : list bool) (s : list A) : list A :=
  match mask, s with
  | b :: mask', x :: s' =>
      if b then x :: mask_series mask' s' else mask_series mask' s'
  | _, _ => []
  end.

Definition boolean_mask (mask : list bool) (df : DataFrame) : DataFrame :=
  map (fun c => (fst c, mask_series mask (snd c))) df.

(** [df[labels]] with a list of labels, each read as one column. *)
Definition select_columns (df : DataFrame) (labels : list string)
  : result DataFrame :=
  mapM (fun label => s <- getitem df label ;; Ok (label, s)) labels.

(** [df.take(indexer)]: the rows at the given positions, in that order. *)
Definition take (indexer : list nat) (df : DataFrame) : DataFrame :=
  map (fun c => (fst c, map (fun i => nth i (snd c) NaN) indexer)) df.

(** [Series.isin(values)]. *)
Definition isin (values : list cell) (c : cell) : bool :=
  existsb (cell_eqb c) values.

(** [a.fillna(b)] with [b] a Series on the same index. *)
Fixpoint fillna (a b : Series) : Series :=
  match a with
  | [] => []
  | x :: a' => (if isna x then hd NaN b else x) :: fillna a' (tl b)
  end.

(** [Series.value_counts()]: the distinct non-missing values with the number
    of rows holding each.  Only the labels and counts are used downstream,
    not the order. *)
Definition value_counts (s : Series) : list (cell * nat) :=
  map (fun v => (v, count_occ cell_eq_dec s v))
      (nodup cell_eq_dec (filter notna s)).

(** ** Strings *)

Definition py_eq (s : option string) (lit : string) : bool :=
  match s with
  | Some s' => String.eqb s' lit
  | None => false
  end.

Definition ascii_lower (c : ascii) : ascii :=
  let n := nat_of_ascii c in
  if (Nat.leb 65 n && Nat.leb n 90)%bool then ascii_of_nat (n + 32) else c.

(** [str.lower()].  Bytes outside ASCII are left alone: no character
    outside ASCII lower-cases to one of the letters of "team", the only
    string a lower-cased value is compared with. *)
Fixpoint lower (s : string) : string :=
  match s with
  | EmptyString => EmptyString
  | String c s' => String (ascii_lower c) (lower s')
  end.

Definition byte_in (lo hi : nat) (c : ascii) : bool :=
  let n := nat_of_ascii c in
  (Nat.leb lo n && Nat.leb n hi)%bool.

(** The characters [str.strip] removes, by the length of their encoding.
    One byte: U+0009 to U+000D and U+001C to U+0020. *)
Definition is_space (c : ascii) : bool :=
  byte_in 9 13 c || byte_in 28 32 c.

(** Two bytes: U+0085 and U+00A0. *)
Definition is_space2 (a b : ascii) : bool :=
  byte_in 194 194 a && (byte_in 133 133 b || byte_in 160 160 b).

(** Three bytes: U+1680, U+2000 to U+200A, U+2028, U+2029, U+202F, U+205F
    and U+3000. *)
Definition is_space3 (a b c : ascii) : bool :=
  (byte_in 225 225 a && byte_in 154 154 b && byte_in 128 128 c)
  || (byte_in 226 226 a && byte_in 128 128 b
      && (byte_in 128 138 c || byte_in 168 169 c || byte_in 175 175 c))
  || (byte_in 226 226 a && byte_in 129 129 b && byte_in 159 159 c)
  || (byte_in 227 227 a && byte_in 128 128 b && byte_in 128 128 c).

(** Dropping the whitespace characters at the front of a list of bytes.
    With [back] set the list is read as a string reversed, so that the
    bytes of a character come last byte first. *)
Fixpoint drop_spaces (back : bool) (l : list ascii) : list ascii :=
  match l with
  | [] => []
  | a :: l1 =>
      if is_space a then drop_spaces back l1
      else
        match l1 with
        | [] => l
        | b :: l2 =>
            if (if back then is_space2 b a else is_space2 a b)
            then drop_spaces back l2
            else
              match l2 with
              | [] => l
              | c :: l3 =>
                  if (if back then is_space3 c b a else is_space3 a b c)
                  then drop_spaces back l3
                  else l
              end
        end
  end.

Definition lstrip (s : string) : string :=
  string_of_list_ascii (drop_spaces false (list_ascii_of_string s)).

Definition rstrip (s : string) : string :=
  string_of_list_ascii
    (rev (drop_spaces true (rev (list_ascii_of_string s)))).

Definition strip (s : string) : string := rstrip (lstrip s).

(** [Series.str.strip()] on a column of dtype object: an element that is not
    a string comes back missing. *)
Definition str_strip (s : Series) : Series :=
  map (fun c => match c with Str x => Str (strip x) | _ => NaN end) s.

(** ** sort_values *)

(** Ascending order on cells with missing values last ([na_position="last"]).
    Strings compare by code point, as Python strings do.  In a key column
    that mixes strings with other values pandas orders the other values
    first and the strings after them; numbers and timestamps are never
    compared with each other, since [sort_values] below refuses a key column
    holding both. *)
Definition cell_leb (a b : cell) : bool :=
  match a, b with
  | _, NaN => true
  | NaN, _ => false
  | Str x, Str y => String.leb x y
  | Str _, _ => false
  | _, Str _ => true
  | Num x, Num y => Qle_bool x y
  | Num _, Date _ => true
  | Date x, Date y => Z.leb x y
  | Date _, Num _ => false
  end.

(** Lexicographic order on key tuples. *)
Fixpoint key_leb (k1 k2 : list cell) : bool :=
  match k1, k2 with
  | a :: k1', b :: k2' =>
      if cell_leb a b
      then (if cell_leb b a then key_leb k1' k2' else true)
      else false
  | _, _ => true
  end.

(** Two key tuples tie when neither sorts strictly before the other. *)
Definition key_tie (k1 k2 : list cell) : bool :=
  key_leb k1 k2 && key_leb k2 k1.

Definition key_at (keys : list Series) (i : nat) : list cell :=
  map (fun s => nth i s NaN) keys.

Fixpoint insert_index (keys : list Series) (i : nat) (l : list nat)
  : list nat :=
  match l with
  | [] => [i]
  | j :: l' =>
      if key_leb (key_at keys i) (key_at keys j)
      then i :: l
      else j :: insert_index keys i l'
  end.

(** pandas' [lexsort_indexer]: the row positions [0 .. n-1] in sorted order.
    With several keys pandas sorts by a stable lexsort; it is embedded as an
    insertion sort that puts a row in front of the first later row whose key
    is not smaller. *)
Definition lexsort_indexer (keys : list Series) (n : nat) : list nat :=
  fold_right (insert_index keys) [] (seq 0 n).

Definition same_kind (a b : cell) : bool :=
  match a, b with
  | Num _, Date _ | Date _, Num _ => false
  | _, _ => true
  end.

(** The values of a key column can be ordered: pandas raises [TypeError] when
    it has to compare a number with a timestamp. *)
Definition comparable (s : Series) : bool :=
  forallb (fun a => forallb (same_kind a) s) s.

(** [df.sort_values(by)] with a list of labels. *)
Definition sort_values (df : DataFrame) (by_ : list string)
  : result DataFrame :=
  keys <- mapM (getitem df) by_ ;;
  if forallb comparable keys
  then Ok (take (lexsort_indexer keys (nrows df)) df)
  else Raise TypeError.

(** ** The stages of OraclesElixir *)

Definition replace_values (s : Series) : Series :=
  map (fun c => if isin [Str ""; Str "nan"; Str "null"] c then NaN else c) s.

(** [oe_data.replace({label: replace_values, ...})]: a label the frame does
    not have is skipped. *)
Definition replace (df : DataFrame) (labels : list string) : DataFrame :=
  map (fun c => if existsb (String.eqb (fst c)) labels
                then (fst c, replace_values (snd c)) else c) df.

(** *** Float division

    The integer nearest to [n / d], ties going to the even one. *)
Definition round_half_even (n d : Z) : Z :=
  let q := n / d in
  match 2 * (n mod d) ?= d with
  | Lt => q
  | Gt => q + 1
  | Eq => if Z.even q then q else q + 1
  end.

(** The exponent [k] with [2^k <= n / d < 2^(k+1)], for positive [n], [d]. *)
Definition floor_log2 (n d : Z) : Z :=
  let k := Z.log2 n - Z.log2 d in
  if (if 0 <=? k then d * 2 ^ k <=? n else d <=? n * 2 ^ (- k))
  then k else k - 1.

(** The double nearest to [n / d]: 53 significant bits, and steps of
    [2^-1074] below the normal range. *)
Definition round_double_pos (n d : Z) : Q :=
  let p := Z.max (floor_log2 n d - 52) (-1074) in
  if 0 <=? p
  then inject_Z (round_half_even n (d * 2 ^ p) * 2 ^ p)
  else Qmake (round_half_even (n * 2 ^ (- p)) d) (Z.to_pos (2 ^ (- p))).

Definition round_double (q : Qc) : Qc :=
  match Qnum q with
  | 0 => q
  | Zpos n => Q2Qc (round_double_pos (Zpos n) (Zpos (Qden q)))
  | Zneg n => (- Q2Qc (round_double_pos (Zpos n) (Zpos (Qden q))))%Qc
  end.

(** [Series / 60]: a float division, element by element.  An integer is
    converted to a double first. *)
Definition truediv60 (s : Series) : result Series :=
  mapM (fun c => match c with
                 | NaN => Ok NaN
                 | Num q =>
                     Ok (Num (round_double (round_double q / Q2Qc 60)%Qc))
                 | _ => Raise TypeError
                 end) s.

Definition subset_columns (split_on : string) : option (list string) :=
  if String.eqb split_on "team" then
    Some ["date"; "gameid"; "side"; "league"; "patch"; "teamname"; "teamid";
          "result"; "kills"; "deaths"; "assists"; "egpm"; "gamelength";
          "ckpm"; "team kpm"; "firstblood"; "dragons"; "barons"; "towers";
          "goldat15"; "xpat15"; "csat15"; "golddiffat15"; "xpdiffat15";
          "csdiffat15"]
  else if String.eqb split_on "player" then
    Some ["date"; "gameid"; "side"; "position"; "league"; "patch";
          "playername"; "playerid"; "teamname"; "teamid"; "result"; "kills";
          "deaths"; "assists"; "total cs"; "egpm"; "earnedgoldshare";
          "damagetochampions"; "dpm"; "damageshare"; "damagetakenperminute";
          "wardsplaced"; "wpm"; "wardskilled"; "wcpm"; "controlwardsbought";
          "visionscore"; "vspm"; "totalgold"; "monsterkills"; "minionkills";
          "gamelength"; "ckpm"; "cspm"; "team kpm"; "goldat15"; "xpat15";
          "csat15"; "killsat15"; "assistsat15"; "deathsat15";
          "opp_killsat15"; "opp_assistsat15"; "opp_deathsat15";
          "golddiffat15"; "xpdiffat15"; "csdiffat15"]
  else None.

Section Pipeline.

(** [pd.to_datetime] on a column is a parameter of the development: it
    either parses every value ([None] standing for [NaT]) or fails, and
    pandas reports a value it cannot parse with a [ValueError]. *)
Variable to_datetime : Series -> option (list (option Z)).

Definition format_data_types (oe_data : DataFrame) : result DataFrame :=
  date <- getitem oe_data "date" ;;
  match to_datetime date with
  | None => Raise (ValueError "Unknown datetime string format")
  | Some parsed =>
      let oe_data :=
        setitem oe_data "date"
          (map (fun d => match d with Some t => Date t | None => NaN end)
               parsed) in
      gameid <- getitem oe_data "gameid" ;;
      playerid <- getitem oe_data "playerid" ;;
      teamid <- getitem oe_data "teamid" ;;
      let oe_data := setitem oe_data "gameid" (str_strip gameid) in
      let oe_data := setitem oe_data "playerid" (str_strip playerid) in
      let oe_data := setitem oe_data "teamid" (str_strip teamid) in
      let oe_data :=
        replace oe_data ["gameid"; "playerid"; "teamid"; "position"] in
      gamelength <- getitem oe_data "gamelength" ;;
      minutes <- truediv60 gamelength ;;
      Ok (setitem oe_data "gamelength" minutes)
  end.

Definition remove_null_games (oe_data : DataFrame) : result DataFrame :=
  gameid <- getitem oe_data "gameid" ;;
  Ok (boolean_mask (map notna gameid) oe_data).

Definition drop_unknown_entities (oe_data : DataFrame) : result DataFrame :=
  playername <- getitem oe_data "playername" ;;
  teamname <- getitem oe_data "teamname" ;;
  let known_player :=
    map (fun c => negb (isin [Str "unknown player"] c)) playername in
  let known_team :=
    map (fun c => negb (isin [Str "unknown team"] c)) teamname in
  Ok (boolean_mask
        (map (fun p => fst p && snd p)%bool (combine known_player known_team))
        oe_data).

(** A frame variable of [clean_data] holds a DataFrame or Python's [None]:
    [sort_data] falls off its end, returning [None], for any [split_on]
    other than ["player"] and ["team"]. *)
Definition sort_data (oe_data : DataFrame) (split_on : option string)
  : result (option DataFrame) :=
  if py_eq split_on "player" then
    df <- sort_values oe_data
            ["league"; "date"; "gameid"; "side"; "position"] ;;
    Ok (Some df)
  else if py_eq split_on "team" then
    df <- sort_values oe_data ["league"; "date"; "gameid"; "side"] ;;
    Ok (Some df)
  else Ok None.

(** The sort keys of [sort_data] for a recognised [split_on]. *)
Definition sort_keys (split_on : string) : list string :=
  if String.eqb split_on "player"
  then ["league"; "date"; "gameid"; "side"; "position"]
  else ["league"; "date"; "gameid"; "side"].

Definition fill_null_team_ids (oe_data : option DataFrame)
    (split_on : option string) : result (option DataFrame) :=
  if py_eq split_on "player" then
    match oe_data with
    | None => Raise TypeError
    | Some df =>
        teamid <- getitem df "teamid" ;;
        teamname <- getitem df "teamname" ;;
        Ok (Some (setitem df "teamid" (fillna teamid teamname)))
    end
  else Ok oe_data.

Definition subset_data (oe_data : option DataFrame)
    (split_on : option string) : result DataFrame :=
  match split_on with
  | None => Raise (ValueError "Must split on either player or team.")
  | Some s =>
      match subset_columns s with
      | None => Raise (ValueError "Must split on either player or team.")
      | Some labels =>
          match oe_data with
          | None => Raise AttributeError
          | Some df =>
              let df := rename df "earned gpm" "egpm" in
              position <- getitem df "position" ;;
              let is_team := map (cell_eqb (Str "team")) position in
              let df :=
                if String.eqb (lower s) "team"
                then boolean_mask is_team df
                else boolean_mask (map negb is_team) df in
              select_columns df labels
          end
      end
  end.

Definition remove_inconsistent_games (oe_data : DataFrame)
    (split_on : option string) : result DataFrame :=
  gameid <- getitem oe_data "gameid" ;;
  let counts := value_counts gameid in
  match split_on with
  | None => Raise AttributeError
  | Some s =>
      let inconsistent_games :=
        map fst
          (filter (fun vc => if String.eqb (lower s) "team"
                             then negb (Nat.eqb (snd vc) 2)
                             else negb (Nat.eqb (snd vc) 10)) counts) in
      Ok (boolean_mask
            (map (fun c => negb (isin inconsistent_games c)) gameid)
            oe_data)
  end.

Definition enrich_opponent_metrics (oe_data : DataFrame)
    (split_on : option string) : result DataFrame :=
  teamid <- getitem oe_data "teamid" ;;
  teamname <- getitem oe_data "teamname" ;;
  opponentteam <- get_opponent teamname split_on ;;
  opponentteamid <- get_opponent teamid split_on ;;
  egpm <- getitem oe_data "egpm" ;;
  opponent_egpm <- get_opponent egpm split_on ;;
  let metrics :=
    [("teamid", fillna teamid teamname);
     ("opponentteam", opponentteam);
     ("opponentteamid", opponentteamid);
     ("opponent_egpm", opponent_egpm)] in
  metrics <-
    (if py_eq split_on "player" then
       playerid <- getitem oe_data "playerid" ;;
       playername <- getitem oe_data "playername" ;;
       opponentname <- get_opponent playername split_on ;;
       opponentid <- get_opponent playerid split_on ;;
       Ok (metrics ++ [("playerid", fillna playerid playername);
                       ("opponentname", opponentname);
                       ("opponentid", opponentid)])
     else Ok metrics) ;;
  Ok (assign oe_data metrics).

Definition clean_data (oe_data : DataFrame) (split_on : option string)
  : result DataFrame :=
  oe_data <- format_data_types oe_data ;;
  oe_data <- remove_null_games oe_data ;;
  oe_data <- drop_unknown_entities oe_data ;;
  oe_data <- sort_data oe_data split_on ;;
  oe_data <- fill_null_team_ids oe_data split_on ;;
  oe_data <- subset_data oe_data split_on ;;
  oe_data <- remove_inconsistent_games oe_data split_on ;;
  oe_data <- enrich_opponent_metrics oe_data split_on ;;
  Ok oe_data.

(** *** The order of the stages

    The stages of [clean_data] as data: [run_stages] runs a list of stages
    the way the body of [clean_data] runs its statements, one after the
    other on the same variable, stopping at the first exception, and also
    returns the stages it entered. *)
Inductive stage : Type :=
| FormatDataTypes
| RemoveNullGames
| DropUnknownEntities
| SortData
| FillNullTeamIds
| SubsetData
| RemoveInconsistentGames
| EnrichOpponentMetrics.

(** A stage written for a DataFrame raises [TypeError] on [None]. *)
Definition on_frame (f : DataFrame -> result DataFrame)
    (oe_data : option DataFrame) : result (option DataFrame) :=
  match oe_data with
  | None => Raise TypeError
  | Some df => out <- f df ;; Ok (Some out)
  end.

Definition run_stage (st : stage) (split_on : option string)
    (oe_data : option DataFrame) : result (option DataFrame) :=
  match st with
  | FormatDataTypes => on_frame format_data_types oe_data
  | RemoveNullGames => on_frame remove_null_games oe_data
  | DropUnknownEntities => on_frame drop_unknown_entities oe_data
  | SortData =>
      match oe_data with
      | None => Raise TypeError
      | Some df => sort_data df split_on
      end
  | FillNullTeamIds => fill_null_team_ids oe_data split_on
  | SubsetData => out <- subset_data oe_data split_on ;; Ok (Some out)
  | RemoveInconsistentGames =>
      on_frame (fun df => remove_inconsistent_games df split_on) oe_data
  | EnrichOpponentMetrics =>
      on_frame (fun df => enrich_opponent_metrics df split_on) oe_data
  end.

Fixpoint run_stages (stages : list stage) (split_on : option string)
    (oe_data : option DataFrame)
  : list stage * result (option DataFrame) :=
  match stages with
  | [] => ([], Ok oe_data)
  | st :: stages' =>
      match run_stage st split_on oe_data with
      | Ok oe_data' =>
          let (entered, r) := run_stages stages' split_on oe_data' in
          (st :: entered, r)
      | Raise e => ([st], Raise e)
      end
  end.

(** The statements of [clean_data], in source order. *)
Definition clean_data_stages : list stage :=
  [FormatDataTypes; RemoveNullGames; DropUnknownEntities; SortData;
   FillNullTeamIds; SubsetData; RemoveInconsistentGames;
   EnrichOpponentMetrics].

(** The stages a call of [clean_data] enters. *)
Definition clean_data_trace (oe_data : DataFrame)
    (split_on : option string) : list stage :=
  fst (run_stages clean_data_stages split_on (Some oe_data)).

End Pipeline.

Definition stage_eqb (a b : stage) : bool :=
  match a, b with
  | FormatDataTypes, FormatDataTypes
  | RemoveNullGames, RemoveNullGames
  | DropUnknownEntities, DropUnknownEntities
  | SortData, SortData
  | FillNullTeamIds, FillNullTeamIds
  | SubsetData, SubsetData
  | RemoveInconsistentGames, RemoveInconsistentGames
  | EnrichOpponentMetrics, EnrichOpponentMetrics => true
  | _, _ => false
  end.

(** [runs_after a b trace]: stage [b] is entered at some point after stage
    [a] has been entered. *)
Fixpoint runs_after (a b : stage) (trace : list stage) : bool :=
  match trace with
  | [] => false
  | st :: trace' =>
      (stage_eqb st a && existsb (stage_eqb b) trace')
      || runs_after a b trace'
  end.

(** ** Auxiliary notions used in the statements *)

(** The row count a game must have, as the code decides it: [split_on] is
    lower-cased before it is compared with "team". *)
Definition expected_count (split_on : string) : nat :=
  if String.eqb (lower split_on) "team" then 2%nat else 10%nat.

Definition inconsistent_games (gameid : Series) (split_on : string)
  : list cell :=
  map fst
    (filter (fun vc => if String.eqb (lower split_on) "team"
                       then negb (Nat.eqb (snd vc) 2)
                       else negb (Nat.eqb (snd vc) 10))
            (value_counts gameid)).

(** The rows [remove_inconsistent_games] keeps. *)
Definition consistent_row (gameid : Series) (split_on : string) (g : cell)
  : bool :=
  negb (isin (inconsistent_games gameid split_on) g).

(** Row [i] belongs before row [j] in the output of a stable sort on [keys]:
    its key is not larger, and when the two keys tie it was the earlier row
    of the input. *)
Definition sorts_before (keys : list Series) (i j : nat) : Prop :=
  key_leb (key_at keys i) (key_at keys j) = true /\
  (key_tie (key_at keys i) (key_at keys j) = true -> (i < j)%nat).

(** The labels are pairwise distinct. *)
Fixpoint distinct (labels : list string) : bool :=
  match labels with
  | [] => true
  | l :: labels' => negb (existsb (String.eqb l) labels') && distinct labels'
  end.

(** The labels of a cleaned team table, spelled out. *)
Definition team_table_columns : list string :=
  ["date"; "gameid"; "side"; "league"; "patch"; "teamname"; "teamid";
   "result"; "kills"; "deaths"; "assists"; "egpm"; "gamelength"; "ckpm";
   "team kpm"; "firstblood"; "dragons"; "barons"; "towers"; "goldat15";
   "xpat15"; "csat15"; "golddiffat15"; "xpdiffat15"; "csdiffat15";
   "opponentteam"; "opponentteamid"; "opponent_egpm"].

(** The labels of a cleaned player table, spelled out. *)
Definition player_table_columns : list string :=
  ["date"; "gameid"; "side"; "position"; "league"; "patch"; "playername";
   "playerid"; "teamname"; "teamid"; "result"; "kills"; "deaths";
   "assists"; "total cs"; "egpm"; "earnedgoldshare"; "damagetochampions";
   "dpm"; "damageshare"; "damagetakenperminute"; "wardsplaced"; "wpm";
   "wardskilled"; "wcpm"; "controlwardsbought"; "visionscore"; "vspm";
   "totalgold"; "monsterkills"; "minionkills"; "gamelength"; "ckpm";
   "cspm"; "team kpm"; "goldat15"; "xpat15"; "csat15"; "killsat15";
   "assistsat15"; "deathsat15"; "opp_killsat15"; "opp_assistsat15";
   "opp_deathsat15"; "golddiffat15"; "xpdiffat15"; "csdiffat15";
   "opponentteam"; "opponentteamid"; "opponent_egpm"; "opponentname";
   "opponentid"].

(** The labels [assign] leaves after setting [labels] in turn. *)
Definition add_labels (cols labels : list string) : list string :=
  fold_left (fun cs l => if existsb (String.eqb l) cs then cs else cs ++ [l])
            labels cols.


Definition is_series (df : DataFrame) (label : string) : bool :=
  match getitem df label with
  | Ok _ => true
  | Raise _ => false
  end.

(** The column holds a string, so its dtype is object. *)
Definition holds_string (s : Series) : bool :=
  existsb (fun c => match c with Str _ => true | _ => false end) s.

(** The three identifier columns are there, each once, and each holds a
    string. *)
Definition string_identifiers (df : DataFrame) : bool :=
  forallb (fun label => match getitem df label with
                        | Ok s => holds_string s
                        | Raise _ => false
                        end)
    ["gameid"; "playerid"; "teamid"].


(** ** Example inputs *)

Fixpoint digits_value (s : string) (acc : Z) : option Z :=
  match s with
  | EmptyString => Some acc
  | String c s' =>
      let n := nat_of_ascii c in
      if (Nat.leb 48 n && Nat.leb n 57)%bool
      then digits_value s' (10 * acc + Z.of_nat (n - 48))
      else None
  end.

(** An instance of [to_datetime] for the examples: timestamps and missing
    values are left as they are, a compact date such as "20230115" is read as
    that number, anything else is refused. *)
Fixpoint to_datetime_compact (s : Series) : option (list (option Z)) :=
  match s with
  | [] => Some []
  | c :: s' =>
      match (match c with
             | NaN => Some None
             | Date t => Some (Some t)
             | Str EmptyString => None
             | Str x => option_map Some (digits_value x 0)
             | Num _ => None
             end), to_datetime_compact s' with
      | Some d, Some ds => Some (d :: ds)
      | _, _ => None
      end
  end.

(** The team rows of one game, "Alpha" against "Beta"; the identifier of
    "Alpha" is missing in the raw data. *)
Definition example_game : DataFrame :=
  [("gameid", [Str "g1"; Str "g1"]);
   ("league", [Str "LCK"; Str "LCK"]);
   ("date", [Date 1673776800; Date 1673776800]);
   ("patch", [number 13; number 13]);
   ("side", [Str "Blue"; Str "Red"]);
   ("position", [Str "team"; Str "team"]);
   ("playername", [NaN; NaN]);
   ("playerid", [NaN; NaN]);
   ("teamname", [Str "Alpha"; Str "Beta"]);
   ("teamid", [NaN; Str "oe:team:beta"]);
   ("result", [number 1; number 0]);
   ("kills", [number 12; number 5]);
   ("deaths", [number 5; number 12]);
   ("assists", [number 30; number 9]);
   ("earned gpm", [number 1200; number 1000]);
   ("gamelength", [number 1800; number 1800]);
   ("ckpm", [number (17 # 30); number (17 # 30)]);
   ("team kpm", [number (2 # 5); number (1 # 6)]);
   ("firstblood", [number 1; number 0]);
   ("dragons", [number 3; number 1]);
   ("barons", [number 1; number 0]);
   ("towers", [number 9; number 2]);
   ("goldat15", [number 25000; number 24000]);
   ("xpat15", [number 30000; number 29000]);
   ("csat15", [number 500; number 480]);
   ("golddiffat15", [number 1000; number (-1000)]);
   ("xpdiffat15", [number 1000; number (-1000)]);
   ("csdiffat15", [number 20; number (-20)])].

(** The same table with the row of "Beta" lost: a game of one row. *)
Definition example_ragged : DataFrame :=
  map (fun c => (fst c, firstn 1 (snd c))) example_game.

(** Four rows to sort: rows 0 and 2 tie on every key, and so do rows 1
    and 3. *)
Definition example_unsorted : DataFrame :=
  [("league", [Str "LCK"; Str "LCK"; Str "LCK"; Str "LCK"]);
   ("date", [Date 2; Date 1; Date 2; Date 1]);
   ("gameid", [Str "g2"; Str "g1"; Str "g2"; Str "g1"]);
   ("side", [Str "Red"; Str "Blue"; Str "Red"; Str "Blue"]);
   ("position", [Str "top"; Str "mid"; Str "team"; Str "team"])].

(** A player table with its header only, as [read_csv] gives for a file
    without rows. *)
Definition example_player_header : DataFrame :=
  map (fun label => (label, []))
      (["earned gpm"; "date"; "gameid"; "side"; "position"; "league";
        "patch"; "playername"; "playerid"; "teamname"; "teamid"; "result";
        "kills"; "deaths"; "assists"; "total cs"; "earnedgoldshare";
        "damagetochampions"; "dpm"; "damageshare"; "damagetakenperminute";
        "wardsplaced"; "wpm"; "wardskilled"; "wcpm"; "controlwardsbought";
        "visionscore"; "vspm"; "totalgold"; "monsterkills"; "minionkills";
        "gamelength"; "ckpm"; "cspm"; "team kpm"; "goldat15"; "xpat15";
        "csat15"; "killsat15"; "assistsat15"; "deathsat15"; "opp_killsat15";
        "opp_assistsat15"; "opp_deathsat15"; "golddiffat15"; "xpdiffat15";
        "csdiffat15"]).

(** The ten player rows of one game, five of "Alpha" on the blue side and
    five of "Beta" on the red side, in sorted order; the identifier of the
    first player is missing in the raw data.  The statistics that play no
    part in the pipeline are zero. *)
Definition example_player_game : DataFrame :=
  [("gameid", repeat (Str "g1") 10);
   ("league", repeat (Str "LCK") 10);
   ("date", repeat (Date 1673776800) 10);
   ("side", repeat (Str "Blue") 5 ++ repeat (Str "Red") 5);
   ("position", [Str "bot"; Str "jng"; Str "mid"; Str "sup"; Str "top";
                 Str "bot"; Str "jng"; Str "mid"; Str "sup"; Str "top"]);
   ("playername", [Str "Ann"; Str "Bob"; Str "Cho"; Str "Dee"; Str "Eli";
                   Str "Fay"; Str "Gus"; Str "Hal"; Str "Ida"; Str "Jon"]);
   ("playerid", [NaN; Str "oe:player:bob"; Str "oe:player:cho";
                 Str "oe:player:dee"; Str "oe:player:eli";
                 Str "oe:player:fay"; Str "oe:player:gus";
                 Str "oe:player:hal"; Str "oe:player:ida";
                 Str "oe:player:jon"]);
   ("teamname", repeat (Str "Alpha") 5 ++ repeat (Str "Beta") 5);
   ("teamid", repeat (Str "oe:team:alpha") 5
              ++ repeat (Str "oe:team:beta") 5);
   ("earned gpm", [number 310; number 250; number 290; number 120;
                   number 230; number 280; number 240; number 260;
                   number 110; number 210]);
   ("gamelength", repeat (number 1800) 10)]
  ++ map (fun label => (label, repeat (number 0) 10))
       ["patch"; "result"; "kills"; "deaths"; "assists"; "total cs";
        "earnedgoldshare"; "damagetochampions"; "dpm"; "damageshare";
        "damagetakenperminute"; "wardsplaced"; "wpm"; "wardskilled";
        "wcpm"; "controlwardsbought"; "visionscore"; "vspm"; "totalgold";
        "monsterkills"; "minionkills"; "ckpm"; "cspm"; "team kpm";
        "goldat15"; "xpat15"; "csat15"; "killsat15"; "assistsat15";
        "deathsat15"; "opp_killsat15"; "opp_assistsat15";
        "opp_deathsat15"; "golddiffat15"; "xpdiffat15"; "csdiffat15";
        "firstblood"; "dragons"; "barons"; "towers"].

(** The position [get_opponent] reads for position [n] of a column of length
    [len]; positions outside the column are left alone. *)
Definition opponent_pos (gap : Z) (len n : nat) : nat :=
  if (n <? len)%nat then Z.to_nat (opponent_index gap (Z.of_nat n)) else n.

(** A row is a known entity when neither name is the reserved value. *)
Definition known_entity (playername teamname : cell) : bool :=
  negb (cell_eqb playername (Str "unknown player"))
  && negb (cell_eqb teamname (Str "unknown team")).

(** No whitespace character stands at the front of the bytes. *)
Definition no_space_ahead (back : bool) (l : list ascii) : bool :=
  match l with
  | [] => true
  | a :: l1 =>
      negb (is_space a)
      && match l1 with
         | [] => true
         | b :: l2 =>
             negb (if back then is_space2 b a else is_space2 a b)
             && match l2 with
                | [] => true
                | c :: _ =>
                    negb (if back then is_space3 c b a
                          else is_space3 a b c)
                end
         end
  end.

(** An identifier as [format_data_types] leaves it: missing, or a string
    without surrounding whitespace that is none of the spellings of a
    missing value. *)
Definition clean_id (c : cell) : Prop :=
  c = NaN \/
  exists s, c = Str s /\ strip s = s /\ s <> "" /\ s <> "nan" /\ s <> "null".

(** The no-break space U+00A0. *)
Definition nbsp : string :=
  String (ascii_of_nat 194) (String (ascii_of_nat 160) EmptyString).

(** Three raw rows with untidy identifiers and lengths in seconds. *)
Definition example_untidy : DataFrame :=
  [("date", [Date 1673776800; Date 1673776800; Date 1673780400]);
   ("gameid", [Str "  g1 "; Str "nan"; Str "   "]);
   ("playerid", [Str " oe:player:faker"; Str "null"; NaN]);
   ("teamid", [Str "oe:team:t1"; Str "";
               Str (String.append nbsp "oe:team:geng ")]);
   ("position", [Str "mid"; Str " "; Str "null"]);
   ("gamelength", [number 600; NaN; number 1800])].

(** Three rows of a table holding every column of both subsets: a team row,
    a player row and a row without position. *)
Definition example_mixed : DataFrame :=
  ("position", [Str "team"; Str "mid"; NaN])
  :: ("earned gpm", [number 1200; number 300; number 250])
  :: map (fun label => (label, [Str "r0"; Str "r1"; Str "r2"]))
       (filter (fun label => negb (String.eqb label "position")
                             && negb (String.eqb label "egpm"))
          (nodup string_dec
             (match subset_columns "team", subset_columns "player" with
              | Some t, Some p => t ++ p
              | _, _ => []
              end))).

(** Every column of the frame has [n] rows. *)
Definition all_length (n : nat) (df : DataFrame) : Prop :=
  Forall (fun c => length (snd c) = n) df.

(** A frame is rectangular when its columns have the same number of rows. *)
Definition rectangular (df : DataFrame) : bool :=
  forallb (fun c => Nat.eqb (length (snd c)) (nrows df)) df.

(** The [gameid] column, when there is one, has no missing value. *)
Definition gameid_present (df : DataFrame) : Prop :=
  forall gameid, getitem df "gameid" = Ok gameid -> ~ In NaN gameid.

(** The table [clean_data] hands to [enrich_opponent_metrics]: its first
    seven statements. *)
Definition clean_data_filtered
    (to_datetime : Series -> option (list (option Z)))
    (oe_data : DataFrame) (split_on : option string) : result DataFrame :=
  oe_data <- format_data_types to_datetime oe_data ;;
  oe_data <- remove_null_games oe_data ;;
  oe_data <- drop_unknown_entities oe_data ;;
  oe_data <- sort_data oe_data split_on ;;
  oe_data <- fill_null_team_ids oe_data split_on ;;
  oe_data <- subset_data oe_data split_on ;;
  remove_inconsistent_games oe_data split_on.

(** * PandaScore schedule: [process_response]

    The response of the API, as [json.loads] returns it. *)
#[warnings="-register-all"]
Inductive json : Type :=
| JNull
| JBool (b : bool)
| JNumber (q : Qc)
| JString (s : string)
| JArray (items : list json)
| JObject (members : list (string * json)).

(** The members of a [JObject] are the items of a Python dict: keys are
    distinct. *)
Fixpoint dict_get (members : list (string * json)) (key : string)
  : option json :=
  match members with
  | [] => None
  | (k, v) :: members' =>
      if String.eqb k key then Some v else dict_get members' key
  end.

(** [obj[key]] with a string key: only a dict can be subscripted so. *)
Definition subscript_key (obj : json) (key : string) : result json :=
  match obj with
  | JObject members =>
      match dict_get members key with
      | Some v => Ok v
      | None => Raise (KeyError key)
      end
  | _ => Raise TypeError
  end.

(** [obj[i]] with an integer: a list or a string is indexed, a dict has no
    integer key, anything else cannot be subscripted. *)
Definition subscript_index (obj : json) (i : Z) : result json :=
  match obj with
  | JArray items => list_getitem items i
  | JString s =>
      c <- list_getitem (list_ascii_of_string s) i ;;
      Ok (JString (String c EmptyString))
  | JObject _ => Raise (KeyError (string_of_Z i))
  | _ => Raise TypeError
  end.

(** What [for match in pandascore_response] enumerates. *)
Definition py_iter (obj : json) : result (list json) :=
  match obj with
  | JArray items => Ok items
  | JObject members => Ok (map (fun kv => JString (fst kv)) members)
  | JString s =>
      Ok (map (fun c => JString (String c EmptyString))
              (list_ascii_of_string s))
  | _ => Raise TypeError
  end.

(** The dict built for one match; its keys are "league", "Blue", "Red",
    "Start (UTC)" and "Best Of". *)
Record match_data : Type := {
  md_league : json;
  md_blue : json;
  md_red : json;
  md_start : json;
  md_best_of : json
}.

(** The dict display of the loop body: the values are computed in the order
    of the keys. *)
Definition build_match_data (m : json) : result match_data :=
  league <- subscript_key m "league" ;;
  league_name <- subscript_key league "name" ;;
  opponents <- subscript_key m "opponents" ;;
  first <- subscript_index opponents 0 ;;
  blue <- subscript_key first "opponent" ;;
  blue_name <- subscript_key blue "name" ;;
  opponents <- subscript_key m "opponents" ;;
  second <- subscript_index opponents 1 ;;
  red <- subscript_key second "opponent" ;;
  red_name <- subscript_key red "name" ;;
  start <- subscript_key m "scheduled_at" ;;
  best_of <- subscript_key m "number_of_games" ;;
  Ok {| md_league := league_name; md_blue := blue_name; md_red := red_name;
        md_start := start; md_best_of := best_of |}.

(** The loop of [process_response]: an [IndexError] in the body is caught
    and the match left out; any other exception leaves the loop. *)
Fixpoint process_matches (matches : list json) (schedule : list match_data)
  : result (list match_data) :=
  match matches with
  | [] => Ok schedule
  | m :: matches' =>
      match build_match_data m with
      | Ok md => process_matches matches' (schedule ++ [md])
      | Raise IndexError => process_matches matches' schedule
      | Raise e => Raise e
      end
  end.

Definition process_response (pandascore_response : json)
  : result (list match_data) :=
  matches <- py_iter pandascore_response ;;
  process_matches matches [].

(** An opponent entry whose name can be read. *)
Definition side_named (entry : json) : bool :=
  match subscript_key entry "opponent" with
  | Ok opponent =>
      match subscript_key opponent "name" with
      | Ok _ => true
      | Raise _ => false
      end
  | Raise _ => false
  end.

Definition has_member (m : json) (key : string) : bool :=
  match subscript_key m key with
  | Ok _ => true
  | Raise _ => false
  end.

(** A match of the expected shape: a league with a name and a list of
    opponents; the first two opponents, as far as they are there, have a
    name; with two opponents the match also has its start and its number of
    games. *)
Definition well_formed_match (m : json) : bool :=
  match subscript_key m "league", subscript_key m "opponents" with
  | Ok league, Ok (JArray opponents) =>
      has_member league "name"
      && match opponents with
         | [] => true
         | [first] => side_named first
         | first :: second :: _ =>
             side_named first && side_named second
             && has_member m "scheduled_at"
             && has_member m "number_of_games"
         end
  | _, _ => false
  end.

(** A match with both of its sides. *)
Definition two_sided (m : json) : bool :=
  match subscript_key m "opponents" with
  | Ok (JArray (_ :: _ :: _)) => true
  | _ => false
  end.

Definition example_match (league blue red : string) : json :=
  JObject [("league", JObject [("name", JString league)]);
           ("opponents",
            JArray
              [JObject [("opponent", JObject [("name", JString blue)])];
               JObject [("opponent", JObject [("name", JString red)])]]);
           ("scheduled_at", JString "2023-08-01T17:00:00Z");
           ("number_of_games", JNumber (Q2Qc 3))].

(** * Properties *)

(** ** The error monad *)

Lemma mapM_Ok_Forall2 {A B : Type} (f : A -> result B) (l : list A)
    (ys : list B) :
  mapM f l = Ok ys <-> Forall2 (fun a b => f a = Ok b) l ys.
Proof.
  revert ys. induction l as [|a l IH]; intros ys; simpl.
  - split.
    + intros H. injection H as <-. constructor.
    + intros H. inversion H. reflexivity.
  - split.
    + destruct (f a) as [b|e] eqn:Hfa; simpl; [|discriminate].
      destruct (mapM f l) as [bs|e] eqn:Hl; simpl; [|discriminate].
      intros H. injection H as <-. constructor; [assumption|].
      apply IH. reflexivity.
    + intros H. inversion H as [|a' b l' bs Hfa Hrest]; subst.
      rewrite Hfa. simpl.
      apply IH in Hrest. rewrite Hrest. reflexivity.
Qed.

Lemma mapM_Raise {A B : Type} (f : A -> result B) (l : list A) (e : exn) :
  mapM f l = Raise e -> exists a, In a l /\ f a = Raise e.
Proof.
  induction l as [|a l IH]; simpl; [discriminate|].
  destruct (f a) as [b|e'] eqn:Hfa; simpl.
  - destruct (mapM f l) as [bs|e''] eqn:Hl; simpl; [discriminate|].
    intros H. injection H as ->.
    destruct (IH eq_refl) as (a' & Hin & Ha'). eauto.
  - intros H. injection H as ->. eauto.
Qed.

Lemma mapM_total {A B : Type} (f : A -> result B) (l : list A) :
  (forall a, In a l -> exists b, f a = Ok b) -> exists ys, mapM f l = Ok ys.
Proof.
  induction l as [|a l IH]; intros H; simpl.
  - eauto.
  - destruct (H a (or_introl eq_refl)) as (b & ->).
    destruct IH as (bs & ->); [intros; apply H; now right|].
    simpl. eauto.
Qed.

Lemma mapM_length {A B : Type} (f : A -> result B) (l : list A)
    (ys : list B) :
  mapM f l = Ok ys -> length ys = length l.
Proof.
  intros H. apply mapM_Ok_Forall2 in H.
  symmetry. eapply Forall2_length. exact H.
Qed.

Lemma mapM_ext {A B : Type} (f g : A -> result B) (l : list A) :
  (forall a, In a l -> f a = g a) -> mapM f l = mapM g l.
Proof.
  induction l as [|a l IH]; intros H; simpl; [reflexivity|].
  rewrite (H a (or_introl eq_refl)), IH; [reflexivity|].
  intros; apply H; now right.
Qed.

(** ** Python list subscripts *)

Lemma nth_error_Some_lt {A : Type} (l : list A) (n : nat) (x : A) :
  nth_error l n = Some x -> (n < length l)%nat.
Proof.
  intros H. apply nth_error_Some. congruence.
Qed.

Lemma list_getitem_nonneg {A : Type} (l : list A) (k : Z) (x : A) :
  0 <= k ->
  (list_getitem l k = Ok x <-> nth_error l (Z.to_nat k) = Some x).
Proof.
  intros Hk. unfold list_getitem.
  destruct (k <? 0) eqn:Hneg; [apply Z.ltb_lt in Hneg; lia|].
  rewrite Hneg. simpl.
  destruct (Z.of_nat (length l) <=? k) eqn:Hlen.
  - apply Z.leb_le in Hlen. split; [discriminate|].
    intros H. apply nth_error_Some_lt in H. lia.
  - destruct (nth_error l (Z.to_nat k)) as [y|]; split; congruence.
Qed.

(** ** get_opponent *)

Section GetOpponent.

Context {A : Type}.
Variable column : list A.
Variable gap : Z.
Hypothesis gap_pos : 0 < gap.

(** The flag kept by the loop is the index modulo [2 * gap]. *)
Lemma flag_step (i : Z) :
  0 <= i ->
  (if gap * 2 <=? i mod (2 * gap) + 1 then 0 else i mod (2 * gap) + 1)
  = (i + 1) mod (2 * gap).
Proof.
  intros Hi.
  pose proof (Z.mod_pos_bound i (2 * gap) ltac:(lia)) as Hb.
  pose proof (Z.div_mod i (2 * gap) ltac:(lia)) as Hdm.
  destruct (gap * 2 <=? i mod (2 * gap) + 1) eqn:Hc.
  - apply Z.leb_le in Hc.
    apply Z.mod_unique_pos with (q := i / (2 * gap) + 1); lia.
  - apply Z.leb_gt in Hc.
    apply Z.mod_unique_pos with (q := i / (2 * gap)); lia.
Qed.

Lemma get_opponent_loop_spec (rest : list A) :
  forall (k : nat) (acc : list A),
    get_opponent_loop column gap rest (Z.of_nat k)
      (Z.of_nat k mod (2 * gap)) acc
    = (ys <- mapM (fun i => list_getitem column (opponent_index gap i))
                  (map Z.of_nat (seq k (length rest))) ;;
       Ok (acc ++ ys)).
Proof.
  induction rest as [|r rest IH]; intros k acc;
    cbn [get_opponent_loop length seq map mapM bind].
  - now rewrite app_nil_r.
  - pose proof (Z.mod_pos_bound (Z.of_nat k) (2 * gap) ltac:(lia)) as Hb.
    assert (Hnext : Z.of_nat k + 1 = Z.of_nat (S k)) by lia.
    unfold opponent_index at 1.
    destruct (Z.of_nat k mod (2 * gap) <? gap) eqn:Hflag.
    + destruct (list_getitem column (Z.of_nat k + gap)) as [x|e];
        cbn [bind]; [|reflexivity].
      rewrite flag_step by lia. rewrite Hnext, IH.
      destruct (mapM _ _) as [ys|e]; cbn [bind]; [|reflexivity].
      now rewrite <- app_assoc.
    + apply Z.ltb_ge in Hflag.
      replace ((gap <=? Z.of_nat k mod (2 * gap))
               && (Z.of_nat k mod (2 * gap) <? gap * 2))%bool with true
        by (symmetry; apply andb_true_iff; split;
            [apply Z.leb_le | apply Z.ltb_lt]; lia).
      destruct (list_getitem column (Z.of_nat k - gap)) as [x|e];
        cbn [bind]; [|reflexivity].
      rewrite flag_step by lia. rewrite Hnext, IH.
      destruct (mapM _ _) as [ys|e]; cbn [bind]; [|reflexivity].
      now rewrite <- app_assoc.
Qed.

(** The loop computes what the specification describes. *)
Lemma get_opponent_loop_by_cycle :
  get_opponent_loop column gap column 0 0 [] = opponent_by_cycle column gap.
Proof.
  pose proof (get_opponent_loop_spec column 0 []) as H.
  change (Z.of_nat 0) with 0 in H.
  rewrite Z.mod_0_l in H by lia. rewrite H.
  unfold opponent_by_cycle.
  destruct (mapM _ _); reflexivity.
Qed.

(** A read in the second half of a cycle never leaves the column. *)
Lemma backward_read_in_range (i : nat) :
  (i < length column)%nat ->
  gap <= Z.of_nat i mod (2 * gap) ->
  0 <= Z.of_nat i - gap < Z.of_nat (length column).
Proof.
  intros Hi Hflag.
  pose proof (Z.mod_le (Z.of_nat i) (2 * gap) ltac:(lia) ltac:(lia)).
  lia.
Qed.

Lemma list_getitem_in_range (z : Z) :
  0 <= z < Z.of_nat (length column) ->
  exists x, list_getitem column z = Ok x.
Proof.
  intros Hz.
  destruct (nth_error column (Z.to_nat z)) as [x|] eqn:Hx.
  - exists x. now apply list_getitem_nonneg.
  - apply nth_error_None in Hx. lia.
Qed.

Lemma list_getitem_past_end (z : Z) :
  Z.of_nat (length column) <= z ->
  list_getitem column z = Raise IndexError.
Proof.
  intros Hz. unfold list_getitem.
  destruct (z <? 0) eqn:Hneg; [apply Z.ltb_lt in Hneg; lia|].
  replace (Z.of_nat (length column) <=? z) with true
    by (symmetry; now apply Z.leb_le).
  now rewrite orb_true_r.
Qed.

Lemma list_getitem_raises (z : Z) (e : exn) :
  list_getitem column z = Raise e -> e = IndexError.
Proof.
  unfold list_getitem.
  destruct (_ || _)%bool; [congruence|].
  destruct (nth_error _ _); congruence.
Qed.

Lemma Forall2_nth_error_l {X Y : Type} (R : X -> Y -> Prop)
    (l : list X) (ys : list Y) (i : nat) (a : X) :
  Forall2 R l ys -> nth_error l i = Some a ->
  exists b, nth_error ys i = Some b /\ R a b.
Proof.
  intros H. revert i. induction H as [|x y l' ys' Hxy _ IH]; intros i Hi.
  - destruct i; discriminate.
  - destruct i as [|i]; simpl in *.
    + injection Hi as <-. eauto.
    + now apply IH.
Qed.

Lemma nth_error_indices (n i : nat) :
  (i < n)%nat ->
  nth_error (map Z.of_nat (seq 0 n)) i = Some (Z.of_nat i).
Proof.
  intros Hi. rewrite nth_error_map, nth_error_seq.
  destruct (Nat.ltb_spec i n); [reflexivity | lia].
Qed.

Lemma in_indices (n : nat) (z : Z) :
  In z (map Z.of_nat (seq 0 n)) ->
  exists i, z = Z.of_nat i /\ (i < n)%nat.
Proof.
  intros H. apply in_map_iff in H. destruct H as (i & <- & Hi).
  apply in_seq in Hi. exists i. split; [reflexivity | lia].
Qed.

(** What a returned list holds, index by index. *)
Lemma opponent_by_cycle_elements (out : list A) :
  opponent_by_cycle column gap = Ok out ->
  length out = length column /\
  forall i, (i < length column)%nat ->
    (Z.of_nat i mod (2 * gap) < gap ->
     nth_error out i = nth_error column (i + Z.to_nat gap)) /\
    (gap <= Z.of_nat i mod (2 * gap) ->
     (Z.to_nat gap <= i)%nat /\
     nth_error out i = nth_error column (i - Z.to_nat gap)).
Proof.
  unfold opponent_by_cycle. intros H. split.
  - apply mapM_length in H. now rewrite length_map, length_seq in H.
  - intros i Hi. apply mapM_Ok_Forall2 in H.
    destruct (Forall2_nth_error_l _ _ _ i _ H (nth_error_indices _ _ Hi))
      as (x & Hout & Hread).
    unfold opponent_index in Hread. split; intros Hflag.
    + replace (Z.of_nat i mod (2 * gap) <? gap) with true in Hread
        by (symmetry; now apply Z.ltb_lt).
      apply list_getitem_nonneg in Hread; [|lia].
      rewrite Hout, <- Hread. f_equal. lia.
    + replace (Z.of_nat i mod (2 * gap) <? gap) with false in Hread
        by (symmetry; now apply Z.ltb_ge).
      pose proof (backward_read_in_range i Hi Hflag) as Hrange.
      apply list_getitem_nonneg in Hread; [|lia].
      split; [lia|]. rewrite Hout, <- Hread. f_equal. lia.
Qed.

(** The call returns as soon as no read of a first half leaves the
    column. *)
Lemma opponent_by_cycle_returns :
  (forall i, (i < length column)%nat ->
     Z.of_nat i mod (2 * gap) < gap ->
     Z.of_nat i + gap < Z.of_nat (length column)) ->
  exists out, opponent_by_cycle column gap = Ok out.
Proof.
  intros Hfwd. unfold opponent_by_cycle. apply mapM_total.
  intros z Hz. apply in_indices in Hz. destruct Hz as (i & -> & Hi).
  apply list_getitem_in_range. unfold opponent_index.
  destruct (Z.of_nat i mod (2 * gap) <? gap) eqn:Hflag.
  - apply Z.ltb_lt in Hflag. specialize (Hfwd i Hi Hflag). lia.
  - apply Z.ltb_ge in Hflag. now apply backward_read_in_range.
Qed.

(** The only exception of the loop is [IndexError], raised by a read of a
    first half that leaves the column. *)
Lemma opponent_by_cycle_raises (e : exn) :
  opponent_by_cycle column gap = Raise e ->
  e = IndexError /\
  exists i, (i < length column)%nat /\
    Z.of_nat i mod (2 * gap) < gap /\
    Z.of_nat (length column) <= Z.of_nat i + gap.
Proof.
  unfold opponent_by_cycle. intros H.
  apply mapM_Raise in H. destruct H as (z & Hz & Hread).
  split; [eapply list_getitem_raises; eassumption|].
  apply in_indices in Hz. destruct Hz as (i & -> & Hi).
  exists i. split; [assumption|].
  unfold opponent_index in Hread.
  destruct (Z.of_nat i mod (2 * gap) <? gap) eqn:Hflag.
  - apply Z.ltb_lt in Hflag. split; [assumption|].
    destruct (Z_lt_le_dec (Z.of_nat i + gap) (Z.of_nat (length column)))
      as [Hin|Hout]; [|assumption].
    destruct (list_getitem_in_range (Z.of_nat i + gap)) as (x & Hx);
      [lia | congruence].
  - apply Z.ltb_ge in Hflag.
    destruct (list_getitem_in_range (Z.of_nat i - gap)) as (x & Hx);
      [now apply backward_read_in_range | congruence].
Qed.

Lemma opponent_by_cycle_past_end (i : nat) :
  (i < length column)%nat ->
  Z.of_nat i mod (2 * gap) < gap ->
  Z.of_nat (length column) <= Z.of_nat i + gap ->
  opponent_by_cycle column gap = Raise IndexError.
Proof.
  intros Hi Hflag Hpast.
  destruct (opponent_by_cycle column gap) as [out|e] eqn:H.
  - unfold opponent_by_cycle in H. apply mapM_Ok_Forall2 in H.
    destruct (Forall2_nth_error_l _ _ _ i _ H (nth_error_indices _ _ Hi))
      as (x & _ & Hread).
    unfold opponent_index in Hread.
    replace (Z.of_nat i mod (2 * gap) <? gap) with true in Hread
      by (symmetry; now apply Z.ltb_lt).
    rewrite list_getitem_past_end in Hread by assumption. discriminate.
  - apply opponent_by_cycle_raises in H. destruct H as (-> & _).
    reflexivity.
Qed.

(** A first-half read leaves the column exactly when the length is not a
    multiple of the cycle length. *)
Lemma past_end_iff_ragged :
  (exists i, (i < length column)%nat /\
     Z.of_nat i mod (2 * gap) < gap /\
     Z.of_nat (length column) <= Z.of_nat i + gap)
  <-> Z.of_nat (length column) mod (2 * gap) <> 0.
Proof.
  set (n := Z.of_nat (length column)).
  pose proof (Z.mod_pos_bound n (2 * gap) ltac:(lia)) as Hn.
  pose proof (Z.div_mod n (2 * gap) ltac:(lia)) as Hdn.
  assert (Hq : 0 <= n / (2 * gap)) by (apply Z.div_pos; lia).
  split.
  - intros (i & Hi & Hflag & Hpast) Hmul.
    pose proof (Z.mod_pos_bound (Z.of_nat i) (2 * gap) ltac:(lia)) as Hb.
    pose proof (Z.div_mod (Z.of_nat i) (2 * gap) ltac:(lia)) as Hdi.
    assert (Z.of_nat i < n) by (unfold n; lia).
    assert (Z.of_nat i / (2 * gap) < n / (2 * gap)) by nia.
    nia.
  - intros Hr.
    destruct (Z_le_gt_dec (n mod (2 * gap)) gap) as [Hle|Hgt].
    + exists (Z.to_nat (2 * gap * (n / (2 * gap)))).
      rewrite Z2Nat.id by nia.
      assert (Hm : (2 * gap * (n / (2 * gap))) mod (2 * gap) = 0)
        by (rewrite Z.mul_comm; apply Z.mod_mul; lia).
      rewrite Hm. unfold n in *. repeat split; lia.
    + exists (Z.to_nat (n - gap)).
      rewrite Z2Nat.id by lia.
      assert (Hm : (n - gap) mod (2 * gap) = n mod (2 * gap) - gap).
      { symmetry. apply Z.mod_unique_pos with (q := n / (2 * gap)); lia. }
      rewrite Hm. unfold n in *. repeat split; lia.
Qed.

End GetOpponent.

Lemma gap_dict_get_cases (entity : option string) (gap : Z) :
  gap_dict_get entity = Some gap ->
  (entity = Some "player" /\ gap = 5) \/ (entity = Some "team" /\ gap = 1).
Proof.
  destruct entity as [e|]; simpl; [|discriminate].
  destruct (String.eqb_spec e "player") as [->|_].
  - intros H. injection H as <-. now left.
  - destruct (String.eqb_spec e "team") as [->|_]; [|discriminate].
    intros H. injection H as <-. now right.
Qed.

Lemma gap_dict_get_pos (entity : option string) (gap : Z) :
  gap_dict_get entity = Some gap -> 0 < gap.
Proof.
  intros H. apply gap_dict_get_cases in H. destruct H as [[_ ->]|[_ ->]]; lia.
Qed.

(** For a recognised entity, [get_opponent] is the cyclic read of the
    specification. *)
Lemma get_opponent_by_cycle {A : Type} (column : list A)
    (entity : option string) (gap : Z) :
  gap_dict_get entity = Some gap ->
  get_opponent column entity = opponent_by_cycle column gap.
Proof.
  intros H. unfold get_opponent. rewrite H.
  apply get_opponent_loop_by_cycle. eapply gap_dict_get_pos; eassumption.
Qed.

(** C2.  For every column, [get_opponent] reads with gap 1 when the entity
    is "team" and with gap 5 when it is "player": a list it returns has the
    length of the column and its i-th element is the column's element at
    offset [+gap] when the cycle position [i mod (2*gap)] lies in [0, gap)
    and at offset [-gap] when it lies in [gap, 2*gap).  The position depends
    on the index alone, so the counter runs over the whole list and is reset
    nowhere else.  The call does return whenever no read of a first half
    leaves the column. *)
Theorem get_opponent_cycle {A : Type} (column : list A) (entity : string)
    (gap : Z) :
  (entity = "team" /\ gap = 1) \/ (entity = "player" /\ gap = 5) ->
  (forall out, get_opponent column (Some entity) = Ok out ->
     length out = length column /\
     forall i, (i < length column)%nat ->
       (Z.of_nat i mod (2 * gap) < gap ->
        nth_error out i = nth_error column (i + Z.to_nat gap)) /\
       (gap <= Z.of_nat i mod (2 * gap) ->
        (Z.to_nat gap <= i)%nat /\
        nth_error out i = nth_error column (i - Z.to_nat gap)))
  /\ ((forall i, (i < length column)%nat ->
         Z.of_nat i mod (2 * gap) < gap ->
         Z.of_nat i + gap < Z.of_nat (length column)) ->
      exists out, get_opponent column (Some entity) = Ok out).
Proof.
  intros Hentity.
  assert (Hgap : gap_dict_get (Some entity) = Some gap)
    by (destruct Hentity as [[-> ->]|[-> ->]]; reflexivity).
  pose proof (gap_dict_get_pos _ _ Hgap) as Hpos.
  rewrite (get_opponent_by_cycle column (Some entity) gap Hgap). split.
  - intros out. now apply opponent_by_cycle_elements.
  - now apply opponent_by_cycle_returns.
Qed.

Lemma get_opponent_cycle_witness :
  (get_opponent ["A"; "B"; "C"; "D"] (Some "team") = Ok ["B"; "A"; "D"; "C"] /\
   forall i, (i < 4)%nat ->
     (Z.of_nat i mod 2 < 1 ->
      nth_error ["B"; "A"; "D"; "C"] i
      = nth_error ["A"; "B"; "C"; "D"] (i + 1)) /\
     (1 <= Z.of_nat i mod 2 ->
      (1 <= i)%nat /\
      nth_error ["B"; "A"; "D"; "C"] i
      = nth_error ["A"; "B"; "C"; "D"] (i - 1)))
  /\
  (get_opponent ["a"; "b"; "c"; "d"; "e"; "f"; "g"; "h"; "i"; "j";
                 "k"; "l"; "m"; "n"; "o"; "p"; "q"; "r"; "s"; "t"]
                (Some "player")
   = Ok ["f"; "g"; "h"; "i"; "j"; "a"; "b"; "c"; "d"; "e";
         "p"; "q"; "r"; "s"; "t"; "k"; "l"; "m"; "n"; "o"] /\
   forall i, (i < 20)%nat ->
     (Z.of_nat i mod 10 < 5 ->
      nth_error ["f"; "g"; "h"; "i"; "j"; "a"; "b"; "c"; "d"; "e";
                 "p"; "q"; "r"; "s"; "t"; "k"; "l"; "m"; "n"; "o"] i
      = nth_error ["a"; "b"; "c"; "d"; "e"; "f"; "g"; "h"; "i"; "j";
                   "k"; "l"; "m"; "n"; "o"; "p"; "q"; "r"; "s"; "t"]
                  (i + 5)) /\
     (5 <= Z.of_nat i mod 10 ->
      (5 <= i)%nat /\
      nth_error ["f"; "g"; "h"; "i"; "j"; "a"; "b"; "c"; "d"; "e";
                 "p"; "q"; "r"; "s"; "t"; "k"; "l"; "m"; "n"; "o"] i
      = nth_error ["a"; "b"; "c"; "d"; "e"; "f"; "g"; "h"; "i"; "j";
                   "k"; "l"; "m"; "n"; "o"; "p"; "q"; "r"; "s"; "t"]
                  (i - 5))).
Proof.
  split.
  - split; [reflexivity|].
    apply (proj1 (get_opponent_cycle ["A"; "B"; "C"; "D"] "team" 1
                    (or_introl (conj eq_refl eq_refl)))
                 ["B"; "A"; "D"; "C"] eq_refl).
  - split; [reflexivity|].
    apply (proj1 (get_opponent_cycle
                    ["a"; "b"; "c"; "d"; "e"; "f"; "g"; "h"; "i"; "j";
                     "k"; "l"; "m"; "n"; "o"; "p"; "q"; "r"; "s"; "t"]
                    "player" 5 (or_intror (conj eq_refl eq_refl)))
                 ["f"; "g"; "h"; "i"; "j"; "a"; "b"; "c"; "d"; "e";
                  "p"; "q"; "r"; "s"; "t"; "k"; "l"; "m"; "n"; "o"]
                 eq_refl).
Defined.

(** C4.  Opponent symmetry at team granularity: on a column of even length
    [get_opponent] returns, and for every even index [i] the returned list
    holds the column's value of row [i+1] at [i] and of row [i] at [i+1]. *)
Theorem get_opponent_team_symmetry {A : Type} (column : list A) :
  Nat.Even (length column) ->
  exists opponent,
    get_opponent column (Some "team") = Ok opponent /\
    length opponent = length column /\
    forall i, Nat.Even i -> (i < length column)%nat ->
      nth_error opponent i = nth_error column (i + 1) /\
      nth_error opponent (i + 1) = nth_error column i.
Proof.
  intros [h Hlen].
  rewrite (get_opponent_by_cycle column (Some "team") 1 eq_refl).
  destruct (opponent_by_cycle_returns column 1 ltac:(lia)) as (out & Hout).
  { intros i Hi Hflag.
    change (2 * 1) with 2 in Hflag.
    pose proof (Z.mod_pos_bound (Z.of_nat i) 2 ltac:(lia)).
    pose proof (Z.div_mod (Z.of_nat i) 2 ltac:(lia)). lia. }
  exists out. split; [assumption|].
  destruct (opponent_by_cycle_elements column 1 ltac:(lia) out Hout)
    as (Hl & Hel).
  split; [assumption|].
  intros i [j Hj] Hi.
  assert (Hi' : (i + 1 < length column)%nat) by lia.
  change (2 * 1) with 2 in Hel. split.
  - apply (Hel i Hi).
    replace (Z.of_nat i) with (0 + Z.of_nat j * 2) by lia.
    rewrite Z.mod_add by lia. reflexivity.
  - destruct (Hel (i + 1)%nat Hi') as (_ & Hback).
    destruct Hback as (_ & ->).
    + replace (Z.of_nat (i + 1)) with (1 + Z.of_nat j * 2) by lia.
      rewrite Z.mod_add by lia. reflexivity.
    + f_equal. change (Z.to_nat 1) with 1%nat. lia.
Qed.

Lemma get_opponent_team_symmetry_witness :
  exists opponent,
    get_opponent ["Alpha"; "Beta"] (Some "team") = Ok opponent /\
    length opponent = 2%nat /\
    forall i, Nat.Even i -> (i < 2)%nat ->
      nth_error opponent i = nth_error ["Alpha"; "Beta"] (i + 1) /\
      nth_error opponent (i + 1) = nth_error ["Alpha"; "Beta"] i.
Proof.
  apply (get_opponent_team_symmetry ["Alpha"; "Beta"]).
  exists 1%nat. reflexivity.
Defined.

(** C5.  For an entity among "team" and "player", [get_opponent] raises
    [IndexError] exactly when some index whose cycle position lies in
    [0, gap) has [i + gap] at or past the length of the column; this is the
    case exactly when the length is not a multiple of [2*gap], and then no
    list is returned. *)
Theorem get_opponent_index_error {A : Type} (column : list A)
    (entity : option string) (gap : Z) :
  gap_dict_get entity = Some gap ->
  (get_opponent column entity = Raise IndexError <->
   exists i, (i < length column)%nat /\
     Z.of_nat i mod (2 * gap) < gap /\
     Z.of_nat (length column) <= Z.of_nat i + gap)
  /\ (get_opponent column entity = Raise IndexError <->
      Z.of_nat (length column) mod (2 * gap) <> 0)
  /\ (get_opponent column entity = Raise IndexError <->
      forall out, get_opponent column entity <> Ok out).
Proof.
  intros Hgap. pose proof (gap_dict_get_pos _ _ Hgap) as Hpos.
  rewrite (get_opponent_by_cycle column entity gap Hgap).
  assert (Hiff : opponent_by_cycle column gap = Raise IndexError <->
                 exists i, (i < length column)%nat /\
                   Z.of_nat i mod (2 * gap) < gap /\
                   Z.of_nat (length column) <= Z.of_nat i + gap).
  { split.
    - intros H. now apply opponent_by_cycle_raises in H.
    - intros (i & Hi & Hflag & Hpast).
      now apply (opponent_by_cycle_past_end column gap Hpos i). }
  split; [exact Hiff|]. split.
  - rewrite Hiff. now apply past_end_iff_ragged.
  - split.
    + intros -> out. discriminate.
    + intros Hno. destruct (opponent_by_cycle column gap) as [out|e] eqn:H.
      * now destruct (Hno out).
      * apply opponent_by_cycle_raises in H; [|assumption].
        now destruct H as (-> & _).
Qed.

Lemma get_opponent_index_error_witness :
  get_opponent ["Alpha"] (Some "team") = Raise IndexError /\
  get_opponent ["a"; "b"; "c"; "d"; "e"; "f"; "g"] (Some "player")
  = Raise IndexError.
Proof.
  split.
  - apply (proj2 (proj1 (proj2 (get_opponent_index_error ["Alpha"]
                                  (Some "team") 1 eq_refl)))).
    vm_compute. discriminate.
  - apply (proj2 (proj1 (get_opponent_index_error
                           ["a"; "b"; "c"; "d"; "e"; "f"; "g"]
                           (Some "player") 5 eq_refl))).
    exists 2%nat. split; [simpl; lia|]. split; [reflexivity|].
    simpl. lia.
Defined.

(** ** Frames *)

Lemma cell_eqb_eq (a b : cell) : cell_eqb a b = true <-> a = b.
Proof.
  unfold cell_eqb. destruct (cell_eq_dec a b); split; congruence.
Qed.

Lemma isin_In (values : list cell) (c : cell) :
  isin values c = true <-> In c values.
Proof.
  unfold isin. rewrite existsb_exists. split.
  - intros (v & Hv & Heq). apply cell_eqb_eq in Heq. now subst.
  - intros H. exists c. split; [assumption | now apply cell_eqb_eq].
Qed.

Lemma notna_iff (c : cell) : notna c = true <-> c <> NaN.
Proof.
  destruct c; cbv; split; intros; congruence.
Qed.

Lemma mask_series_map_filter {X : Type} (p : X -> bool) (l : list X) :
  mask_series (map p l) l = filter p l.
Proof.
  induction l as [|x l IH]; simpl; [reflexivity|].
  destruct (p x); now rewrite IH.
Qed.

Lemma count_occ_filter (p : cell -> bool) (l : Series) (g : cell) :
  count_occ cell_eq_dec (filter p l) g
  = if p g then count_occ cell_eq_dec l g else O.
Proof.
  induction l as [|x l IH]; simpl.
  - now destruct (p g).
  - destruct (cell_eq_dec x g) as [->|Hne].
    + destruct (p g) eqn:Hp; simpl.
      * destruct (cell_eq_dec g g); [now rewrite IH | congruence].
      * exact IH.
    + destruct (p x); simpl; [|exact IH].
      destruct (cell_eq_dec x g); [congruence | exact IH].
Qed.

Lemma filter_has_label_map (f : string * Series -> string * Series)
    (label : string) (df : DataFrame) :
  (forall c, fst (f c) = fst c) ->
  filter (has_label label) (map f df) = map f (filter (has_label label) df).
Proof.
  intros Hf. induction df as [|c df IH]; simpl; [reflexivity|].
  assert (Hc : has_label label (f c) = has_label label c)
    by (unfold has_label; now rewrite Hf).
  rewrite Hc. destruct (has_label label c); simpl; now rewrite IH.
Qed.

(** Reading a column of a frame whose columns were all transformed by the
    same function of the values. *)
Lemma getitem_map_values (g : Series -> Series) (df : DataFrame)
    (label : string) :
  getitem (map (fun c => (fst c, g (snd c))) df) label
  = (s <- getitem df label ;; Ok (g s)).
Proof.
  unfold getitem.
  rewrite (filter_has_label_map (fun c => (fst c, g (snd c))))
    by reflexivity.
  destruct (filter (has_label label) df) as [|c [|c' l]]; reflexivity.
Qed.

Lemma getitem_boolean_mask (mask : list bool) (df : DataFrame)
    (label : string) :
  getitem (boolean_mask mask df) label
  = (s <- getitem df label ;; Ok (mask_series mask s)).
Proof. apply getitem_map_values. Qed.

Lemma columns_boolean_mask (mask : list bool) (df : DataFrame) :
  columns (boolean_mask mask df) = columns df.
Proof.
  unfold columns, boolean_mask. rewrite map_map. reflexivity.
Qed.

Lemma value_counts_In (s : Series) (v : cell) (n : nat) :
  In (v, n) (value_counts s) <->
  v <> NaN /\ In v s /\ n = count_occ cell_eq_dec s v.
Proof.
  unfold value_counts. rewrite in_map_iff. split.
  - intros (w & Heq & Hw). injection Heq as -> <-.
    apply nodup_In, filter_In in Hw. destruct Hw as (Hin & Hna).
    apply notna_iff in Hna. auto.
  - intros (Hna & Hin & ->). exists v. split; [reflexivity|].
    apply nodup_In, filter_In. split; [assumption | now apply notna_iff].
Qed.

(** ** remove_inconsistent_games *)

Lemma inconsistent_games_In (gameid : Series) (split_on : string) (g : cell) :
  In g (inconsistent_games gameid split_on) <->
  g <> NaN /\ In g gameid /\
  count_occ cell_eq_dec gameid g <> expected_count split_on.
Proof.
  unfold inconsistent_games, expected_count. rewrite in_map_iff. split.
  - intros ((v, n) & Heq & Hin). simpl in Heq. subst v.
    apply filter_In in Hin. destruct Hin as (Hvc & Hbad).
    apply value_counts_In in Hvc. destruct Hvc as (Hna & Hin & ->).
    split; [assumption|]. split; [assumption|]. simpl in Hbad.
    destruct (String.eqb (lower split_on) "team");
      apply negb_true_iff, Nat.eqb_neq in Hbad; exact Hbad.
  - intros (Hna & Hin & Hcount).
    exists (g, count_occ cell_eq_dec gameid g). split; [reflexivity|].
    apply filter_In. split; [now apply value_counts_In|]. simpl.
    destruct (String.eqb (lower split_on) "team");
      now apply negb_true_iff, Nat.eqb_neq.
Qed.

Lemma consistent_row_true (gameid : Series) (split_on : string) (g : cell) :
  In g gameid ->
  (consistent_row gameid split_on g = true <->
   g = NaN \/ count_occ cell_eq_dec gameid g = expected_count split_on).
Proof.
  intros Hin. unfold consistent_row. rewrite negb_true_iff.
  rewrite <- not_true_iff_false, isin_In, inconsistent_games_In. split.
  - intros Hno. destruct (cell_eq_dec g NaN) as [->|Hna]; [now left|].
    right.
    destruct (Nat.eq_dec (count_occ cell_eq_dec gameid g)
                (expected_count split_on)); [assumption|].
    exfalso. apply Hno. auto.
  - intros [->|Hc] (Hna & _ & Hbad); congruence.
Qed.

Lemma remove_inconsistent_games_unfold (df : DataFrame) (split_on : string)
    (gameid : Series) :
  getitem df "gameid" = Ok gameid ->
  remove_inconsistent_games df (Some split_on)
  = Ok (boolean_mask (map (consistent_row gameid split_on) gameid) df).
Proof.
  intros Hg. unfold remove_inconsistent_games. rewrite Hg. reflexivity.
Qed.

Lemma In_mask_filter (p : cell -> bool) (l : Series) (g : cell) :
  In g (mask_series (map p l) l) <-> In g l /\ p g = true.
Proof.
  rewrite mask_series_map_filter. apply filter_In.
Qed.

Lemma nth_error_map_Some {X Y : Type} (f : X -> Y) (l : list X) (i : nat)
    (x : X) :
  nth_error l i = Some x -> nth_error (map f l) i = Some (f x).
Proof.
  intros H. rewrite nth_error_map, H. reflexivity.
Qed.

(** C3.  On a frame with a [gameid] column [remove_inconsistent_games]
    returns the frame restricted by a row mask.  Every game id present in
    the result occurs there in exactly 2 rows when [split_on] is "team" and
    in exactly 10 rows when it is "player" or any other string that does not
    lower-case to "team"; and every row whose game has that count in the
    input is kept. *)
Theorem remove_inconsistent_games_group_size (df : DataFrame)
    (split_on : string) (gameid : Series) (count : nat) :
  getitem df "gameid" = Ok gameid ->
  (split_on = "team" /\ count = 2%nat) \/
  (lower split_on <> "team" /\ count = 10%nat) ->
  exists mask,
    remove_inconsistent_games df (Some split_on) = Ok (boolean_mask mask df)
    /\ length mask = length gameid
    /\ getitem (boolean_mask mask df) "gameid"
       = Ok (mask_series mask gameid)
    /\ (forall g, In g (mask_series mask gameid) -> g <> NaN ->
          count_occ cell_eq_dec (mask_series mask gameid) g = count)
    /\ (forall i g, nth_error gameid i = Some g ->
          count_occ cell_eq_dec gameid g = count ->
          nth_error mask i = Some true).
Proof.
  intros Hg Hcount.
  assert (Hexp : expected_count split_on = count).
  { unfold expected_count. destruct Hcount as [[-> ->]|[Hne ->]].
    - reflexivity.
    - destruct (String.eqb_spec (lower split_on) "team"); congruence. }
  subst count.
  exists (map (consistent_row gameid split_on) gameid).
  split; [now apply remove_inconsistent_games_unfold|].
  split; [apply length_map|].
  split; [rewrite getitem_boolean_mask, Hg; reflexivity|].
  split.
  - intros g Hin Hna. apply In_mask_filter in Hin. destruct Hin as (Hin & Hk).
    rewrite mask_series_map_filter, count_occ_filter, Hk.
    apply consistent_row_true in Hk; [|assumption].
    destruct Hk as [->|Hc]; [congruence | exact Hc].
  - intros i g Hi Hc.
    rewrite (nth_error_map_Some _ _ _ _ Hi). f_equal.
    apply consistent_row_true; [|now right].
    eapply nth_error_In; eassumption.
Qed.

Lemma remove_inconsistent_games_group_size_witness :
  (exists mask,
     remove_inconsistent_games
       [("gameid", [Str "g1"; Str "g2"; Str "g1"; Str "g3"; Str "g3";
                    Str "g3"]);
        ("side", [Str "Blue"; Str "Blue"; Str "Red"; Str "Blue"; Str "Red";
                  Str "Red"])]
       (Some "team")
     = Ok (boolean_mask mask
             [("gameid", [Str "g1"; Str "g2"; Str "g1"; Str "g3"; Str "g3";
                          Str "g3"]);
              ("side", [Str "Blue"; Str "Blue"; Str "Red"; Str "Blue";
                        Str "Red"; Str "Red"])])
     /\ mask_series mask
          [Str "g1"; Str "g2"; Str "g1"; Str "g3"; Str "g3"; Str "g3"]
        = [Str "g1"; Str "g1"])
  /\
  (exists mask,
     remove_inconsistent_games
       [("gameid", Str "g0" :: Str "g0" :: repeat (Str "g1") 10)]
       (Some "player")
     = Ok (boolean_mask mask
             [("gameid", Str "g0" :: Str "g0" :: repeat (Str "g1") 10)])
     /\ mask_series mask (Str "g0" :: Str "g0" :: repeat (Str "g1") 10)
        = repeat (Str "g1") 10).
Proof.
  split.
  - destruct (remove_inconsistent_games_group_size
                [("gameid", [Str "g1"; Str "g2"; Str "g1"; Str "g3";
                             Str "g3"; Str "g3"]);
                 ("side", [Str "Blue"; Str "Blue"; Str "Red"; Str "Blue";
                           Str "Red"; Str "Red"])]
                "team"
                [Str "g1"; Str "g2"; Str "g1"; Str "g3"; Str "g3"; Str "g3"]
                2%nat eq_refl (or_introl (conj eq_refl eq_refl)))
      as (mask & Hrun & _).
    exists mask. split; [exact Hrun|].
    vm_compute in Hrun. injection Hrun as Hgame _. symmetry. exact Hgame.
  - assert (Hplayer : lower "player" <> "team") by (vm_compute; discriminate).
    destruct (remove_inconsistent_games_group_size
                [("gameid", Str "g0" :: Str "g0" :: repeat (Str "g1") 10)]
                "player"
                (Str "g0" :: Str "g0" :: repeat (Str "g1") 10)
                10%nat eq_refl (or_intror (conj Hplayer eq_refl)))
      as (mask & Hrun & _).
    exists mask. split; [exact Hrun|].
    vm_compute in Hrun. injection Hrun as Hgame. symmetry. exact Hgame.
Defined.

(** The comparison with "team" is made on the lower-cased [split_on]: a
    [split_on] such as "TEAM" keeps the games of 2 rows and removes those of
    10.  [clean_data] never gets that far with such a value, since
    [subset_data] refuses it first. *)
Lemma remove_inconsistent_games_lower_cased :
  remove_inconsistent_games
    [("gameid", [Str "g1"; Str "g1"])] (Some "TEAM")
  = Ok [("gameid", [Str "g1"; Str "g1"])] /\
  remove_inconsistent_games [("gameid", repeat (Str "g2") 10)] (Some "TEAM")
  = Ok [("gameid", [])].
Proof.
  split; reflexivity.
Qed.

(** Without a [split_on], [split_on.lower()] raises. *)
Lemma remove_inconsistent_games_None (df : DataFrame) (gameid : Series) :
  getitem df "gameid" = Ok gameid ->
  remove_inconsistent_games df None = Raise AttributeError.
Proof.
  intros Hg. unfold remove_inconsistent_games. rewrite Hg. reflexivity.
Qed.

(** ** Assigning columns *)

Lemma has_label_eqb (label : string) (c : string * Series) :
  has_label label c = String.eqb label (fst c).
Proof. unfold has_label. apply String.eqb_sym. Qed.

Lemma existsb_columns_filter (df : DataFrame) (label : string) :
  existsb (String.eqb label) (columns df) = false <->
  filter (has_label label) df = [].
Proof.
  induction df as [|c df IH]; simpl; [tauto|].
  rewrite has_label_eqb.
  destruct (String.eqb label (fst c)); simpl; [split; discriminate | exact IH].
Qed.

Lemma getitem_Ok_present (df : DataFrame) (label : string) (s : Series) :
  getitem df label = Ok s ->
  existsb (String.eqb label) (columns df) = true.
Proof.
  intros H. apply not_false_iff_true. intros Hno.
  apply existsb_columns_filter in Hno. unfold getitem in H.
  rewrite Hno in H. discriminate.
Qed.

Lemma filter_has_label_app (df : DataFrame) (label : string)
    (c : string * Series) :
  filter (has_label label) (df ++ [c])
  = filter (has_label label) df ++ (if has_label label c then [c] else []).
Proof.
  rewrite filter_app. simpl. now destruct (has_label label c).
Qed.

(** Reading back the column just assigned. *)
Lemma getitem_setitem_same (df : DataFrame) (label : string)
    (old values : Series) :
  getitem df label = Ok old ->
  getitem (setitem df label values) label = Ok values.
Proof.
  intros H. unfold setitem. rewrite (getitem_Ok_present _ _ _ H).
  unfold getitem in *.
  induction df as [|c df IH]; simpl in *; [discriminate|].
  destruct (has_label label c) eqn:Hc; simpl.
  - unfold has_label at 1. simpl. rewrite String.eqb_refl.
    destruct (filter (has_label label) df) as [|c' l] eqn:Hf;
      [|destruct l; discriminate].
    assert (Hnone : filter (has_label label)
              (map (fun c0 => if has_label label c0 then (label, values)
                              else c0) df) = []).
    { clear IH H. induction df as [|d df IHd]; simpl in *; [reflexivity|].
      destruct (has_label label d) eqn:Hd; [discriminate|].
      rewrite Hd. now apply IHd. }
    rewrite Hnone. reflexivity.
  - rewrite Hc. now apply IH.
Qed.

Lemma getitem_setitem_new (df : DataFrame) (label : string)
    (values : Series) :
  existsb (String.eqb label) (columns df) = false ->
  getitem (setitem df label values) label = Ok values.
Proof.
  intros H. unfold setitem. rewrite H. unfold getitem.
  rewrite filter_has_label_app.
  apply existsb_columns_filter in H. rewrite H. simpl.
  unfold has_label. simpl. now rewrite String.eqb_refl.
Qed.

(** The other columns are untouched. *)
Lemma getitem_setitem_other (df : DataFrame) (label other : string)
    (values : Series) :
  other <> label ->
  getitem (setitem df label values) other = getitem df other.
Proof.
  intros Hne. unfold setitem, getitem.
  assert (Hlab : has_label other (label, values) = false).
  { unfold has_label. simpl. apply String.eqb_neq. congruence. }
  destruct (existsb (String.eqb label) (columns df)).
  - assert (Hf : filter (has_label other)
             (map (fun c => if has_label label c then (label, values) else c)
                  df)
           = filter (has_label other) df).
    { induction df as [|c df IH]; simpl; [reflexivity|].
      destruct (has_label label c) eqn:Hc.
      - rewrite Hlab.
        assert (Hoc : has_label other c = false).
        { unfold has_label in *. apply String.eqb_eq in Hc.
          apply String.eqb_neq. congruence. }
        rewrite Hoc. exact IH.
      - destruct (has_label other c); now rewrite IH. }
    now rewrite Hf.
  - rewrite filter_has_label_app, Hlab, app_nil_r. reflexivity.
Qed.

Lemma columns_setitem (df : DataFrame) (label : string) (values : Series) :
  columns (setitem df label values)
  = if existsb (String.eqb label) (columns df)
    then columns df else columns df ++ [label].
Proof.
  unfold setitem, columns.
  destruct (existsb (String.eqb label) (map fst df)).
  - rewrite map_map. apply map_ext_in. intros c _.
    destruct (has_label label c) eqn:Hc; [|reflexivity].
    unfold has_label in Hc. apply String.eqb_eq in Hc. now subst.
  - now rewrite map_app.
Qed.

(** ** fillna *)

Lemma length_fillna (a b : Series) : length (fillna a b) = length a.
Proof.
  revert b. induction a as [|x a IH]; intros b; simpl; [reflexivity|].
  now rewrite IH.
Qed.

Lemma nth_error_fillna (a b : Series) (i : nat) :
  nth_error (fillna a b) i
  = match nth_error a i with
    | Some x => Some (if isna x then nth i b NaN else x)
    | None => None
    end.
Proof.
  revert b i. induction a as [|x a IH]; intros b i.
  - now destruct i.
  - destruct i as [|i]; simpl.
    + now destruct b.
    + rewrite IH. destruct (nth_error a i); [|reflexivity].
      destruct b; [destruct i|]; reflexivity.
Qed.

(** An identifier is still missing after [fillna] only where the name is
    missing too. *)
Lemma fillna_still_missing (a b : Series) (i : nat) :
  nth_error (fillna a b) i = Some NaN ->
  nth_error a i = Some NaN /\ nth i b NaN = NaN.
Proof.
  rewrite nth_error_fillna.
  destruct (nth_error a i) as [x|]; [|discriminate].
  destruct x; simpl; intros H; try discriminate.
  injection H as H. auto.
Qed.

Lemma fillna_idempotent (a b : Series) :
  fillna (fillna a b) b = fillna a b.
Proof.
  revert b. induction a as [|x a IH]; intros b; simpl; [reflexivity|].
  rewrite IH. f_equal.
  destruct (isna x) eqn:Hx; [|now rewrite Hx].
  now destruct (isna (hd NaN b)).
Qed.

(** ** fill_null_team_ids *)

(** C6, as the code has it.  [fill_null_team_ids] backfills [teamid] only,
    and only when [split_on] is "player": the returned table has [teamid]
    replaced by [teamid.fillna(teamname)], which keeps every identifier that
    was present, takes the row's [teamname] where it was missing and is
    missing only where [teamname] is missing too; every other column,
    [playerid] included, is as it was.  For any other [split_on] the input is
    returned unchanged. *)
Theorem fill_null_team_ids_backfill (df : DataFrame)
    (teamid teamname : Series) :
  getitem df "teamid" = Ok teamid ->
  getitem df "teamname" = Ok teamname ->
  (exists out,
     fill_null_team_ids (Some df) (Some "player") = Ok (Some out)
     /\ getitem out "teamid" = Ok (fillna teamid teamname)
     /\ (forall i, nth_error (fillna teamid teamname) i = Some NaN ->
           nth_error teamid i = Some NaN /\ nth i teamname NaN = NaN)
     /\ (forall i x, nth_error teamid i = Some x -> x <> NaN ->
           nth_error (fillna teamid teamname) i = Some x)
     /\ (forall i, nth_error teamid i = Some NaN ->
           nth_error (fillna teamid teamname) i = Some (nth i teamname NaN))
     /\ (forall label, label <> "teamid" ->
           getitem out label = getitem df label)
     /\ columns out = columns df)
  /\ (forall oe_data split_on,
        py_eq split_on "player" = false ->
        fill_null_team_ids oe_data split_on = Ok oe_data).
Proof.
  intros Hid Hname. split.
  - exists (setitem df "teamid" (fillna teamid teamname)).
    split; [unfold fill_null_team_ids; simpl; rewrite Hid, Hname;
            reflexivity|].
    split; [eapply getitem_setitem_same; eassumption|].
    split; [intros i; apply fillna_still_missing|].
    split.
    { intros i x Hx Hna. rewrite nth_error_fillna, Hx.
      destruct x; simpl; congruence. }
    split.
    { intros i Hx. rewrite nth_error_fillna, Hx. reflexivity. }
    split; [intros label Hl; now apply getitem_setitem_other|].
    rewrite columns_setitem, (getitem_Ok_present _ _ _ Hid). reflexivity.
  - intros oe_data split_on Hs. unfold fill_null_team_ids. now rewrite Hs.
Qed.

Lemma fill_null_team_ids_backfill_witness :
  exists out,
    fill_null_team_ids
      (Some [("teamname", [Str "T1"; Str "Gen.G"]);
             ("teamid", [NaN; Str "oe:team:geng"])])
      (Some "player")
    = Ok (Some out)
    /\ getitem out "teamid" = Ok [Str "T1"; Str "oe:team:geng"].
Proof.
  destruct (proj1 (fill_null_team_ids_backfill
                     [("teamname", [Str "T1"; Str "Gen.G"]);
                      ("teamid", [NaN; Str "oe:team:geng"])]
                     [NaN; Str "oe:team:geng"] [Str "T1"; Str "Gen.G"]
                     eq_refl eq_refl))
    as (out & Hrun & Hid & _).
  exists out. split; [exact Hrun | exact Hid].
Defined.

(** C6, as worded.  At team granularity a missing [teamid] is still missing
    after [fill_null_team_ids], and at player granularity a missing
    [playerid] is. *)
Lemma fill_null_team_ids_leaves_missing_counterexample :
  fill_null_team_ids
    (Some [("teamname", [Str "Alpha"]); ("teamid", [NaN])]) (Some "team")
  = Ok (Some [("teamname", [Str "Alpha"]); ("teamid", [NaN])])
  /\ (exists out,
        fill_null_team_ids
          (Some [("playername", [Str "Faker"]); ("playerid", [NaN]);
                 ("teamname", [Str "T1"]); ("teamid", [NaN])])
          (Some "player")
        = Ok (Some out)
        /\ getitem out "playerid" = Ok [NaN]).
Proof.
  split; [reflexivity|].
  eexists. split; reflexivity.
Qed.

(** ** The order on cells and on key tuples *)

Lemma string_leb_iff (x y : string) :
  String.leb x y = true <-> x = y \/ String_as_OT.lt x y.
Proof.
  unfold String.leb. split.
  - destruct (String.compare x y) eqn:Hc; [| |discriminate]; intros _.
    + left. now apply String.compare_eq_iff.
    + right. now apply String_as_OT.cmp_lt.
  - intros [->|Hlt].
    + destruct (String.compare y y) eqn:Hc; try reflexivity.
      pose proof (String.compare_antisym y y) as Ha. rewrite Hc in Ha.
      discriminate.
    + apply String_as_OT.cmp_lt in Hlt. unfold String_as_OT.cmp in Hlt.
      now rewrite Hlt.
Qed.

Lemma string_leb_trans (x y z : string) :
  String.leb x y = true -> String.leb y z = true -> String.leb x z = true.
Proof.
  rewrite !string_leb_iff. intros [->|Hxy] [->|Hyz]; auto.
  right. eapply String_as_OT.lt_trans; eassumption.
Qed.

Lemma cell_leb_total (a b : cell) :
  cell_leb a b = true \/ cell_leb b a = true.
Proof.
  destruct a as [|x|x|x], b as [|y|y|y]; simpl; auto.
  - apply String.leb_total.
  - destruct (Qle_bool x y) eqn:H; [now left|right].
    apply Qle_bool_iff. apply Qlt_le_weak. apply Qnot_le_lt.
    intros Hle. apply Qle_bool_iff in Hle. congruence.
  - destruct (Z.leb_spec x y); [now left|right]. apply Z.leb_le. lia.
Qed.

Lemma cell_leb_trans (a b c : cell) :
  cell_leb a b = true -> cell_leb b c = true -> cell_leb a c = true.
Proof.
  destruct a as [|x|x|x], b as [|y|y|y], c as [|z|z|z]; simpl;
    try congruence.
  - apply string_leb_trans.
  - rewrite !Qle_bool_iff. apply Qle_trans.
  - rewrite !Z.leb_le. lia.
Qed.

Lemma cell_leb_refl (a : cell) : cell_leb a a = true.
Proof. destruct (cell_leb_total a a); assumption. Qed.

Lemma key_leb_refl (k : list cell) : key_leb k k = true.
Proof.
  induction k as [|a k IH]; simpl; [reflexivity|].
  now rewrite cell_leb_refl.
Qed.

Lemma key_leb_total (k1 k2 : list cell) :
  key_leb k1 k2 = true \/ key_leb k2 k1 = true.
Proof.
  revert k2. induction k1 as [|a k1 IH]; intros [|b k2]; simpl; auto.
  destruct (cell_leb a b) eqn:Hab, (cell_leb b a) eqn:Hba; auto.
  destruct (cell_leb_total a b); congruence.
Qed.

Lemma key_leb_trans (k1 k2 k3 : list cell) :
  length k1 = length k2 -> length k2 = length k3 ->
  key_leb k1 k2 = true -> key_leb k2 k3 = true -> key_leb k1 k3 = true.
Proof.
  revert k2 k3.
  induction k1 as [|a k1 IH]; intros [|b k2] [|c k3]; simpl;
    try discriminate; auto.
  intros H12 H23.
  destruct (cell_leb a b) eqn:Hab; [|discriminate].
  destruct (cell_leb b c) eqn:Hbc; [|intros _; discriminate].
  rewrite (cell_leb_trans a b c Hab Hbc).
  destruct (cell_leb b a) eqn:Hba, (cell_leb c b) eqn:Hcb.
  - rewrite (cell_leb_trans c b a Hcb Hba). apply IH; congruence.
  - intros _ _. destruct (cell_leb c a) eqn:Hca; [|reflexivity].
    pose proof (cell_leb_trans c a b Hca Hab). congruence.
  - intros _ _. destruct (cell_leb c a) eqn:Hca; [|reflexivity].
    pose proof (cell_leb_trans b c a Hbc Hca). congruence.
  - intros _ _. destruct (cell_leb c a) eqn:Hca; [|reflexivity].
    pose proof (cell_leb_trans b c a Hbc Hca). congruence.
Qed.

Lemma cell_leb_antisym (a b : cell) :
  cell_leb a b = true -> cell_leb b a = true -> a = b.
Proof.
  destruct a as [|x|x|x], b as [|y|y|y]; simpl; try congruence.
  - intros H1 H2. f_equal. now apply String.leb_antisym.
  - rewrite !Qle_bool_iff. intros H1 H2. f_equal.
    now apply Qcle_antisym.
  - rewrite !Z.leb_le. intros H1 H2. f_equal. lia.
Qed.

(** Rows tie exactly when they have the same value under every key. *)
Lemma key_tie_eq (k1 k2 : list cell) :
  length k1 = length k2 -> key_tie k1 k2 = true -> k1 = k2.
Proof.
  unfold key_tie. revert k2.
  induction k1 as [|a k1 IH]; intros [|b k2]; simpl; try discriminate;
    [reflexivity|].
  intros Hlen H. apply andb_true_iff in H. destruct H as (H1 & H2).
  destruct (cell_leb a b) eqn:Hab; [|discriminate].
  destruct (cell_leb b a) eqn:Hba; [|discriminate].
  rewrite (cell_leb_antisym a b Hab Hba). f_equal.
  apply IH; [congruence|]. now rewrite H1, H2.
Qed.

Lemma key_tie_refl (k : list cell) : key_tie k k = true.
Proof. unfold key_tie. now rewrite key_leb_refl. Qed.

Lemma length_key_at (keys : list Series) (i : nat) :
  length (key_at keys i) = length keys.
Proof. apply length_map. Qed.

(** ** The stable lexsort *)

Section Lexsort.

Variable keys : list Series.

Lemma insert_index_perm (i : nat) (l : list nat) :
  Permutation (insert_index keys i l) (i :: l).
Proof.
  induction l as [|j l IH]; simpl; [reflexivity|].
  destruct (key_leb (key_at keys i) (key_at keys j)); [reflexivity|].
  rewrite IH. apply perm_swap.
Qed.

Lemma fold_insert_perm (l : list nat) :
  Permutation (fold_right (insert_index keys) [] l) l.
Proof.
  induction l as [|i l IH]; simpl; [reflexivity|].
  rewrite insert_index_perm. now constructor.
Qed.

Lemma lexsort_indexer_perm (n : nat) :
  Permutation (lexsort_indexer keys n) (seq 0 n).
Proof. apply fold_insert_perm. Qed.

Lemma sorts_before_trans (i j k : nat) :
  key_leb (key_at keys i) (key_at keys j) = true ->
  (i < k)%nat ->
  sorts_before keys j k -> sorts_before keys i k.
Proof.
  intros Hij Hik (Hjk & _). split; [|intros _; exact Hik].
  apply key_leb_trans with (k2 := key_at keys j);
    rewrite ?length_key_at; auto.
Qed.

(** Inserting a row that precedes, in the input, every row already placed
    keeps the list in stable sorted order. *)
Lemma insert_index_sorted (i : nat) (l : list nat) :
  StronglySorted (sorts_before keys) l ->
  Forall (fun j => (i < j)%nat) l ->
  StronglySorted (sorts_before keys) (insert_index keys i l).
Proof.
  induction l as [|j l IH]; intros Hs Hlt; simpl.
  - repeat constructor.
  - inversion Hs as [|j' l' Hs' Hj]; subst.
    inversion Hlt as [|j' l' Hij Hlt']; subst.
    destruct (key_leb (key_at keys i) (key_at keys j)) eqn:Hle.
    + constructor; [assumption|]. constructor.
      * split; [assumption | intros _; assumption].
      * rewrite Forall_forall in *. intros x Hx.
        apply sorts_before_trans with (j := j); auto.
    + constructor; [now apply IH|].
      assert (Hji : sorts_before keys j i).
      { split.
        - destruct (key_leb_total (key_at keys i) (key_at keys j));
            congruence.
        - unfold key_tie. rewrite Hle, andb_false_r. discriminate. }
      rewrite Forall_forall in *. intros x Hx.
      apply (Permutation_in _ (insert_index_perm i l)) in Hx.
      destruct Hx as [<-|Hx]; auto.
Qed.

Lemma fold_insert_sorted (m s : nat) :
  StronglySorted (sorts_before keys)
    (fold_right (insert_index keys) [] (seq s m)).
Proof.
  revert s. induction m as [|m IH]; intros s; simpl; [constructor|].
  apply insert_index_sorted; [apply IH|].
  rewrite Forall_forall. intros j Hj.
  apply (Permutation_in _ (fold_insert_perm _)) in Hj.
  apply in_seq in Hj. lia.
Qed.

Lemma lexsort_indexer_sorted (n : nat) :
  StronglySorted (sorts_before keys) (lexsort_indexer keys n).
Proof. apply fold_insert_sorted. Qed.

End Lexsort.

Lemma StronglySorted_nth_error {X : Type} (R : X -> X -> Prop) (l : list X) :
  StronglySorted R l ->
  forall a b x y, (a < b)%nat ->
    nth_error l a = Some x -> nth_error l b = Some y -> R x y.
Proof.
  induction 1 as [|z l Hs IH Hz]; intros a b x y Hab Ha Hb.
  - destruct a; discriminate.
  - destruct b as [|b]; [lia|]. simpl in Hb.
    destruct a as [|a]; simpl in Ha.
    + injection Ha as <-. rewrite Forall_forall in Hz.
      apply Hz. eapply nth_error_In; eassumption.
    + apply (IH a b); auto. lia.
Qed.

Lemma getitem_take (indexer : list nat) (df : DataFrame) (label : string) :
  getitem (take indexer df) label
  = (s <- getitem df label ;; Ok (map (fun i => nth i s NaN) indexer)).
Proof.
  apply (getitem_map_values (fun s => map (fun i => nth i s NaN) indexer)).
Qed.

Lemma sort_values_unfold (df : DataFrame) (by_ : list string)
    (keys : list Series) :
  mapM (getitem df) by_ = Ok keys ->
  sort_values df by_
  = if forallb comparable keys
    then Ok (take (lexsort_indexer keys (nrows df)) df)
    else Raise TypeError.
Proof. intros H. unfold sort_values. now rewrite H. Qed.

Lemma sort_data_sort_values (df : DataFrame) (split_on : string) :
  split_on = "team" \/ split_on = "player" ->
  sort_data df (Some split_on)
  = (out <- sort_values df (sort_keys split_on) ;; Ok (Some out)).
Proof. intros [->| ->]; reflexivity. Qed.

(** The embedding of [sort_values] is a stable sort.  For "team" and
    "player", [sort_data] returns as soon as the key columns (league, date,
    gameid, side, and position for players) are there and none mixes numbers
    with timestamps.  What it returns is the input with its rows rearranged
    by a permutation [indexer]: output row [a] is input row [indexer[a]];
    along the output the key tuples never decrease, and two rows that tie on
    every key stand in their input order.  The order of tied rows is that of
    the insertion sort [lexsort_indexer] is written as; the call in the
    source names no sorting algorithm. *)
Lemma sort_values_embedding_stable (df : DataFrame) (split_on : string)
    (keys : list Series) :
  split_on = "team" \/ split_on = "player" ->
  mapM (getitem df) (sort_keys split_on) = Ok keys ->
  forallb comparable keys = true ->
  exists indexer,
    sort_data df (Some split_on) = Ok (Some (take indexer df))
    /\ Permutation indexer (seq 0 (nrows df))
    /\ (forall label s, getitem df label = Ok s ->
          getitem (take indexer df) label
          = Ok (map (fun i => nth i s NaN) indexer))
    /\ (forall a b i j, (a < b)%nat ->
          nth_error indexer a = Some i -> nth_error indexer b = Some j ->
          key_leb (key_at keys i) (key_at keys j) = true /\
          (key_tie (key_at keys i) (key_at keys j) = true -> (i < j)%nat))
    /\ (forall a b i j, (a < b)%nat ->
          nth_error indexer a = Some i -> nth_error indexer b = Some j ->
          key_at keys i = key_at keys j -> (i < j)%nat).
Proof.
  intros Hs Hkeys Hcmp.
  exists (lexsort_indexer keys (nrows df)).
  split.
  { rewrite sort_data_sort_values by assumption.
    rewrite (sort_values_unfold _ _ _ Hkeys), Hcmp. reflexivity. }
  split; [apply lexsort_indexer_perm|].
  split; [intros label s Hl; rewrite getitem_take, Hl; reflexivity|].
  pose proof (StronglySorted_nth_error _ _
                (lexsort_indexer_sorted keys (nrows df))) as Hsorted.
  split.
  - intros a b i j Hab Ha Hb. exact (Hsorted a b i j Hab Ha Hb).
  - intros a b i j Hab Ha Hb Heq.
    destruct (Hsorted a b i j Hab Ha Hb) as (_ & Htie).
    apply Htie. rewrite Heq. apply key_tie_refl.
Qed.

Lemma sort_values_embedding_stable_example :
  exists indexer,
    sort_data example_unsorted (Some "team")
    = Ok (Some (take indexer example_unsorted))
    /\ Permutation indexer (seq 0 4)
    /\ getitem (take indexer example_unsorted) "position"
       = Ok [Str "mid"; Str "team"; Str "top"; Str "team"].
Proof.
  destruct (sort_values_embedding_stable example_unsorted "team"
              [[Str "LCK"; Str "LCK"; Str "LCK"; Str "LCK"];
               [Date 2; Date 1; Date 2; Date 1];
               [Str "g2"; Str "g1"; Str "g2"; Str "g1"];
               [Str "Red"; Str "Blue"; Str "Red"; Str "Blue"]]
              (or_introl eq_refl) eq_refl eq_refl)
    as (indexer & Hrun & Hperm & _).
  exists indexer. split; [exact Hrun|]. split; [exact Hperm|].
  vm_compute in Hrun. injection Hrun as _ _ _ _ Hpos.
  rewrite getitem_take. simpl. f_equal. symmetry. exact Hpos.
Qed.

(** ** clean_data *)

Lemma bind_Ok {X Y : Type} (m : result X) (k : X -> result Y) (y : Y) :
  bind m k = Ok y -> exists x, m = Ok x /\ k x = Ok y.
Proof.
  destruct m as [x|e]; simpl; [eauto | discriminate].
Qed.

Ltac inv_bind H :=
  let x := fresh "x" in
  let Hx := fresh "H" x in
  apply bind_Ok in H; destruct H as (x & Hx & H).

Tactic Notation "inv_bind_as" hyp(H) ident(x) ident(Hx) :=
  apply bind_Ok in H; destruct H as (x & Hx & H).

Lemma select_columns_columns (df out : DataFrame) (labels : list string) :
  select_columns df labels = Ok out -> columns out = labels.
Proof.
  unfold select_columns. intros H. apply mapM_Ok_Forall2 in H.
  unfold columns.
  induction H as [|label c labels' out' Hc _ IH]; simpl; [reflexivity|].
  inv_bind Hc. injection Hc as <-. simpl. now rewrite IH.
Qed.

Lemma columns_assign (df : DataFrame) (metrics : list (string * Series)) :
  columns (assign df metrics) = add_labels (columns df) (map fst metrics).
Proof.
  unfold assign, add_labels. revert df.
  induction metrics as [|kv metrics IH]; intros df; simpl; [reflexivity|].
  rewrite IH, columns_setitem. reflexivity.
Qed.

Lemma subset_data_columns (oe_data : option DataFrame) (split_on : string)
    (out : DataFrame) :
  subset_data oe_data (Some split_on) = Ok out ->
  subset_columns split_on = Some (columns out).
Proof.
  unfold subset_data.
  destruct (subset_columns split_on) as [labels|]; [|discriminate].
  destruct oe_data as [df|]; [|discriminate].
  intros H. inv_bind H.
  apply select_columns_columns in H. now rewrite H.
Qed.

Lemma remove_inconsistent_games_columns (df out : DataFrame)
    (split_on : option string) :
  remove_inconsistent_games df split_on = Ok out ->
  columns out = columns df.
Proof.
  unfold remove_inconsistent_games. intros H. inv_bind H.
  destruct split_on; [|discriminate].
  injection H as <-. apply columns_boolean_mask.
Qed.

Lemma enrich_opponent_metrics_columns (df out : DataFrame)
    (split_on : option string) :
  enrich_opponent_metrics df split_on = Ok out ->
  columns out
  = add_labels (columns df)
      (["teamid"; "opponentteam"; "opponentteamid"; "opponent_egpm"]
       ++ (if py_eq split_on "player"
           then ["playerid"; "opponentname"; "opponentid"] else [])).
Proof.
  unfold enrich_opponent_metrics. intros H.
  do 6 inv_bind H. inv_bind H. injection H as <-.
  rewrite columns_assign. f_equal.
  destruct (py_eq split_on "player").
  - do 4 inv_bind Hx5. injection Hx5 as <-. reflexivity.
  - injection Hx5 as <-. reflexivity.
Qed.

Lemma subset_columns_Some (split_on : string) (labels : list string) :
  subset_columns split_on = Some labels ->
  split_on = "team" \/ split_on = "player".
Proof.
  unfold subset_columns.
  destruct (String.eqb_spec split_on "team"); [now left|].
  destruct (String.eqb_spec split_on "player"); [now right | discriminate].
Qed.

Section CleanData.

Variable to_datetime : Series -> option (list (option Z)).

(** C8, as the code has it.  On a table whose labels are pairwise distinct,
    whenever [clean_data] returns a table the granularity is "team" or
    "player" and the labels of the result are, in order, the labels
    [subset_data] selects for that granularity followed by the opponent
    columns, nothing more and nothing less: for "team" the 25 team labels
    with [opponentteam], [opponentteamid] and [opponent_egpm]; for "player"
    the 47 player labels with those three and [opponentname] and
    [opponentid].  The player labels are not the team labels with fields
    added: [firstblood], [dragons], [barons] and [towers] are not among
    them. *)
Theorem clean_data_schema (oe_data : DataFrame)
    (split_on : option string) (out : DataFrame) :
  distinct (columns oe_data) = true ->
  clean_data to_datetime oe_data split_on = Ok out ->
  ((split_on = Some "team" /\ columns out = team_table_columns)
   \/ (split_on = Some "player" /\ columns out = player_table_columns))
  /\ NoDup (columns out).
Proof.
  unfold clean_data. intros _ H. do 8 inv_bind H. injection H as <-.
  destruct split_on as [s|]; [|discriminate].
  pose proof (subset_data_columns _ _ _ Hx4) as Hsub.
  pose proof (subset_columns_Some _ _ Hsub) as Hs.
  apply remove_inconsistent_games_columns in Hx5.
  apply enrich_opponent_metrics_columns in Hx6.
  rewrite Hx5 in Hx6.
  remember (columns x4) as labels eqn:Hlabels.
  remember (columns x6) as cols eqn:Hcols.
  destruct Hs as [-> | ->]; vm_compute in Hsub; injection Hsub as <-;
    vm_compute in Hx6; rewrite Hx6.
  - split; [left; split; reflexivity|].
    repeat (constructor; [simpl; intuition discriminate|]); constructor.
  - split; [right; split; reflexivity|].
    repeat (constructor; [simpl; intuition discriminate|]); constructor.
Qed.

End CleanData.

Lemma clean_data_schema_witness :
  (exists out,
     clean_data to_datetime_compact example_game (Some "team") = Ok out
     /\ columns out = team_table_columns)
  /\ (exists out,
        clean_data to_datetime_compact example_player_game (Some "player")
        = Ok out
        /\ columns out = player_table_columns).
Proof.
  split.
  - destruct (clean_data to_datetime_compact example_game (Some "team"))
      as [out|e] eqn:Hrun; [|vm_compute in Hrun; discriminate].
    exists out. split; [reflexivity|].
    destruct (clean_data_schema to_datetime_compact example_game
                (Some "team") out eq_refl Hrun)
      as ([(_ & Hcols)|(Hs & _)] & _); [exact Hcols | discriminate].
  - destruct (clean_data to_datetime_compact example_player_game
                (Some "player"))
      as [out|e] eqn:Hrun; [|vm_compute in Hrun; discriminate].
    exists out. split; [reflexivity|].
    destruct (clean_data_schema to_datetime_compact example_player_game
                (Some "player") out eq_refl Hrun)
      as ([(Hs & _)|(_ & Hcols)] & _); [discriminate | exact Hcols].
Defined.

(** C8, as worded.  The glossary gives the Player Schema as the Team Schema
    with player fields added, and the Team Schema lists [firstblood],
    [dragons], [barons] and [towers].  The ten player rows of the example
    carry these four columns, and the table [clean_data] returns for
    "player" has none of them. *)
Lemma clean_data_schema_player_counterexample :
  exists out,
    clean_data to_datetime_compact example_player_game (Some "player")
    = Ok out
    /\ forall label,
         In label ["firstblood"; "dragons"; "barons"; "towers"] ->
         In label team_table_columns
         /\ In label (columns example_player_game)
         /\ ~ In label (columns out).
Proof.
  destruct (clean_data to_datetime_compact example_player_game
              (Some "player"))
    as [out|e] eqn:Hrun; [|vm_compute in Hrun; discriminate].
  exists out. split; [reflexivity|].
  vm_compute in Hrun. injection Hrun as <-.
  intros label [<-|[<-|[<-|[<-|[]]]]];
    (split; [simpl; auto 20|]);
    (split; [vm_compute; auto 60|]);
    vm_compute; intuition discriminate.
Qed.

(** ** Columns that stay readable *)

Lemma is_series_Ok (df : DataFrame) (label : string) :
  is_series df label = true <-> exists s, getitem df label = Ok s.
Proof.
  unfold is_series. destruct (getitem df label) as [s|e]; split; eauto.
  - discriminate.
  - intros (s & H). discriminate.
Qed.


Lemma getitem_replace (df : DataFrame) (labels : list string)
    (label : string) :
  getitem (replace df labels) label
  = (s <- getitem df label ;;
     Ok (if existsb (String.eqb label) labels
         then replace_values s else s)).
Proof.
  unfold replace, getitem.
  rewrite (filter_has_label_map
             (fun c => if existsb (String.eqb (fst c)) labels
                       then (fst c, replace_values (snd c)) else c))
    by (intros c; now destruct (existsb (String.eqb (fst c)) labels)).
  destruct (filter (has_label label) df) as [|c [|c' l]] eqn:Hf;
    try reflexivity.
  assert (Hc : fst c = label).
  { assert (Hin : In c (filter (has_label label) df))
      by (rewrite Hf; now left).
    apply filter_In in Hin. destruct Hin as (_ & Hl).
    unfold has_label in Hl. now apply String.eqb_eq in Hl. }
  simpl. rewrite Hc.
  now destruct (existsb (String.eqb label) labels).
Qed.


Lemma is_series_boolean_mask (mask : list bool) (df : DataFrame)
    (label : string) :
  is_series (boolean_mask mask df) label = is_series df label.
Proof.
  unfold is_series. rewrite getitem_boolean_mask.
  now destruct (getitem df label).
Qed.

(** A length of 100 seconds is 1.6666666666666667 minutes, the double next
    to 5/3; half an hour is 30 minutes exactly. *)
Lemma truediv60_rounds :
  match truediv60 [number 100; number 1800; NaN] with
  | Ok [Num q; Num r; NaN] =>
      Qeq_bool q (7505999378950827 # 4503599627370496) = true
      /\ Qeq_bool r 30 = true
  | _ => False
  end.
Proof.
  vm_compute. split; reflexivity.
Qed.



Section Granularity.

Variable to_datetime : Series -> option (list (option Z)).



End Granularity.



(** ** Values assigned by [assign] *)

Lemma getitem_KeyError_absent (df : DataFrame) (label : string) :
  ~ In label (columns df) ->
  existsb (String.eqb label) (columns df) = false.
Proof.
  intros H. apply not_true_iff_false. intros Hex.
  apply existsb_exists in Hex. destruct Hex as (l & Hin & Heq).
  apply String.eqb_eq in Heq. now subst.
Qed.

Lemma setitem_In_columns (df : DataFrame) (label other : string)
    (values : Series) :
  In other (columns (setitem df label values)) ->
  In other (columns df) \/ other = label.
Proof.
  rewrite columns_setitem.
  destruct (existsb (String.eqb label) (columns df)); [now left|].
  intros H. apply in_app_or in H. destruct H as [H|[<-|[]]]; auto.
Qed.

Lemma assign_In_columns (metrics : list (string * Series)) :
  forall (df : DataFrame) (other : string),
    In other (columns (assign df metrics)) ->
    In other (columns df) \/ In other (map fst metrics).
Proof.
  induction metrics as [|kv metrics IH]; intros df other H; simpl in *;
    [now left|].
  apply IH in H. destruct H as [H|H]; [|now right; right].
  apply setitem_In_columns in H. destruct H as [H| ->]; auto.
Qed.

Lemma getitem_assign_other (metrics : list (string * Series)) :
  forall (df : DataFrame) (label : string),
    ~ In label (map fst metrics) ->
    getitem (assign df metrics) label = getitem df label.
Proof.
  induction metrics as [|kv metrics IH]; intros df label Hno; simpl in *;
    [reflexivity|].
  unfold assign in *. simpl. rewrite IH by tauto.
  apply getitem_setitem_other. intros ->. tauto.
Qed.

(** A keyword given once, for a label that is a column of the frame or new
    to it, is what the assigned frame holds under that label. *)
Lemma getitem_assign_once (df : DataFrame) (pre post : list (string * Series))
    (label : string) (values : Series) :
  ~ In label (map fst pre) -> ~ In label (map fst post) ->
  is_series df label = true \/ ~ In label (columns df) ->
  getitem (assign df (pre ++ (label, values) :: post)) label = Ok values.
Proof.
  intros Hpre Hpost Hdf. unfold assign. rewrite fold_left_app. simpl.
  fold (assign df pre).
  fold (assign (setitem (assign df pre) label values) post).
  rewrite getitem_assign_other by assumption.
  destruct Hdf as [Hs|Hnew].
  - apply is_series_Ok in Hs. destruct Hs as (old & Hold).
    apply getitem_setitem_same with (old := old).
    now rewrite getitem_assign_other.
  - apply getitem_setitem_new, getitem_KeyError_absent.
    intros Hin. apply assign_In_columns in Hin. tauto.
Qed.

(** ** enrich_opponent_metrics *)

(** The opponent identifiers are read off the identifier column of the
    incoming frame, while the identifier column itself is backfilled. *)
Lemma enrich_opponent_metrics_teamid (df out : DataFrame)
    (split_on : option string) :
  enrich_opponent_metrics df split_on = Ok out ->
  ~ In "opponentteamid" (columns df) ->
  exists teamid teamname opponentteamid,
    getitem df "teamid" = Ok teamid
    /\ getitem df "teamname" = Ok teamname
    /\ get_opponent teamid split_on = Ok opponentteamid
    /\ getitem out "opponentteamid" = Ok opponentteamid
    /\ getitem out "teamid" = Ok (fillna teamid teamname).
Proof.
  unfold enrich_opponent_metrics. intros H Hnew.
  inv_bind_as H teamid Hteamid. inv_bind_as H teamname Hteamname.
  inv_bind_as H ot Hot. inv_bind_as H oti Hoti.
  inv_bind_as H egpm Hegpm. inv_bind_as H oe Hoe.
  inv_bind_as H metrics Hx. injection H as <-.
  exists teamid, teamname, oti.
  split; [assumption|]. split; [assumption|]. split; [assumption|].
  assert (Hm : exists tail,
             metrics
             = [("teamid", fillna teamid teamname); ("opponentteam", ot);
                ("opponentteamid", oti); ("opponent_egpm", oe)] ++ tail
             /\ ~ In "opponentteamid" (map fst tail)
             /\ ~ In "teamid" (map fst tail)).
  { destruct (py_eq split_on "player").
    - do 4 inv_bind Hx. injection Hx as <-. eexists. split; [reflexivity|].
      simpl. split; intuition discriminate.
    - injection Hx as <-. exists []. rewrite app_nil_r. simpl. auto. }
  destruct Hm as (tail & -> & Htail1 & Htail2). split.
  - apply (getitem_assign_once df
             [("teamid", fillna teamid teamname); ("opponentteam", ot)]
             (("opponent_egpm", oe) :: tail)); simpl.
    + intuition discriminate.
    + intros [H|H]; [discriminate | tauto].
    + now right.
  - apply (getitem_assign_once df []
             (("opponentteam", ot) :: ("opponentteamid", oti)
              :: ("opponent_egpm", oe) :: tail)); simpl.
    + tauto.
    + intros [H|[H|[H|H]]]; try discriminate. tauto.
    + left. apply is_series_Ok. eauto.
Qed.

(** The same at player granularity for the player identifiers. *)
Lemma enrich_opponent_metrics_opponentid (df out : DataFrame) :
  enrich_opponent_metrics df (Some "player") = Ok out ->
  ~ In "opponentid" (columns df) ->
  exists playerid playername opponentid,
    getitem df "playerid" = Ok playerid
    /\ getitem df "playername" = Ok playername
    /\ get_opponent playerid (Some "player") = Ok opponentid
    /\ getitem out "opponentid" = Ok opponentid
    /\ getitem out "playerid" = Ok (fillna playerid playername).
Proof.
  unfold enrich_opponent_metrics. intros H Hnew.
  change (py_eq (Some "player") "player") with true in H. cbv iota in H.
  inv_bind_as H teamid Hteamid. inv_bind_as H teamname Hteamname.
  inv_bind_as H ot Hot. inv_bind_as H oti Hoti.
  inv_bind_as H egpm Hegpm. inv_bind_as H oe Hoe.
  inv_bind_as H metrics Hm. injection H as <-.
  inv_bind_as Hm playerid Hplayerid. inv_bind_as Hm playername Hplayername.
  inv_bind_as Hm on Hon. inv_bind_as Hm oi Hoi. injection Hm as <-.
  exists playerid, playername, oi.
  split; [assumption|]. split; [assumption|]. split; [assumption|]. split.
  - apply (getitem_assign_once df
             [("teamid", fillna teamid teamname); ("opponentteam", ot);
              ("opponentteamid", oti); ("opponent_egpm", oe);
              ("playerid", fillna playerid playername);
              ("opponentname", on)] []); simpl.
    + intuition discriminate.
    + tauto.
    + now right.
  - apply (getitem_assign_once df
             [("teamid", fillna teamid teamname); ("opponentteam", ot);
              ("opponentteamid", oti); ("opponent_egpm", oe)]
             [("opponentname", on); ("opponentid", oi)]); simpl.
    + intuition discriminate.
    + intuition discriminate.
    + left. apply is_series_Ok. eauto.
Qed.

Section OpponentIds.

Variable to_datetime : Series -> option (list (option Z)).

(** C10.  [enrich_opponent_metrics] computes [opponentteamid] with
    [get_opponent] from the [teamid] column of the frame it receives, while
    the [teamid] it assigns is that column backfilled from [teamname]; at
    player granularity it likewise computes [opponentid] from the [playerid]
    column it receives, while the [playerid] it assigns is that column
    backfilled from [playername].  Hence, on the example game whose first
    team row has no raw [teamid], [clean_data] at team granularity returns a
    table in which every [teamid] is present and [opponentteamid] has a
    missing value; and on the example game whose first player row has no raw
    [playerid], [clean_data] at player granularity returns a table in which
    every [playerid] is present and [opponentid] has a missing value. *)
Theorem opponent_ids_not_backfilled :
  (forall df out split_on,
     enrich_opponent_metrics df split_on = Ok out ->
     ~ In "opponentteamid" (columns df) ->
     exists teamid teamname opponentteamid,
       getitem df "teamid" = Ok teamid
       /\ getitem df "teamname" = Ok teamname
       /\ get_opponent teamid split_on = Ok opponentteamid
       /\ getitem out "opponentteamid" = Ok opponentteamid
       /\ getitem out "teamid" = Ok (fillna teamid teamname))
  /\ (forall df out,
       enrich_opponent_metrics df (Some "player") = Ok out ->
       ~ In "opponentid" (columns df) ->
       exists playerid playername opponentid,
         getitem df "playerid" = Ok playerid
         /\ getitem df "playername" = Ok playername
         /\ get_opponent playerid (Some "player") = Ok opponentid
         /\ getitem out "opponentid" = Ok opponentid
         /\ getitem out "playerid" = Ok (fillna playerid playername))
  /\ (to_datetime [Date 1673776800; Date 1673776800]
      = Some [Some 1673776800; Some 1673776800] ->
      getitem example_game "teamid" = Ok [NaN; Str "oe:team:beta"]
      /\ exists out teamid opponentteamid,
           clean_data to_datetime example_game (Some "team") = Ok out
           /\ getitem out "teamid" = Ok teamid
           /\ forallb notna teamid = true
           /\ getitem out "opponentteamid" = Ok opponentteamid
           /\ In NaN opponentteamid)
  /\ (to_datetime (repeat (Date 1673776800) 10)
      = Some (repeat (Some 1673776800) 10) ->
      (exists playerid, getitem example_player_game "playerid" = Ok playerid
                        /\ nth_error playerid 0 = Some NaN)
      /\ exists out playerid opponentid,
           clean_data to_datetime example_player_game (Some "player") = Ok out
           /\ getitem out "playerid" = Ok playerid
           /\ forallb notna playerid = true
           /\ getitem out "opponentid" = Ok opponentid
           /\ nth_error opponentid 5 = Some NaN).
Proof.
  split; [exact enrich_opponent_metrics_teamid|].
  split; [exact enrich_opponent_metrics_opponentid|].
  split.
  - intros Hparse. split; [reflexivity|].
    exists match clean_data to_datetime_compact example_game (Some "team")
           with Ok out => out | Raise _ => [] end,
           [Str "Alpha"; Str "oe:team:beta"], [Str "oe:team:beta"; NaN].
    split.
    + unfold clean_data, format_data_types.
      change (getitem example_game "date")
        with (Ok [Date 1673776800; Date 1673776800]).
      cbn [bind]. rewrite Hparse. vm_compute. reflexivity.
    + vm_compute. intuition.
  - intros Hparse. split.
    + eexists. split; [vm_compute; reflexivity | reflexivity].
    + exists match clean_data to_datetime_compact example_player_game
                     (Some "player")
             with Ok out => out | Raise _ => [] end,
             [Str "Ann"; Str "oe:player:bob"; Str "oe:player:cho";
              Str "oe:player:dee"; Str "oe:player:eli"; Str "oe:player:fay";
              Str "oe:player:gus"; Str "oe:player:hal"; Str "oe:player:ida";
              Str "oe:player:jon"],
             [Str "oe:player:fay"; Str "oe:player:gus"; Str "oe:player:hal";
              Str "oe:player:ida"; Str "oe:player:jon"; NaN;
              Str "oe:player:bob"; Str "oe:player:cho"; Str "oe:player:dee";
              Str "oe:player:eli"].
      split.
      * unfold clean_data, format_data_types.
        change (getitem example_player_game "date")
          with (Ok (repeat (Date 1673776800) 10)).
        cbn [bind]. rewrite Hparse. vm_compute. reflexivity.
      * split; [vm_compute; reflexivity|].
        split; [vm_compute; reflexivity|].
        split; [vm_compute; reflexivity | reflexivity].
Qed.

End OpponentIds.

Lemma opponent_ids_not_backfilled_witness :
  (exists out teamid opponentteamid,
     clean_data to_datetime_compact example_game (Some "team") = Ok out
     /\ getitem out "teamid" = Ok teamid
     /\ forallb notna teamid = true
     /\ getitem out "opponentteamid" = Ok opponentteamid
     /\ In NaN opponentteamid)
  /\
  (exists out playerid opponentid,
     clean_data to_datetime_compact example_player_game (Some "player")
     = Ok out
     /\ getitem out "playerid" = Ok playerid
     /\ forallb notna playerid = true
     /\ getitem out "opponentid" = Ok opponentid
     /\ nth_error opponentid 5 = Some NaN).
Proof.
  split.
  - apply (proj1 (proj2 (proj2
             (opponent_ids_not_backfilled to_datetime_compact))) eq_refl).
  - apply (proj2 (proj2 (proj2 (proj2
             (opponent_ids_not_backfilled to_datetime_compact))) eq_refl)).
Defined.

(** ** The order of the stages *)

Section StageOrder.

Variable to_datetime : Series -> option (list (option Z)).

(** The stages entered are an initial part of the list run. *)
Lemma run_stages_prefix (stages : list stage) (split_on : option string) :
  forall oe_data,
    exists n, fst (run_stages to_datetime stages split_on oe_data)
              = firstn n stages.
Proof.
  induction stages as [|st stages IH]; intros oe_data; simpl.
  - exists O. reflexivity.
  - destruct (run_stage to_datetime st split_on oe_data) as [o|e].
    + destruct (IH o) as (n & Hn).
      destruct (run_stages to_datetime stages split_on o) as (tr, r).
      simpl in *. exists (S n). simpl. now rewrite Hn.
    + exists 1%nat. reflexivity.
Qed.

(** A run that returns has entered every stage. *)
Lemma run_stages_Ok (stages : list stage) (split_on : option string) :
  forall oe_data out,
    snd (run_stages to_datetime stages split_on oe_data) = Ok out ->
    fst (run_stages to_datetime stages split_on oe_data) = stages.
Proof.
  induction stages as [|st stages IH]; intros oe_data out; simpl;
    [reflexivity|].
  destruct (run_stage to_datetime st split_on oe_data) as [o|e];
    [|discriminate].
  specialize (IH o out).
  destruct (run_stages to_datetime stages split_on o) as (tr, r).
  simpl in *. intros H. now rewrite IH.
Qed.

(** Running the list of stages is running the body of [clean_data]. *)
Lemma run_stages_clean_data (oe_data : DataFrame)
    (split_on : option string) :
  snd (run_stages to_datetime clean_data_stages split_on (Some oe_data))
  = (out <- clean_data to_datetime oe_data split_on ;; Ok (Some out)).
Proof.
  unfold clean_data, clean_data_stages.
  cbn [run_stages run_stage on_frame bind].
  destruct (format_data_types to_datetime oe_data) as [d1|e];
    [|reflexivity]. cbn [on_frame bind].
  destruct (remove_null_games d1) as [d2|e]; [|reflexivity].
  cbn [on_frame bind].
  destruct (drop_unknown_entities d2) as [d3|e]; [|reflexivity].
  cbn [on_frame bind].
  destruct (sort_data d3 split_on) as [d4|e]; [|reflexivity].
  cbn [on_frame bind].
  destruct (fill_null_team_ids d4 split_on) as [d5|e]; [|reflexivity].
  cbn [on_frame bind].
  destruct (subset_data d5 split_on) as [d6|e]; [|reflexivity].
  cbn [on_frame bind].
  destruct (remove_inconsistent_games d6 split_on) as [d7|e];
    [|reflexivity]. cbn [on_frame bind].
  destruct (enrich_opponent_metrics d7 split_on) as [d8|e]; reflexivity.
Qed.

(** C1, as the code has it.  [clean_data] runs its eight stages in source
    order, in which [remove_inconsistent_games] comes right before
    [enrich_opponent_metrics]: the stages entered by a call are an initial
    part of that list, game-size filtering is never entered after
    opponent enrichment, and whenever enrichment is entered (in
    particular whenever the call returns) filtering was entered before
    it. *)
Theorem clean_data_filters_before_enrichment (oe_data : DataFrame)
    (split_on : option string) :
  (exists n, clean_data_trace to_datetime oe_data split_on
             = firstn n clean_data_stages)
  /\ runs_after EnrichOpponentMetrics RemoveInconsistentGames
       (clean_data_trace to_datetime oe_data split_on) = false
  /\ (existsb (stage_eqb EnrichOpponentMetrics)
        (clean_data_trace to_datetime oe_data split_on) = true ->
      runs_after RemoveInconsistentGames EnrichOpponentMetrics
        (clean_data_trace to_datetime oe_data split_on) = true)
  /\ (forall out,
        clean_data to_datetime oe_data split_on = Ok out ->
        clean_data_trace to_datetime oe_data split_on
        = [FormatDataTypes; RemoveNullGames; DropUnknownEntities; SortData;
           FillNullTeamIds; SubsetData; RemoveInconsistentGames;
           EnrichOpponentMetrics])
  /\ snd (run_stages to_datetime clean_data_stages split_on (Some oe_data))
     = (out <- clean_data to_datetime oe_data split_on ;; Ok (Some out)).
Proof.
  unfold clean_data_trace.
  destruct (run_stages_prefix clean_data_stages split_on (Some oe_data))
    as (n & Hn).
  split; [eauto|]. split; [|split; [|split]].
  - rewrite Hn. do 9 (destruct n as [|n]; [reflexivity|]). reflexivity.
  - rewrite Hn. do 9 (destruct n as [|n]; [now simpl|]). reflexivity.
  - intros out Hout.
    apply (run_stages_Ok clean_data_stages split_on (Some oe_data)
             (Some out)).
    rewrite run_stages_clean_data, Hout. reflexivity.
  - apply run_stages_clean_data.
Qed.

End StageOrder.

(** C1, as worded.  On the example game at team granularity [clean_data]
    returns a table, having entered [remove_inconsistent_games] as its
    seventh stage and [enrich_opponent_metrics] as its eighth: filtering is
    not placed after enrichment. *)
Lemma clean_data_filter_after_enrichment_counterexample :
  (exists out,
     clean_data to_datetime_compact example_game (Some "team") = Ok out)
  /\ clean_data_trace to_datetime_compact example_game (Some "team")
     = [FormatDataTypes; RemoveNullGames; DropUnknownEntities; SortData;
        FillNullTeamIds; SubsetData; RemoveInconsistentGames;
        EnrichOpponentMetrics]
  /\ runs_after EnrichOpponentMetrics RemoveInconsistentGames
       (clean_data_trace to_datetime_compact example_game (Some "team"))
     = false.
Proof.
  split; [eexists; vm_compute; reflexivity|].
  split; vm_compute; reflexivity.
Qed.

(** The order shows in what a call returns.  A game that lost a row is
    filtered out before the opponent columns are computed, so [clean_data]
    returns a table without rows; enrichment of the unfiltered table would
    run off the end of the column. *)
Lemma clean_data_ragged_game :
  (exists out,
     clean_data to_datetime_compact example_ragged (Some "team") = Ok out
     /\ getitem out "gameid" = Ok []
     /\ getitem out "opponentteam" = Ok [])
  /\ (exists unfiltered,
        (d1 <- format_data_types to_datetime_compact example_ragged ;;
         d2 <- remove_null_games d1 ;;
         d3 <- drop_unknown_entities d2 ;;
         d4 <- sort_data d3 (Some "team") ;;
         d5 <- fill_null_team_ids d4 (Some "team") ;;
         subset_data d5 (Some "team")) = Ok unfiltered
        /\ getitem unfiltered "gameid" = Ok [Str "g1"]
        /\ enrich_opponent_metrics unfiltered (Some "team")
           = Raise IndexError).
Proof.
  split.
  - eexists. split; [vm_compute; reflexivity|].
    split; vm_compute; reflexivity.
  - eexists. split; [vm_compute; reflexivity|].
    split; vm_compute; reflexivity.
Qed.

Lemma clean_data_filters_before_enrichment_witness :
  clean_data_trace to_datetime_compact example_game (Some "team")
  = [FormatDataTypes; RemoveNullGames; DropUnknownEntities; SortData;
     FillNullTeamIds; SubsetData; RemoveInconsistentGames;
     EnrichOpponentMetrics]
  /\ runs_after RemoveInconsistentGames EnrichOpponentMetrics
       (clean_data_trace to_datetime_compact example_game (Some "team"))
     = true.
Proof.
  destruct (clean_data_filters_before_enrichment to_datetime_compact
              example_game (Some "team"))
    as (_ & _ & Hbefore & Hfull & _).
  split.
  - destruct (clean_data to_datetime_compact example_game (Some "team"))
      as [out|e] eqn:Hrun; [|vm_compute in Hrun; discriminate].
    exact (Hfull out eq_refl).
  - apply Hbefore. vm_compute. reflexivity.
Defined.

(** * Further properties *)

(** ** get_opponent: pairing *)

Section Pairing.

Variable gap : Z.
Hypothesis gap_pos : 0 < gap.

Lemma opponent_index_mod_fwd (i : Z) :
  0 <= i -> i mod (2 * gap) < gap ->
  (i + gap) mod (2 * gap) = i mod (2 * gap) + gap.
Proof.
  intros Hi Hflag.
  pose proof (Z.mod_pos_bound i (2 * gap) ltac:(lia)) as Hb.
  pose proof (Z.div_mod i (2 * gap) ltac:(lia)) as Hdm.
  symmetry. apply Z.mod_unique_pos with (q := i / (2 * gap)); lia.
Qed.

Lemma opponent_index_mod_bwd (i : Z) :
  0 <= i -> gap <= i mod (2 * gap) ->
  (i - gap) mod (2 * gap) = i mod (2 * gap) - gap.
Proof.
  intros Hi Hflag.
  pose proof (Z.mod_pos_bound i (2 * gap) ltac:(lia)) as Hb.
  pose proof (Z.div_mod i (2 * gap) ltac:(lia)) as Hdm.
  symmetry. apply Z.mod_unique_pos with (q := i / (2 * gap)); lia.
Qed.

(** The opponent of the opponent is the row itself. *)
Lemma opponent_index_involutive (i : Z) :
  0 <= i -> opponent_index gap (opponent_index gap i) = i.
Proof.
  intros Hi. unfold opponent_index at 2.
  pose proof (Z.mod_pos_bound i (2 * gap) ltac:(lia)) as Hb.
  destruct (i mod (2 * gap) <? gap) eqn:Hflag.
  - apply Z.ltb_lt in Hflag. unfold opponent_index.
    rewrite opponent_index_mod_fwd by assumption.
    replace (i mod (2 * gap) + gap <? gap) with false
      by (symmetry; apply Z.ltb_ge; lia).
    lia.
  - apply Z.ltb_ge in Hflag. unfold opponent_index.
    rewrite opponent_index_mod_bwd by assumption.
    replace (i mod (2 * gap) - gap <? gap) with true
      by (symmetry; apply Z.ltb_lt; lia).
    lia.
Qed.

Lemma opponent_index_nonneg (i : Z) :
  0 <= i -> 0 <= opponent_index gap i.
Proof.
  intros Hi. unfold opponent_index.
  pose proof (Z.mod_le i (2 * gap) ltac:(lia) ltac:(lia)).
  destruct (i mod (2 * gap) <? gap) eqn:Hflag; [lia|].
  apply Z.ltb_ge in Hflag. lia.
Qed.

(** In a column made of whole cycles the opponent row is in the column. *)
Lemma opponent_index_in_range (len : nat) (i : Z) :
  Z.of_nat len mod (2 * gap) = 0 ->
  0 <= i < Z.of_nat len ->
  0 <= opponent_index gap i < Z.of_nat len.
Proof.
  intros Hlen Hi. split; [apply opponent_index_nonneg; lia|].
  unfold opponent_index.
  pose proof (Z.mod_pos_bound i (2 * gap) ltac:(lia)) as Hb.
  pose proof (Z.div_mod i (2 * gap) ltac:(lia)) as Hdm.
  pose proof (Z.div_mod (Z.of_nat len) (2 * gap) ltac:(lia)) as Hdl.
  rewrite Hlen in Hdl.
  destruct (i mod (2 * gap) <? gap) eqn:Hflag; [|lia].
  apply Z.ltb_lt in Hflag.
  assert (i / (2 * gap) < Z.of_nat len / (2 * gap)) by nia.
  nia.
Qed.

Lemma opponent_pos_involutive (len n : nat) :
  Z.of_nat len mod (2 * gap) = 0 ->
  opponent_pos gap len (opponent_pos gap len n) = n.
Proof.
  intros Hlen. unfold opponent_pos at 2.
  destruct (Nat.ltb_spec n len) as [Hn|Hn].
  - pose proof (opponent_index_in_range len (Z.of_nat n) Hlen ltac:(lia)).
    unfold opponent_pos.
    replace (Z.to_nat (opponent_index gap (Z.of_nat n)) <? len)%nat
      with true by (symmetry; apply Nat.ltb_lt; lia).
    rewrite Z2Nat.id by lia.
    rewrite opponent_index_involutive by lia. lia.
  - unfold opponent_pos.
    destruct (Nat.ltb_spec n len); [lia | reflexivity].
Qed.

End Pairing.

(** A returned list, position by position: the column is made of whole
    cycles and every position holds the value of its opponent position. *)
Lemma opponent_by_cycle_positions {A : Type} (column out : list A)
    (gap : Z) :
  0 < gap ->
  opponent_by_cycle column gap = Ok out ->
  Z.of_nat (length column) mod (2 * gap) = 0
  /\ length out = length column
  /\ forall n, nth_error out n
               = nth_error column (opponent_pos gap (length column) n).
Proof.
  intros Hgap Hout.
  destruct (opponent_by_cycle_elements column gap Hgap out Hout)
    as (Hlen & Hel).
  split; [|split; [exact Hlen|]].
  - destruct (Z.eq_dec (Z.of_nat (length column) mod (2 * gap)) 0)
      as [Hz|Hnz]; [exact Hz|].
    apply (past_end_iff_ragged column gap Hgap) in Hnz.
    destruct Hnz as (i & Hi & Hflag & Hpast).
    rewrite (opponent_by_cycle_past_end column gap Hgap i Hi Hflag Hpast)
      in Hout.
    discriminate.
  - intros n. unfold opponent_pos.
    destruct (Nat.ltb_spec n (length column)) as [Hn|Hn].
    + destruct (Hel n Hn) as (Hfwd & Hbwd). unfold opponent_index.
      destruct (Z.of_nat n mod (2 * gap) <? gap) eqn:Hflag.
      * apply Z.ltb_lt in Hflag. rewrite (Hfwd Hflag). f_equal. lia.
      * apply Z.ltb_ge in Hflag. destruct (Hbwd Hflag) as (Hge & ->).
        f_equal. lia.
    + rewrite (proj2 (nth_error_None column n)) by lia.
      apply nth_error_None. lia.
Qed.

(** Reading a returned list through the same cycle gives the column
    back. *)
Lemma opponent_by_cycle_back {A : Type} (column out : list A) (gap : Z) :
  0 < gap ->
  opponent_by_cycle column gap = Ok out ->
  opponent_by_cycle out gap = Ok column.
Proof.
  intros Hpos Hout.
  destruct (opponent_by_cycle_positions column out gap Hpos Hout)
    as (Hmod & Hlen & Hel).
  destruct (opponent_by_cycle_returns out gap Hpos) as (back & Hback).
  { intros i Hi Hflag. rewrite Hlen in *.
    destruct (Z_lt_le_dec (Z.of_nat i + gap) (Z.of_nat (length column)))
      as [Hin|Hpast]; [exact Hin|].
    exfalso. apply (proj1 (past_end_iff_ragged column gap Hpos));
      [eauto | exact Hmod]. }
  rewrite Hback. f_equal.
  destruct (opponent_by_cycle_positions out back gap Hpos Hback)
    as (_ & _ & Hel').
  apply nth_error_ext. intros n.
  rewrite Hel', Hel, Hlen.
  now rewrite opponent_pos_involutive.
Qed.

(** X1.  The opponent of the opponent is the row itself: when [get_opponent]
    returns a list for "team" or "player", applying it to that list gives
    the column back. *)
Theorem get_opponent_involutive {A : Type} (column out : list A)
    (entity : option string) :
  get_opponent column entity = Ok out ->
  get_opponent out entity = Ok column.
Proof.
  intros Hout. unfold get_opponent in Hout.
  destruct (gap_dict_get entity) as [gap|] eqn:Hgap; [|discriminate].
  pose proof (gap_dict_get_pos _ _ Hgap) as Hpos.
  rewrite get_opponent_loop_by_cycle in Hout by assumption.
  rewrite (get_opponent_by_cycle out entity gap Hgap).
  now apply opponent_by_cycle_back.
Qed.

Lemma get_opponent_involutive_witness :
  get_opponent ["Beta"; "Alpha"; "Delta"; "Gamma"] (Some "team")
  = Ok ["Alpha"; "Beta"; "Gamma"; "Delta"].
Proof.
  apply (get_opponent_involutive ["Alpha"; "Beta"; "Gamma"; "Delta"]).
  reflexivity.
Defined.

(** X2.  A list returned by [get_opponent] has the values of the column,
    each as many times, in another order. *)
Theorem get_opponent_permutation {A : Type} (column out : list A)
    (entity : option string) :
  get_opponent column entity = Ok out -> Permutation column out.
Proof.
  intros Hout. unfold get_opponent in Hout.
  destruct (gap_dict_get entity) as [gap|] eqn:Hgap; [|discriminate].
  pose proof (gap_dict_get_pos _ _ Hgap) as Hpos.
  rewrite get_opponent_loop_by_cycle in Hout by assumption.
  destruct (opponent_by_cycle_positions column out gap Hpos Hout)
    as (Hmod & Hlen & Hel).
  apply Permutation_nth_error. split; [now symmetry|].
  exists (opponent_pos gap (length column)). split; [|exact Hel].
  intros x y Hxy.
  rewrite <- (opponent_pos_involutive gap Hpos (length column) x Hmod).
  rewrite <- (opponent_pos_involutive gap Hpos (length column) y Hmod).
  now rewrite Hxy.
Qed.

Lemma get_opponent_permutation_witness :
  Permutation ["Alpha"; "Beta"] ["Beta"; "Alpha"].
Proof.
  apply (get_opponent_permutation ["Alpha"; "Beta"] ["Beta"; "Alpha"]
           (Some "team")).
  reflexivity.
Defined.

(** X3.  [get_opponent] raises a [ValueError] exactly when the entity is
    neither "player" nor "team", whatever the column; for a recognised
    entity the "Out Of Bounds" branch of the loop is never taken. *)
Theorem get_opponent_value_error {A : Type} (column : list A)
    (entity : option string) :
  (exists msg, get_opponent column entity = Raise (ValueError msg))
  <-> (entity <> Some "player" /\ entity <> Some "team").
Proof.
  split.
  - intros (msg & H).
    destruct (gap_dict_get entity) as [gap|] eqn:Hgap.
    + rewrite (get_opponent_by_cycle column entity gap Hgap) in H.
      apply opponent_by_cycle_raises in H;
        [|eapply gap_dict_get_pos; eassumption].
      destruct H as (H & _). discriminate.
    + split; intros ->; discriminate.
  - intros (Hp & Ht). unfold get_opponent.
    destruct (gap_dict_get entity) as [gap|] eqn:Hgap; [|eauto].
    apply gap_dict_get_cases in Hgap.
    destruct Hgap as [(-> & _)|(-> & _)]; congruence.
Qed.

Lemma get_opponent_value_error_witness :
  exists msg,
    get_opponent ["Alpha"] (Some "Team") = Raise (ValueError msg).
Proof.
  apply (proj2 (get_opponent_value_error ["Alpha"] (Some "Team"))).
  split; discriminate.
Defined.

(** X4.  Opponent symmetry at player granularity: on a column whose length
    is a multiple of 10, [get_opponent] returns and pairs row [i] of the
    first five rows of every block of ten with row [i+5]. *)
Theorem get_opponent_player_symmetry {A : Type} (column : list A) :
  (length column mod 10 = 0)%nat ->
  exists opponent,
    get_opponent column (Some "player") = Ok opponent /\
    length opponent = length column /\
    forall i, (i < length column)%nat -> (i mod 10 < 5)%nat ->
      nth_error opponent i = nth_error column (i + 5) /\
      nth_error opponent (i + 5) = nth_error column i.
Proof.
  intros Hlen.
  assert (Hmod : Z.of_nat (length column) mod (2 * 5) = 0).
  { change (2 * 5) with (Z.of_nat 10).
    rewrite <- Nat2Z.inj_mod, Hlen. reflexivity. }
  rewrite (get_opponent_by_cycle column (Some "player") 5 eq_refl).
  destruct (opponent_by_cycle_returns column 5 ltac:(lia)) as (out & Hout).
  { intros i Hi Hflag.
    destruct (Z_lt_le_dec (Z.of_nat i + 5) (Z.of_nat (length column)))
      as [Hin|Hpast]; [exact Hin|].
    exfalso. apply (proj1 (past_end_iff_ragged column 5 ltac:(lia)));
      [eauto | exact Hmod]. }
  exists out. split; [exact Hout|].
  destruct (opponent_by_cycle_elements column 5 ltac:(lia) out Hout)
    as (Hl & Hel).
  split; [exact Hl|].
  intros i Hi Hflag.
  assert (HflagZ : Z.of_nat i mod (2 * 5) < 5).
  { change (2 * 5) with (Z.of_nat 10). rewrite <- Nat2Z.inj_mod. lia. }
  assert (Hi5 : (i + 5 < length column)%nat).
  { pose proof (opponent_index_in_range 5 ltac:(lia) (length column)
                  (Z.of_nat i) Hmod ltac:(lia)) as Hr.
    unfold opponent_index in Hr.
    replace (Z.of_nat i mod (2 * 5) <? 5) with true in Hr
      by (symmetry; now apply Z.ltb_lt).
    lia. }
  split.
  - now apply (Hel i Hi).
  - destruct (Hel (i + 5)%nat Hi5) as (_ & Hbwd).
    destruct Hbwd as (_ & ->).
    + replace (Z.of_nat (i + 5)) with (Z.of_nat i + 5) by lia.
      rewrite opponent_index_mod_fwd by lia.
      pose proof (Z.mod_pos_bound (Z.of_nat i) (2 * 5) ltac:(lia)). lia.
    + f_equal. change (Z.to_nat 5) with 5%nat. lia.
Qed.

Lemma get_opponent_player_symmetry_witness :
  exists opponent,
    get_opponent ["t1"; "j1"; "m1"; "b1"; "s1"; "t2"; "j2"; "m2"; "b2"; "s2"]
      (Some "player") = Ok opponent /\
    nth_error opponent 1 = Some "j2" /\
    nth_error opponent 6 = Some "j1".
Proof.
  destruct (get_opponent_player_symmetry
              ["t1"; "j1"; "m1"; "b1"; "s1"; "t2"; "j2"; "m2"; "b2"; "s2"]
              eq_refl)
    as (opponent & Hrun & _ & Hpair).
  exists opponent. split; [exact Hrun|].
  destruct (Hpair 1%nat ltac:(simpl; lia) ltac:(simpl; lia)) as (H1 & H6).
  split; [exact H1 | exact H6].
Defined.

(** ** Row masks *)

Lemma In_mask_series {X : Type} (mask : list bool) (s : list X) (x : X) :
  In x (mask_series mask s) ->
  exists i, nth_error mask i = Some true /\ nth_error s i = Some x.
Proof.
  revert s. induction mask as [|b mask IH]; intros [|y s] H; simpl in H;
    try contradiction.
  destruct b.
  - destruct H as [<-|H].
    + exists O. split; reflexivity.
    + destruct (IH s H) as (i & Hm & Hs). exists (S i). auto.
  - destruct (IH s H) as (i & Hm & Hs). exists (S i). auto.
Qed.

Lemma mask_series_In {X : Type} (mask : list bool) (s : list X) (x : X)
    (i : nat) :
  nth_error mask i = Some true -> nth_error s i = Some x ->
  In x (mask_series mask s).
Proof.
  revert s i. induction mask as [|b mask IH]; intros [|y s] [|i] Hm Hs;
    simpl in *; try discriminate.
  - injection Hm as ->. injection Hs as ->. now left.
  - destruct b; [right|]; eapply IH; eassumption.
Qed.

(** The rows kept are as many as the [True]s of the mask when the column is
    as long as the mask. *)
Lemma length_mask_series {X : Type} (mask : list bool) (s : list X) :
  length s = length mask ->
  length (mask_series mask s) = count_occ bool_dec mask true.
Proof.
  revert s. induction mask as [|b mask IH]; intros [|y s] H; simpl in *;
    try discriminate; [reflexivity|].
  injection H as H. destruct b; simpl; now rewrite IH.
Qed.

Lemma length_mask_series_le {X : Type} (mask : list bool) (s : list X) :
  (length (mask_series mask s) <= count_occ bool_dec mask true)%nat.
Proof.
  revert s. induction mask as [|b mask IH]; intros [|y s]; simpl;
    try apply Nat.le_0_l.
  specialize (IH s). destruct b; simpl; lia.
Qed.

Lemma mask_series_all_true {X : Type} (n : nat) (s : list X) :
  (length s <= n)%nat -> mask_series (repeat true n) s = s.
Proof.
  revert s. induction n as [|n IH]; intros [|y s] H; simpl in *;
    try reflexivity; [lia|].
  rewrite IH by lia. reflexivity.
Qed.

Lemma count_true_map_filter {X : Type} (p : X -> bool) (l : list X) :
  count_occ bool_dec (map p l) true = length (filter p l).
Proof.
  induction l as [|x l IH]; simpl; [reflexivity|].
  destruct (p x); simpl; now rewrite IH.
Qed.

Lemma map_all_true {X : Type} (p : X -> bool) (l : list X) :
  (forall x, In x l -> p x = true) -> map p l = repeat true (length l).
Proof.
  induction l as [|x l IH]; intros H; simpl; [reflexivity|].
  rewrite H by now left. rewrite IH; [reflexivity|].
  intros; apply H; now right.
Qed.

(** Masking again with a mask that keeps every row changes nothing. *)
Lemma boolean_mask_twice (p q : cell -> bool) (g : Series)
    (df : DataFrame) :
  (forall x, In x (filter p g) -> q x = true) ->
  boolean_mask (map q (filter p g)) (boolean_mask (map p g) df)
  = boolean_mask (map p g) df.
Proof.
  intros Hq. rewrite (map_all_true q) by assumption.
  unfold boolean_mask. rewrite map_map. apply map_ext. intros c. simpl.
  f_equal. apply mask_series_all_true.
  rewrite <- count_true_map_filter. apply length_mask_series_le.
Qed.

(** ** remove_null_games *)

(** X5.  [remove_null_games] drops exactly the rows whose [gameid] is
    missing: the labels stay, every column is cut by the same row mask, the
    [gameid] column of the result is the old one without its missing values,
    and a second pass changes nothing.  A table without a [gameid] column
    raises [KeyError]. *)
Theorem remove_null_games_rows (df : DataFrame) :
  (forall gameid,
     getitem df "gameid" = Ok gameid ->
     exists out,
       remove_null_games df = Ok out
       /\ columns out = columns df
       /\ getitem out "gameid" = Ok (filter notna gameid)
       /\ (forall label s,
             getitem df label = Ok s ->
             getitem out label = Ok (mask_series (map notna gameid) s))
       /\ remove_null_games out = Ok out)
  /\ (~ In "gameid" (columns df) ->
      remove_null_games df = Raise (KeyError "gameid")).
Proof.
  split.
  - intros gameid Hg. exists (boolean_mask (map notna gameid) df).
    assert (Hout : getitem (boolean_mask (map notna gameid) df) "gameid"
                   = Ok (filter notna gameid)).
    { rewrite getitem_boolean_mask, Hg. simpl.
      now rewrite mask_series_map_filter. }
    split; [unfold remove_null_games; now rewrite Hg|].
    split; [apply columns_boolean_mask|].
    split; [exact Hout|].
    split.
    + intros label s Hs. now rewrite getitem_boolean_mask, Hs.
    + unfold remove_null_games. rewrite Hout. simpl. f_equal.
      apply boolean_mask_twice. intros x Hx.
      now apply filter_In in Hx.
  - intros Hno. unfold remove_null_games, getitem.
    apply getitem_KeyError_absent, existsb_columns_filter in Hno.
    now rewrite Hno.
Qed.

Lemma remove_null_games_rows_witness :
  exists out,
    remove_null_games
      [("gameid", [Str "g1"; NaN; Str "g2"]);
       ("teamname", [Str "Alpha"; Str "Beta"; Str "Gamma"])] = Ok out
    /\ getitem out "gameid" = Ok [Str "g1"; Str "g2"]
    /\ getitem out "teamname" = Ok [Str "Alpha"; Str "Gamma"].
Proof.
  destruct (proj1 (remove_null_games_rows
                     [("gameid", [Str "g1"; NaN; Str "g2"]);
                      ("teamname", [Str "Alpha"; Str "Beta"; Str "Gamma"])])
              [Str "g1"; NaN; Str "g2"] eq_refl)
    as (out & Hrun & _ & Hg & Hcols & _).
  exists out. split; [exact Hrun|]. split; [exact Hg|].
  exact (Hcols "teamname" [Str "Alpha"; Str "Beta"; Str "Gamma"] eq_refl).
Defined.

(** ** drop_unknown_entities *)

Lemma isin_singleton (v c : cell) : isin [v] c = cell_eqb c v.
Proof. unfold isin. simpl. apply orb_false_r. Qed.

Lemma nth_error_combine {X Y : Type} (l : list X) (l' : list Y) (i : nat)
    (x : X) (y : Y) :
  nth_error l i = Some x -> nth_error l' i = Some y ->
  nth_error (combine l l') i = Some (x, y).
Proof.
  revert l' i. induction l as [|a l IH]; intros [|b l'] [|i] Hx Hy;
    simpl in *; try discriminate.
  - now injection Hx as ->; injection Hy as ->.
  - now apply IH.
Qed.

(** X6.  [drop_unknown_entities] keeps a row exactly when its [playername]
    is not "unknown player" and its [teamname] is not "unknown team"; a row
    whose names are missing is kept.  Every column is cut by that one mask,
    and neither reserved name is left in the result. *)
Theorem drop_unknown_entities_rows (df : DataFrame)
    (playername teamname : Series) :
  getitem df "playername" = Ok playername ->
  getitem df "teamname" = Ok teamname ->
  length playername = length teamname ->
  exists out mask,
    drop_unknown_entities df = Ok out
    /\ length mask = length playername
    /\ (forall i p t,
          nth_error playername i = Some p ->
          nth_error teamname i = Some t ->
          nth_error mask i = Some (known_entity p t))
    /\ (forall label s,
          getitem df label = Ok s ->
          getitem out label = Ok (mask_series mask s))
    /\ ~ In (Str "unknown player") (mask_series mask playername)
    /\ ~ In (Str "unknown team") (mask_series mask teamname).
Proof.
  intros Hp Ht Hlen.
  set (mask := map (fun p => fst p && snd p)%bool
                 (combine
                    (map (fun c => negb (isin [Str "unknown player"] c))
                         playername)
                    (map (fun c => negb (isin [Str "unknown team"] c))
                         teamname))).
  assert (Hmask : forall i p t,
             nth_error playername i = Some p ->
             nth_error teamname i = Some t ->
             nth_error mask i = Some (known_entity p t)).
  { intros i p t Hip Hit. unfold mask.
    erewrite nth_error_map_Some;
      [|apply nth_error_combine; apply nth_error_map_Some; eassumption].
    cbn [fst snd]. now rewrite !isin_singleton. }
  exists (boolean_mask mask df), mask.
  split; [unfold drop_unknown_entities; rewrite Hp, Ht; reflexivity|].
  split.
  { unfold mask. rewrite length_map, length_combine, !length_map. lia. }
  split; [exact Hmask|].
  split; [intros label s Hs; now rewrite getitem_boolean_mask, Hs|].
  split.
  - intros Hin. apply In_mask_series in Hin. destruct Hin as (i & Hm & Hs).
    destruct (nth_error teamname i) as [t|] eqn:Hti.
    + rewrite (Hmask i _ t Hs Hti) in Hm. discriminate.
    + apply nth_error_None in Hti. apply nth_error_Some_lt in Hs. lia.
  - intros Hin. apply In_mask_series in Hin. destruct Hin as (i & Hm & Hs).
    destruct (nth_error playername i) as [p|] eqn:Hpi.
    + rewrite (Hmask i p _ Hpi Hs) in Hm.
      unfold known_entity in Hm. simpl in Hm.
      rewrite andb_false_r in Hm. discriminate.
    + apply nth_error_None in Hpi. apply nth_error_Some_lt in Hs. lia.
Qed.

Lemma drop_unknown_entities_rows_witness :
  exists out,
    drop_unknown_entities
      [("playername", [Str "Faker"; NaN; Str "unknown player"; NaN]);
       ("teamname", [Str "T1"; Str "T1"; Str "T1"; Str "unknown team"])]
    = Ok out
    /\ getitem out "playername" = Ok [Str "Faker"; NaN].
Proof.
  destruct (drop_unknown_entities_rows
              [("playername", [Str "Faker"; NaN; Str "unknown player"; NaN]);
               ("teamname",
                [Str "T1"; Str "T1"; Str "T1"; Str "unknown team"])]
              [Str "Faker"; NaN; Str "unknown player"; NaN]
              [Str "T1"; Str "T1"; Str "T1"; Str "unknown team"]
              eq_refl eq_refl eq_refl)
    as (out & mask & Hrun & _).
  exists out. split; [exact Hrun|].
  vm_compute in Hrun. injection Hrun as <-. reflexivity.
Defined.

(** ** Stripping *)

Lemma drop_spaces_cons (back : bool) (a : ascii) (l1 : list ascii) :
  drop_spaces back (a :: l1)
  = if is_space a then drop_spaces back l1
    else match l1 with
         | [] => a :: l1
         | b :: l2 =>
             if (if back then is_space2 b a else is_space2 a b)
             then drop_spaces back l2
             else match l2 with
                  | [] => a :: l1
                  | c :: l3 =>
                      if (if back then is_space3 c b a
                          else is_space3 a b c)
                      then drop_spaces back l3
                      else a :: l1
                  end
         end.
Proof. reflexivity. Qed.

Lemma drop_spaces_suffix (back : bool) (n : nat) :
  forall l, (length l <= n)%nat ->
    exists u, l = u ++ drop_spaces back l.
Proof.
  induction n as [|n IH]; intros l Hlen.
  - destruct l; [now exists [] | simpl in Hlen; lia].
  - destruct l as [|a l1]; [now exists []|].
    rewrite drop_spaces_cons. simpl in Hlen.
    destruct (is_space a).
    { destruct (IH l1 ltac:(lia)) as (u & Hu).
      exists (a :: u). simpl. now rewrite <- Hu. }
    destruct l1 as [|b l2]; [now exists []|]. simpl in Hlen.
    destruct (if back then is_space2 b a else is_space2 a b).
    { destruct (IH l2 ltac:(lia)) as (u & Hu).
      exists (a :: b :: u). simpl. now rewrite <- Hu. }
    destruct l2 as [|c l3]; [now exists []|]. simpl in Hlen.
    destruct (if back then is_space3 c b a else is_space3 a b c).
    { destruct (IH l3 ltac:(lia)) as (u & Hu).
      exists (a :: b :: c :: u). simpl. now rewrite <- Hu. }
    now exists [].
Qed.

Lemma drop_spaces_no_space_ahead (back : bool) (n : nat) :
  forall l, (length l <= n)%nat ->
    no_space_ahead back (drop_spaces back l) = true.
Proof.
  induction n as [|n IH]; intros l Hlen.
  - destruct l; [reflexivity | simpl in Hlen; lia].
  - destruct l as [|a l1]; [reflexivity|].
    rewrite drop_spaces_cons. simpl in Hlen.
    destruct (is_space a) eqn:Ha; [apply IH; lia|].
    destruct l1 as [|b l2]; [simpl; now rewrite Ha|]. simpl in Hlen.
    destruct (if back then is_space2 b a else is_space2 a b) eqn:Hb;
      [apply IH; lia|].
    destruct l2 as [|c l3]; [simpl; now rewrite Ha, Hb|]. simpl in Hlen.
    destruct (if back then is_space3 c b a else is_space3 a b c) eqn:Hc;
      [apply IH; lia|].
    simpl. now rewrite Ha, Hb, Hc.
Qed.

Lemma drop_spaces_fixed (back : bool) (l : list ascii) :
  no_space_ahead back l = true -> drop_spaces back l = l.
Proof.
  destruct l as [|a l1]; [reflexivity|].
  rewrite drop_spaces_cons. simpl.
  destruct (is_space a); [discriminate|].
  destruct l1 as [|b l2]; [reflexivity|].
  destruct (if back then is_space2 b a else is_space2 a b);
    [discriminate|].
  destruct l2 as [|c l3]; [reflexivity|].
  destruct (if back then is_space3 c b a else is_space3 a b c);
    [discriminate | reflexivity].
Qed.

(** What stands at the front of a string stands at the front of the
    strings it begins. *)
Lemma no_space_ahead_prefix (back : bool) (l u : list ascii) :
  no_space_ahead back (l ++ u) = true -> no_space_ahead back l = true.
Proof.
  destruct l as [|a l1]; [reflexivity|]. simpl.
  destruct (is_space a); [discriminate|].
  destruct l1 as [|b l2]; [reflexivity|]. simpl.
  destruct (if back then is_space2 b a else is_space2 a b);
    [discriminate|].
  destruct l2 as [|c l3]; [reflexivity|]. trivial.
Qed.

(** Stripping a stripped string changes nothing. *)
Lemma strip_idempotent (s : string) : strip (strip s) = strip s.
Proof.
  unfold strip, rstrip, lstrip.
  rewrite !list_ascii_of_string_of_list_ascii.
  set (l := drop_spaces false (list_ascii_of_string s)).
  set (r := drop_spaces true (rev l)).
  assert (Hl : no_space_ahead false l = true)
    by (apply (drop_spaces_no_space_ahead false
                 (length (list_ascii_of_string s))); lia).
  assert (Hr : no_space_ahead true r = true)
    by (apply (drop_spaces_no_space_ahead true (length (rev l))); lia).
  destruct (drop_spaces_suffix true (length (rev l)) (rev l) ltac:(lia))
    as (u & Hu).
  fold r in Hu.
  assert (Hlr : l = rev r ++ rev u).
  { rewrite <- rev_app_distr, <- Hu. now rewrite rev_involutive. }
  assert (Hfront : drop_spaces false (rev r) = rev r).
  { apply drop_spaces_fixed, (no_space_ahead_prefix false _ (rev u)).
    now rewrite <- Hlr. }
  rewrite Hfront, rev_involutive.
  now rewrite (drop_spaces_fixed true r Hr).
Qed.

(** ** format_data_types *)

Lemma replace_values_strip_clean (s : Series) :
  Forall clean_id (replace_values (str_strip s)).
Proof.
  unfold replace_values, str_strip. rewrite map_map.
  apply Forall_forall. intros c Hc. apply in_map_iff in Hc.
  destruct Hc as (x & <- & _).
  destruct x as [|t|q|d]; try (left; reflexivity).
  destruct (isin [Str ""; Str "nan"; Str "null"] (Str (strip t))) eqn:Hin;
    [left; reflexivity|].
  right. exists (strip t). split; [reflexivity|].
  split; [apply strip_idempotent|].
  apply not_true_iff_false in Hin. rewrite isin_In in Hin. simpl in Hin.
  repeat split; intros Heq; apply Hin; rewrite Heq; auto.
Qed.

Section FormatDataTypes.

Variable to_datetime : Series -> option (list (option Z)).

(** What a successful call has read and what it returns. *)
Lemma format_data_types_Ok (df out : DataFrame) :
  format_data_types to_datetime df = Ok out ->
  exists date parsed gameid playerid teamid gamelength minutes,
    getitem df "date" = Ok date
    /\ to_datetime date = Some parsed
    /\ getitem df "gameid" = Ok gameid
    /\ getitem df "playerid" = Ok playerid
    /\ getitem df "teamid" = Ok teamid
    /\ getitem df "gamelength" = Ok gamelength
    /\ truediv60 gamelength = Ok minutes
    /\ out
       = setitem
           (replace
              (setitem
                 (setitem
                    (setitem
                       (setitem df "date"
                          (map (fun d => match d with
                                         | Some t => Date t
                                         | None => NaN
                                         end) parsed))
                       "gameid" (str_strip gameid))
                    "playerid" (str_strip playerid))
                 "teamid" (str_strip teamid))
              ["gameid"; "playerid"; "teamid"; "position"])
           "gamelength" minutes.
Proof.
  unfold format_data_types. intros H.
  inv_bind_as H date Hdate.
  destruct (to_datetime date) as [parsed|] eqn:Hparse; [|discriminate].
  inv_bind_as H gameid Hgameid. inv_bind_as H playerid Hplayerid.
  inv_bind_as H teamid Hteamid. inv_bind_as H gamelength Hlen.
  inv_bind_as H minutes Hmin. injection H as <-.
  rewrite getitem_setitem_other in Hgameid, Hplayerid, Hteamid
    by discriminate.
  rewrite getitem_replace in Hlen.
  rewrite !getitem_setitem_other in Hlen by discriminate.
  inv_bind_as Hlen len Hlen'. injection Hlen as <-.
  exists date, parsed, gameid, playerid, teamid, len, minutes.
  repeat (split; [assumption|]). reflexivity.
Qed.

(** X7.  On a table whose identifier columns hold strings, after
    [format_data_types] every cell of the three identifier columns is either
    missing or a string without surrounding whitespace that is not "",
    "nan" or "null": a string is stripped of the whitespace characters of
    Python, those outside ASCII included, and the spellings of a missing
    value are replaced afterwards, so a blank identifier ends up missing; a
    cell that is not a string ends up missing.  No row is added or
    dropped. *)
Theorem format_data_types_identifiers (df out : DataFrame)
    (label : string) :
  string_identifiers df = true ->
  format_data_types to_datetime df = Ok out ->
  In label ["gameid"; "playerid"; "teamid"] ->
  exists before after,
    getitem df label = Ok before
    /\ getitem out label = Ok after
    /\ length after = length before
    /\ Forall clean_id after
    /\ (forall i s, nth_error before i = Some (Str s) ->
          nth_error after i
          = Some (if isin [Str ""; Str "nan"; Str "null"] (Str (strip s))
                  then NaN else Str (strip s)))
    /\ (forall i c, nth_error before i = Some c ->
          (forall s, c <> Str s) -> nth_error after i = Some NaN).
Proof.
  intros _ H Hin. apply format_data_types_Ok in H.
  destruct H as (date & parsed & gameid & playerid & teamid & len & minutes
                 & Hdate & Hparse & Hg & Hp & Ht & Hlen & Hmin & ->).
  assert (Hcells : forall before,
            length (replace_values (str_strip before)) = length before
            /\ Forall clean_id (replace_values (str_strip before))
            /\ (forall i s, nth_error before i = Some (Str s) ->
                  nth_error (replace_values (str_strip before)) i
                  = Some (if isin [Str ""; Str "nan"; Str "null"]
                                  (Str (strip s))
                          then NaN else Str (strip s)))
            /\ (forall i c, nth_error before i = Some c ->
                  (forall s, c <> Str s) ->
                  nth_error (replace_values (str_strip before)) i
                  = Some NaN)).
  { intros before. split; [|split; [|split]].
    - unfold replace_values, str_strip. now rewrite !length_map.
    - apply replace_values_strip_clean.
    - intros i s Hi. unfold replace_values, str_strip.
      rewrite !nth_error_map, Hi. reflexivity.
    - intros i c Hi Hc. unfold replace_values, str_strip.
      rewrite !nth_error_map, Hi.
      destruct c as [|s|q|t]; try reflexivity. now destruct (Hc s). }
  set (d1 := setitem df "date" _).
  assert (Hg1 : getitem d1 "gameid" = Ok gameid)
    by (unfold d1; now rewrite getitem_setitem_other by discriminate).
  assert (Hp1 : getitem d1 "playerid" = Ok playerid)
    by (unfold d1; now rewrite getitem_setitem_other by discriminate).
  assert (Ht1 : getitem d1 "teamid" = Ok teamid)
    by (unfold d1; now rewrite getitem_setitem_other by discriminate).
  simpl in Hin. destruct Hin as [<-|[<-|[<-|[]]]].
  - exists gameid, (replace_values (str_strip gameid)).
    split; [exact Hg|]. split; [|apply Hcells].
    rewrite getitem_setitem_other by discriminate.
    rewrite getitem_replace.
    rewrite !getitem_setitem_other by discriminate.
    rewrite (getitem_setitem_same _ _ _ _ Hg1). reflexivity.
  - exists playerid, (replace_values (str_strip playerid)).
    split; [exact Hp|]. split; [|apply Hcells].
    rewrite getitem_setitem_other by discriminate.
    rewrite getitem_replace.
    rewrite getitem_setitem_other by discriminate.
    erewrite getitem_setitem_same; [reflexivity|].
    rewrite getitem_setitem_other by discriminate. exact Hp1.
  - exists teamid, (replace_values (str_strip teamid)).
    split; [exact Ht|]. split; [|apply Hcells].
    rewrite getitem_setitem_other by discriminate.
    rewrite getitem_replace.
    erewrite getitem_setitem_same; [reflexivity|].
    rewrite !getitem_setitem_other by discriminate. exact Ht1.
Qed.

End FormatDataTypes.

Lemma format_data_types_identifiers_witness :
  exists out before after,
    format_data_types to_datetime_compact example_untidy = Ok out
    /\ getitem example_untidy "teamid" = Ok before
    /\ before = [Str "oe:team:t1"; Str "";
                 Str (String.append nbsp "oe:team:geng ")]
    /\ getitem out "teamid" = Ok after
    /\ after = [Str "oe:team:t1"; NaN; Str "oe:team:geng"]
    /\ Forall clean_id after.
Proof.
  destruct (format_data_types to_datetime_compact example_untidy)
    as [out|e] eqn:Hrun; [|vm_compute in Hrun; discriminate].
  destruct (format_data_types_identifiers to_datetime_compact
              example_untidy out "teamid" eq_refl Hrun
              (or_intror (or_intror (or_introl eq_refl))))
    as (before & after & Hb & Ha & _ & Hclean & _).
  exists out, before, after.
  split; [reflexivity|]. split; [exact Hb|].
  split; [vm_compute in Hb; injection Hb as <-; reflexivity|].
  split; [exact Ha|]. split; [|exact Hclean].
  vm_compute in Hrun. injection Hrun as <-.
  vm_compute in Ha. injection Ha as <-. reflexivity.
Defined.

(** ** Stages applied twice *)

Lemma setitem_setitem_same (df : DataFrame) (label : string)
    (old values : Series) :
  getitem df label = Ok old ->
  setitem (setitem df label values) label values = setitem df label values.
Proof.
  intros H.
  assert (Hin : existsb (String.eqb label)
                  (columns (setitem df label values)) = true).
  { eapply getitem_Ok_present, getitem_setitem_same. eassumption. }
  unfold setitem at 1. rewrite Hin.
  unfold setitem. rewrite (getitem_Ok_present _ _ _ H).
  rewrite map_map. apply map_ext. intros c.
  destruct (has_label label c) eqn:Hc; [|now rewrite Hc].
  unfold has_label. simpl. now rewrite String.eqb_refl.
Qed.

(** X9.  Backfilling is idempotent: [fill_null_team_ids] applied to its own
    result returns it unchanged. *)
Theorem fill_null_team_ids_idempotent (oe_data out : option DataFrame)
    (split_on : option string) :
  fill_null_team_ids oe_data split_on = Ok out ->
  fill_null_team_ids out split_on = Ok out.
Proof.
  unfold fill_null_team_ids.
  destruct (py_eq split_on "player"); [|now intros [= <-]].
  destruct oe_data as [df|]; [|discriminate]. intros H.
  inv_bind_as H teamid Hid. inv_bind_as H teamname Hname.
  injection H as <-.
  rewrite (getitem_setitem_same _ _ _ _ Hid).
  rewrite getitem_setitem_other, Hname by discriminate. simpl.
  rewrite fillna_idempotent.
  now rewrite (setitem_setitem_same _ _ _ _ Hid).
Qed.

Lemma fill_null_team_ids_idempotent_witness :
  fill_null_team_ids
    (Some [("teamname", [Str "T1"; Str "Gen.G"]);
           ("teamid", [Str "T1"; Str "oe:team:geng"])])
    (Some "player")
  = Ok (Some [("teamname", [Str "T1"; Str "Gen.G"]);
              ("teamid", [Str "T1"; Str "oe:team:geng"])]).
Proof.
  apply (fill_null_team_ids_idempotent
           (Some [("teamname", [Str "T1"; Str "Gen.G"]);
                  ("teamid", [NaN; Str "oe:team:geng"])])).
  reflexivity.
Defined.

(** X10.  Filtering is idempotent: the games that survive
    [remove_inconsistent_games] all have the expected size, so a second pass
    with the same [split_on] removes nothing. *)
Theorem remove_inconsistent_games_idempotent (df out : DataFrame)
    (split_on : option string) :
  remove_inconsistent_games df split_on = Ok out ->
  remove_inconsistent_games out split_on = Ok out.
Proof.
  intros H. unfold remove_inconsistent_games in H.
  inv_bind_as H gameid Hg.
  destruct split_on as [s|]; [|discriminate].
  injection H as <-.
  fold (inconsistent_games gameid s).
  change (fun c => negb (isin (inconsistent_games gameid s) c))
    with (consistent_row gameid s).
  assert (Hout : getitem (boolean_mask (map (consistent_row gameid s) gameid)
                            df) "gameid"
                 = Ok (filter (consistent_row gameid s) gameid)).
  { rewrite getitem_boolean_mask, Hg. simpl.
    now rewrite mask_series_map_filter. }
  rewrite (remove_inconsistent_games_unfold _ _ _ Hout). f_equal.
  apply boolean_mask_twice. intros x Hx.
  pose proof Hx as Hx'. apply filter_In in Hx'. destruct Hx' as (Hin & Hk).
  apply consistent_row_true; [exact Hx|].
  rewrite count_occ_filter, Hk.
  now apply consistent_row_true in Hk.
Qed.

Lemma remove_inconsistent_games_idempotent_witness :
  remove_inconsistent_games
    [("gameid", [Str "g1"; Str "g1"]); ("side", [Str "Blue"; Str "Red"])]
    (Some "team")
  = Ok [("gameid", [Str "g1"; Str "g1"]); ("side", [Str "Blue"; Str "Red"])].
Proof.
  apply (remove_inconsistent_games_idempotent
           [("gameid", [Str "g1"; Str "g2"; Str "g1"]);
            ("side", [Str "Blue"; Str "Blue"; Str "Red"])]).
  reflexivity.
Defined.

(** ** subset_data *)

Lemma getitem_rename_other (df : DataFrame) (old new label : string) :
  label <> old -> label <> new ->
  getitem (rename df old new) label = getitem df label.
Proof.
  intros Ho Hn. unfold getitem, rename.
  assert (Hf : filter (has_label label)
                 (map (fun c => if has_label old c then (new, snd c) else c)
                      df)
               = filter (has_label label) df).
  { induction df as [|c df IH]; simpl; [reflexivity|].
    destruct (has_label old c) eqn:Hc.
    - assert (H1 : has_label label (new, snd c) = false)
        by (unfold has_label; simpl; apply String.eqb_neq; congruence).
      assert (H2 : has_label label c = false).
      { unfold has_label in *. apply String.eqb_eq in Hc.
        apply String.eqb_neq. congruence. }
      now rewrite H1, H2.
    - destruct (has_label label c); now rewrite IH. }
  now rewrite Hf.
Qed.

Lemma select_columns_getitem (df out : DataFrame) (labels : list string)
    (label : string) :
  select_columns df labels = Ok out ->
  NoDup labels -> In label labels ->
  getitem out label = getitem df label.
Proof.
  unfold select_columns. intros H. apply mapM_Ok_Forall2 in H.
  induction H as [|l c labels' out' Hc Hrest IH]; intros Hnd Hin;
    [contradiction|].
  inv_bind_as Hc s Hs. injection Hc as <-.
  inversion Hnd as [|l' ls Hnotin Hnd']; subst.
  assert (Hlabels : map fst out' = labels').
  { clear -Hrest. induction Hrest as [|l c ls os Hc _ IH']; simpl;
      [reflexivity|].
    inv_bind_as Hc s Hs. injection Hc as <-. simpl. now rewrite IH'. }
  destruct Hin as [->|Hin].
  - unfold getitem at 1. simpl. unfold has_label at 1. simpl.
    rewrite String.eqb_refl.
    assert (Hnone : filter (has_label label) out' = []).
    { apply existsb_columns_filter, getitem_KeyError_absent.
      unfold columns. now rewrite Hlabels. }
    rewrite Hnone. now rewrite Hs.
  - rewrite <- (IH Hnd' Hin). unfold getitem. simpl.
    assert (Hne : has_label label (l, s) = false).
    { unfold has_label. simpl. apply String.eqb_neq. intros ->. tauto. }
    now rewrite Hne.
Qed.

Lemma subset_columns_NoDup (split_on : string) (labels : list string) :
  subset_columns split_on = Some labels -> NoDup labels.
Proof.
  intros H. pose proof (subset_columns_Some _ _ H) as [-> | ->];
    vm_compute in H; injection H as <-;
    repeat (constructor; [simpl; intuition discriminate|]); constructor.
Qed.

(** The column of a subset: the column of the table cut to the rows of the
    granularity. *)
Lemma subset_data_column (df out : DataFrame) (split_on label : string)
    (labels : list string) :
  subset_data (Some df) (Some split_on) = Ok out ->
  subset_columns split_on = Some labels ->
  In label labels -> label <> "egpm" ->
  exists position s,
    getitem df "position" = Ok position
    /\ getitem df label = Ok s
    /\ getitem out label
       = Ok (mask_series
               (map (fun c => if String.eqb split_on "team"
                              then cell_eqb (Str "team") c
                              else negb (cell_eqb (Str "team") c)) position)
               s).
Proof.
  intros H Hsub Hin Hne. unfold subset_data in H. rewrite Hsub in H.
  inv_bind_as H position Hpos.
  rewrite getitem_rename_other in Hpos by discriminate.
  assert (Hl : label <> "earned gpm").
  { intros ->. pose proof (subset_columns_Some _ _ Hsub) as [-> | ->];
      vm_compute in Hsub; injection Hsub as <-; simpl in Hin;
      intuition discriminate. }
  rewrite (select_columns_getitem _ _ _ label H
             (subset_columns_NoDup _ _ Hsub) Hin) in *.
  pose proof (subset_columns_Some _ _ Hsub) as Hs.
  assert (Hcol : exists s, getitem df label = Ok s).
  { unfold select_columns in H. apply mapM_Ok_Forall2 in H.
    apply In_nth_error in Hin. destruct Hin as (n & Hn).
    destruct (Forall2_nth_error_l _ _ _ n label H Hn) as (c & _ & Hc).
    inv_bind_as Hc s Hs'.
    destruct Hs as [-> | ->]; simpl in Hs';
      rewrite getitem_boolean_mask, getitem_rename_other in Hs'
        by assumption;
      inv_bind_as Hs' s0 Hs0; eauto. }
  destruct Hcol as (s & Hsl).
  exists position, s. split; [exact Hpos|]. split; [exact Hsl|].
  destruct Hs as [-> | ->]; simpl;
    rewrite getitem_boolean_mask, getitem_rename_other, Hsl by assumption;
    simpl; f_equal; f_equal; rewrite map_map; reflexivity.
Qed.

Lemma mask_series_partition {X : Type} (mask : list bool) (s : list X) :
  length s = length mask ->
  Permutation s (mask_series mask s ++ mask_series (map negb mask) s).
Proof.
  revert s. induction mask as [|b mask IH]; intros [|x s] H; simpl in *;
    try discriminate; [constructor|].
  injection H as H. destruct b; simpl.
  - constructor. now apply IH.
  - apply Permutation_cons_app. now apply IH.
Qed.

(** X11.  The two subsets split the table by rows: for a column that both
    keep, the team subset holds its values on the rows whose position is
    "team", the player subset its values on all other rows (a missing
    position included), and together they hold every row once. *)
Theorem subset_data_partition (df team player : DataFrame) (label : string)
    (team_labels player_labels : list string) :
  subset_data (Some df) (Some "team") = Ok team ->
  subset_data (Some df) (Some "player") = Ok player ->
  subset_columns "team" = Some team_labels ->
  subset_columns "player" = Some player_labels ->
  In label team_labels -> In label player_labels -> label <> "egpm" ->
  exists position s,
    getitem df "position" = Ok position
    /\ getitem df label = Ok s
    /\ getitem team label
       = Ok (mask_series (map (cell_eqb (Str "team")) position) s)
    /\ getitem player label
       = Ok (mask_series
               (map (fun c => negb (cell_eqb (Str "team") c)) position) s)
    /\ (length s = length position ->
        Permutation s
          (mask_series (map (cell_eqb (Str "team")) position) s
           ++ mask_series
                (map (fun c => negb (cell_eqb (Str "team") c)) position) s)).
Proof.
  intros Ht Hp Htl Hpl Hint Hinp Hne.
  destruct (subset_data_column df team "team" label team_labels
              Ht Htl Hint Hne) as (position & s & Hpos & Hs & Hteam).
  destruct (subset_data_column df player "player" label player_labels
              Hp Hpl Hinp Hne) as (position' & s' & Hpos' & Hs' & Hplayer).
  rewrite Hpos in Hpos'. injection Hpos' as <-.
  rewrite Hs in Hs'. injection Hs' as <-.
  exists position, s. split; [exact Hpos|]. split; [exact Hs|].
  split; [exact Hteam|]. split; [exact Hplayer|].
  intros Hlen.
  rewrite <- (map_map (cell_eqb (Str "team")) negb).
  apply mask_series_partition. now rewrite length_map.
Qed.

Lemma subset_data_partition_witness :
  exists team player,
    subset_data (Some example_mixed) (Some "team") = Ok team
    /\ subset_data (Some example_mixed) (Some "player") = Ok player
    /\ getitem team "gameid" = Ok [Str "r0"]
    /\ getitem player "gameid" = Ok [Str "r1"; Str "r2"].
Proof.
  destruct (subset_data (Some example_mixed) (Some "team"))
    as [team|e] eqn:Ht; [|vm_compute in Ht; discriminate].
  destruct (subset_data (Some example_mixed) (Some "player"))
    as [player|e] eqn:Hp; [|vm_compute in Hp; discriminate].
  destruct (subset_data_partition example_mixed team player "gameid"
              _ _ Ht Hp eq_refl eq_refl)
    as (position & s & Hpos & Hs & Hteam & Hplayer & _);
    [simpl; auto | simpl; auto | discriminate |].
  exists team, player. split; [reflexivity|]. split; [reflexivity|].
  vm_compute in Hpos. injection Hpos as <-.
  vm_compute in Hs. injection Hs as <-.
  split; [exact Hteam | exact Hplayer].
Defined.

(** ** sort_data: nothing lost *)

Lemma map_nth_seq (s : Series) :
  map (fun i => nth i s NaN) (seq 0 (length s)) = s.
Proof.
  apply nth_error_ext. intros n.
  rewrite nth_error_map, nth_error_seq.
  destruct (Nat.ltb_spec n (length s)) as [Hn|Hn]; simpl.
  - symmetry. now apply nth_error_nth'.
  - symmetry. now apply nth_error_None.
Qed.

Lemma sort_data_Ok_take (df out : DataFrame) (split_on : option string) :
  sort_data df split_on = Ok (Some out) ->
  exists indexer,
    out = take indexer df /\ Permutation indexer (seq 0 (nrows df)).
Proof.
  unfold sort_data, sort_values. intros H.
  destruct (py_eq split_on "player").
  - inv_bind_as H d Hd. injection H as <-.
    inv_bind_as Hd keys Hkeys.
    destruct (forallb comparable keys); [|discriminate].
    injection Hd as <-. eexists. split; [reflexivity|].
    apply lexsort_indexer_perm.
  - destruct (py_eq split_on "team"); [|discriminate].
    inv_bind_as H d Hd. injection H as <-.
    inv_bind_as Hd keys Hkeys.
    destruct (forallb comparable keys); [|discriminate].
    injection Hd as <-. eexists. split; [reflexivity|].
    apply lexsort_indexer_perm.
Qed.

(** X12.  Sorting loses no row and invents none: the table [sort_data]
    returns has the labels of its input, all its columns are read through
    one permutation of the row positions, and every column that has as many
    rows as the table is a rearrangement of the column it was. *)
Theorem sort_data_permutes (df out : DataFrame) (split_on : option string) :
  sort_data df split_on = Ok (Some out) ->
  columns out = columns df
  /\ exists indexer,
       Permutation indexer (seq 0 (nrows df))
       /\ forall label s,
            getitem df label = Ok s ->
            getitem out label = Ok (map (fun i => nth i s NaN) indexer)
            /\ (length s = nrows df ->
                Permutation s (map (fun i => nth i s NaN) indexer)).
Proof.
  intros H. apply sort_data_Ok_take in H.
  destruct H as (indexer & -> & Hperm). split.
  - unfold columns, take. now rewrite map_map.
  - exists indexer. split; [exact Hperm|].
    intros label s Hs. split; [now rewrite getitem_take, Hs|].
    intros Hlen. rewrite <- (map_nth_seq s) at 1. rewrite Hlen.
    apply Permutation_map. now symmetry.
Qed.

Lemma sort_data_permutes_witness :
  exists out,
    sort_data example_unsorted (Some "player") = Ok (Some out)
    /\ columns out = columns example_unsorted.
Proof.
  destruct (sort_data example_unsorted (Some "player"))
    as [[out|]|e] eqn:Hrun; try (vm_compute in Hrun; discriminate).
  exists out. split; [reflexivity|].
  exact (proj1 (sort_data_permutes example_unsorted out (Some "player")
                  Hrun)).
Defined.

(** ** Rectangular frames through the stages *)

Lemma rectangular_all_length (df : DataFrame) :
  rectangular df = true -> all_length (nrows df) df.
Proof.
  unfold rectangular, all_length. rewrite forallb_forall, Forall_forall.
  intros H c Hc. now apply Nat.eqb_eq, H.
Qed.

Lemma all_length_getitem (n : nat) (df : DataFrame) (label : string)
    (s : Series) :
  all_length n df -> getitem df label = Ok s -> length s = n.
Proof.
  unfold all_length, getitem. rewrite Forall_forall. intros Hall H.
  destruct (filter (has_label label) df) as [|c [|c' l]] eqn:Hf;
    try discriminate.
  injection H as <-. apply Hall.
  assert (Hin : In c (filter (has_label label) df)) by (rewrite Hf; now left).
  now apply filter_In in Hin.
Qed.

Lemma all_length_nrows (n : nat) (df : DataFrame) (label : string)
    (s : Series) :
  all_length n df -> getitem df label = Ok s -> nrows df = n.
Proof.
  intros Hall H. destruct df as [|(l, c) df].
  - discriminate.
  - simpl. now inversion Hall.
Qed.

Lemma all_length_setitem (n : nat) (df : DataFrame) (label : string)
    (values : Series) :
  all_length n df -> length values = n ->
  all_length n (setitem df label values).
Proof.
  unfold all_length, setitem. intros Hall Hv.
  destruct (existsb (String.eqb label) (columns df)).
  - rewrite Forall_map. eapply Forall_impl; [|exact Hall].
    intros c Hc. now destruct (has_label label c).
  - apply Forall_app. split; [assumption|]. now constructor.
Qed.

Lemma all_length_assign (n : nat) (metrics : list (string * Series)) :
  forall df,
    all_length n df -> Forall (fun kv => length (snd kv) = n) metrics ->
    all_length n (assign df metrics).
Proof.
  induction metrics as [|kv metrics IH]; intros df Hall Hm; simpl;
    [assumption|].
  inversion Hm; subst. apply IH; [|assumption].
  now apply all_length_setitem.
Qed.

Lemma all_length_replace (n : nat) (df : DataFrame) (labels : list string) :
  all_length n df -> all_length n (replace df labels).
Proof.
  unfold all_length, replace. intros Hall. rewrite Forall_map.
  eapply Forall_impl; [|exact Hall]. intros c Hc.
  destruct (existsb (String.eqb (fst c)) labels); [|assumption].
  simpl. unfold replace_values. now rewrite length_map.
Qed.

Lemma all_length_rename (n : nat) (df : DataFrame) (old new : string) :
  all_length n df -> all_length n (rename df old new).
Proof.
  unfold all_length, rename. intros Hall. rewrite Forall_map.
  eapply Forall_impl; [|exact Hall]. intros c Hc.
  now destruct (has_label old c).
Qed.

Lemma all_length_boolean_mask (n : nat) (df : DataFrame)
    (mask : list bool) :
  all_length n df -> length mask = n ->
  all_length (count_occ bool_dec mask true) (boolean_mask mask df).
Proof.
  unfold all_length, boolean_mask. intros Hall Hm. rewrite Forall_map.
  eapply Forall_impl; [|exact Hall]. intros c Hc. simpl.
  apply length_mask_series. congruence.
Qed.

Lemma all_length_take (df : DataFrame) (indexer : list nat) :
  all_length (length indexer) (take indexer df).
Proof.
  unfold all_length, take. rewrite Forall_map. apply Forall_forall.
  intros c _. simpl. apply length_map.
Qed.

Lemma all_length_select_columns (n : nat) (df out : DataFrame)
    (labels : list string) :
  all_length n df -> select_columns df labels = Ok out -> all_length n out.
Proof.
  unfold select_columns. intros Hall H. apply mapM_Ok_Forall2 in H.
  unfold all_length.
  induction H as [|l c ls os Hc _ IH]; [constructor|].
  inv_bind_as Hc s Hs. injection Hc as <-.
  constructor; [|exact IH]. simpl.
  exact (all_length_getitem n df l s Hall Hs).
Qed.

(** ** No missing game id through the stages *)

Lemma gameid_present_boolean_mask (mask : list bool) (df : DataFrame) :
  gameid_present df -> gameid_present (boolean_mask mask df).
Proof.
  unfold gameid_present. intros H g Hg.
  rewrite getitem_boolean_mask in Hg. inv_bind_as Hg g0 Hg0.
  injection Hg as <-. intros Hin.
  apply In_mask_series in Hin. destruct Hin as (i & _ & Hi).
  apply (H g0 Hg0). eapply nth_error_In; eassumption.
Qed.

Lemma gameid_present_setitem (df : DataFrame) (label : string)
    (values : Series) :
  label <> "gameid" -> gameid_present df ->
  gameid_present (setitem df label values).
Proof.
  unfold gameid_present. intros Hne H g Hg.
  rewrite getitem_setitem_other in Hg by congruence. now apply H.
Qed.

Lemma gameid_present_assign (metrics : list (string * Series)) :
  forall df,
    ~ In "gameid" (map fst metrics) -> gameid_present df ->
    gameid_present (assign df metrics).
Proof.
  unfold gameid_present. intros df Hno H g Hg.
  rewrite getitem_assign_other in Hg by assumption. now apply H.
Qed.

Lemma gameid_present_take (n : nat) (df : DataFrame) (indexer : list nat) :
  all_length n df -> Forall (fun i => (i < n)%nat) indexer ->
  gameid_present df -> gameid_present (take indexer df).
Proof.
  unfold gameid_present. intros Hall Hidx H g Hg.
  rewrite getitem_take in Hg. inv_bind_as Hg g0 Hg0. injection Hg as <-.
  intros Hin. apply in_map_iff in Hin. destruct Hin as (i & Hnan & Hi).
  rewrite Forall_forall in Hidx. specialize (Hidx i Hi).
  apply (H g0 Hg0). rewrite <- Hnan. apply nth_In.
  now rewrite (all_length_getitem n df _ _ Hall Hg0).
Qed.

(** ** Counting rows by game *)

Lemma length_count_occ_filter (g : Series) (x : cell) :
  length g
  = (count_occ cell_eq_dec g x
     + length (filter (fun y => negb (cell_eqb y x)) g))%nat.
Proof.
  induction g as [|y g IH]; simpl; [reflexivity|].
  unfold cell_eqb at 1.
  destruct (cell_eq_dec y x) as [Heq|Hne]; simpl; lia.
Qed.

(** A column in which every value occurs [k] times has a multiple of [k]
    rows. *)
Lemma uniform_count_length (k : nat) (g : Series) :
  (forall x, In x g -> count_occ cell_eq_dec g x = k) ->
  exists m, length g = (m * k)%nat.
Proof.
  remember (length g) as n eqn:Hn. revert g Hn.
  induction n as [n IH] using lt_wf_ind. intros g Hn Hk.
  destruct g as [|x g']; [exists O; subst; reflexivity|].
  set (g := x :: g') in *.
  set (rest := filter (fun y => negb (cell_eqb y x)) g).
  assert (Hx : count_occ cell_eq_dec g x = k) by (apply Hk; now left).
  assert (Hpos : (0 < count_occ cell_eq_dec g x)%nat)
    by (apply count_occ_In; now left).
  pose proof (length_count_occ_filter g x) as Hsplit. fold rest in Hsplit.
  destruct (IH (length rest) ltac:(lia) rest eq_refl) as (m & Hm).
  { intros y Hy. unfold rest in *. rewrite count_occ_filter.
    apply filter_In in Hy. destruct Hy as (Hy & ->). now apply Hk. }
  exists (S m). simpl. lia.
Qed.

(** ** Exceptions of the stages *)

Lemma bind_Raise {X Y : Type} (m : result X) (k : X -> result Y) (e : exn) :
  bind m k = Raise e ->
  m = Raise e \/ exists x, m = Ok x /\ k x = Raise e.
Proof.
  destruct m as [x|e']; simpl; [eauto|]. intros [= ->]. now left.
Qed.

Lemma getitem_raises (df : DataFrame) (label : string) (e : exn) :
  getitem df label = Raise e -> e <> IndexError.
Proof.
  unfold getitem.
  destruct (filter (has_label label) df) as [|c [|c' l]]; intros [= <-];
    discriminate.
Qed.

Lemma mapM_getitem_raises (df : DataFrame) (labels : list string)
    (e : exn) :
  mapM (getitem df) labels = Raise e -> e <> IndexError.
Proof.
  intros H. apply mapM_Raise in H. destruct H as (l & _ & H).
  eapply getitem_raises; eassumption.
Qed.

Ltac raise_step H :=
  apply bind_Raise in H;
  destruct H as [H|(?x & ?Hx & H)];
  [try (eapply getitem_raises; eassumption)|].

Lemma sort_values_raises (df : DataFrame) (by_ : list string) (e : exn) :
  sort_values df by_ = Raise e -> e <> IndexError.
Proof.
  unfold sort_values. intros H.
  apply bind_Raise in H. destruct H as [H|(keys & _ & H)].
  - eapply mapM_getitem_raises; eassumption.
  - destruct (forallb comparable keys); [discriminate|].
    injection H as <-. discriminate.
Qed.

Lemma sort_data_raises (df : DataFrame) (split_on : option string)
    (e : exn) :
  sort_data df split_on = Raise e -> e <> IndexError.
Proof.
  unfold sort_data. intros H.
  destruct (py_eq split_on "player").
  - apply bind_Raise in H. destruct H as [H|(d & _ & H)]; [|discriminate].
    eapply sort_values_raises; eassumption.
  - destruct (py_eq split_on "team"); [|discriminate].
    apply bind_Raise in H. destruct H as [H|(d & _ & H)]; [|discriminate].
    eapply sort_values_raises; eassumption.
Qed.

Lemma fill_null_team_ids_raises (oe_data : option DataFrame)
    (split_on : option string) (e : exn) :
  fill_null_team_ids oe_data split_on = Raise e -> e <> IndexError.
Proof.
  unfold fill_null_team_ids. intros H.
  destruct (py_eq split_on "player"); [|discriminate].
  destruct oe_data as [df|]; [|injection H as <-; discriminate].
  raise_step H. raise_step H. discriminate.
Qed.

Lemma subset_data_raises (oe_data : option DataFrame)
    (split_on : option string) (e : exn) :
  subset_data oe_data split_on = Raise e -> e <> IndexError.
Proof.
  unfold subset_data. intros H.
  destruct split_on as [s|]; [|injection H as <-; discriminate].
  destruct (subset_columns s) as [labels|];
    [|injection H as <-; discriminate].
  destruct oe_data as [df|]; [|injection H as <-; discriminate].
  raise_step H. unfold select_columns in H.
  apply mapM_Raise in H. destruct H as (l & _ & H).
  raise_step H. discriminate.
Qed.

Lemma remove_inconsistent_games_raises (df : DataFrame)
    (split_on : option string) (e : exn) :
  remove_inconsistent_games df split_on = Raise e -> e <> IndexError.
Proof.
  unfold remove_inconsistent_games. intros H. raise_step H.
  destruct split_on; [discriminate|]. injection H as <-. discriminate.
Qed.

Section NoIndexError.

Variable to_datetime : Series -> option (list (option Z)).

Lemma format_data_types_raises (df : DataFrame) (e : exn) :
  format_data_types to_datetime df = Raise e -> e <> IndexError.
Proof.
  unfold format_data_types. intros H. raise_step H.
  destruct (to_datetime x); [|injection H as <-; discriminate].
  raise_step H. raise_step H. raise_step H. raise_step H.
  raise_step H; [|discriminate].
  unfold truediv60 in H. apply mapM_Raise in H.
  destruct H as (c & _ & H). destruct c; try discriminate;
    injection H as <-; discriminate.
Qed.

Lemma clean_data_filtered_raises (df : DataFrame)
    (split_on : option string) (e : exn) :
  clean_data_filtered to_datetime df split_on = Raise e ->
  e <> IndexError.
Proof.
  unfold clean_data_filtered. intros H.
  apply bind_Raise in H. destruct H as [H|(d1 & _ & H)];
    [eapply format_data_types_raises; eassumption|].
  apply bind_Raise in H. destruct H as [H|(d2 & _ & H)].
  { unfold remove_null_games in H. raise_step H. discriminate. }
  apply bind_Raise in H. destruct H as [H|(d3 & _ & H)].
  { unfold drop_unknown_entities in H. raise_step H. raise_step H.
    discriminate. }
  apply bind_Raise in H. destruct H as [H|(d4 & _ & H)];
    [eapply sort_data_raises; eassumption|].
  apply bind_Raise in H. destruct H as [H|(d5 & _ & H)];
    [eapply fill_null_team_ids_raises; eassumption|].
  apply bind_Raise in H. destruct H as [H|(d6 & _ & H)];
    [eapply subset_data_raises; eassumption|].
  eapply remove_inconsistent_games_raises; eassumption.
Qed.

Lemma clean_data_filtered_then_enrich (df : DataFrame)
    (split_on : option string) :
  clean_data to_datetime df split_on
  = (filtered <- clean_data_filtered to_datetime df split_on ;;
     enrich_opponent_metrics filtered split_on).
Proof.
  unfold clean_data, clean_data_filtered.
  destruct (format_data_types to_datetime df) as [d1|]; [|reflexivity].
  cbn [bind].
  destruct (remove_null_games d1) as [d2|]; [|reflexivity]. cbn [bind].
  destruct (drop_unknown_entities d2) as [d3|]; [|reflexivity]. cbn [bind].
  destruct (sort_data d3 split_on) as [d4|]; [|reflexivity]. cbn [bind].
  destruct (fill_null_team_ids d4 split_on) as [d5|]; [|reflexivity].
  cbn [bind].
  destruct (subset_data d5 split_on) as [d6|]; [|reflexivity]. cbn [bind].
  destruct (remove_inconsistent_games d6 split_on) as [d7|]; [|reflexivity].
  cbn [bind].
  now destruct (enrich_opponent_metrics d7 split_on).
Qed.

End NoIndexError.

(** ** What each stage keeps *)

Lemma remove_null_games_keeps (n : nat) (df out : DataFrame) :
  all_length n df -> remove_null_games df = Ok out ->
  is_series out "gameid" = true
  /\ gameid_present out
  /\ exists n', all_length n' out.
Proof.
  unfold remove_null_games. intros Hall H. inv_bind_as H g Hg.
  injection H as <-.
  split; [rewrite is_series_boolean_mask; apply is_series_Ok; eauto|].
  split.
  - intros g' Hg'. rewrite getitem_boolean_mask, Hg in Hg'. simpl in Hg'.
    injection Hg' as <-. rewrite mask_series_map_filter.
    intros Hin. apply filter_In in Hin. destruct Hin as (_ & Hna).
    discriminate.
  - eexists. apply (all_length_boolean_mask n); [assumption|].
    rewrite length_map. eapply all_length_getitem; eassumption.
Qed.

Lemma drop_unknown_entities_keeps (n : nat) (df out : DataFrame) :
  all_length n df -> gameid_present df -> is_series df "gameid" = true ->
  drop_unknown_entities df = Ok out ->
  is_series out "gameid" = true
  /\ gameid_present out
  /\ exists n', all_length n' out.
Proof.
  unfold drop_unknown_entities. intros Hall Hg Hs H.
  inv_bind_as H p Hp. inv_bind_as H t Ht. injection H as <-.
  split; [now rewrite is_series_boolean_mask|].
  split; [now apply gameid_present_boolean_mask|].
  eexists. apply (all_length_boolean_mask n); [assumption|].
  rewrite length_map, length_combine, !length_map.
  rewrite (all_length_getitem n df _ _ Hall Hp).
  rewrite (all_length_getitem n df _ _ Hall Ht). lia.
Qed.

Lemma sort_data_keeps (n : nat) (df out : DataFrame)
    (split_on : option string) :
  all_length n df -> gameid_present df -> is_series df "gameid" = true ->
  sort_data df split_on = Ok (Some out) ->
  all_length n out /\ gameid_present out.
Proof.
  intros Hall Hg Hs H. apply sort_data_Ok_take in H.
  destruct H as (indexer & -> & Hperm).
  apply is_series_Ok in Hs. destruct Hs as (g & Hgs).
  rewrite (all_length_nrows n df _ _ Hall Hgs) in Hperm.
  assert (Hlen : length indexer = n).
  { apply Permutation_length in Hperm. now rewrite length_seq in Hperm. }
  split.
  - rewrite <- Hlen. apply all_length_take.
  - apply (gameid_present_take n); try assumption.
    apply Forall_forall. intros i Hi.
    apply (Permutation_in _ Hperm), in_seq in Hi. lia.
Qed.

Lemma fill_null_team_ids_keeps (n : nat) (df out : DataFrame)
    (split_on : option string) :
  all_length n df -> gameid_present df ->
  fill_null_team_ids (Some df) split_on = Ok (Some out) ->
  all_length n out /\ gameid_present out.
Proof.
  unfold fill_null_team_ids. intros Hall Hg H.
  destruct (py_eq split_on "player"); [|injection H as <-; auto].
  inv_bind_as H teamid Hid. inv_bind_as H teamname Hname.
  injection H as <-. split.
  - apply all_length_setitem; [assumption|].
    rewrite length_fillna. eapply all_length_getitem; eassumption.
  - apply gameid_present_setitem; [discriminate | assumption].
Qed.

Lemma subset_columns_gameid (split_on : string) (labels : list string) :
  subset_columns split_on = Some labels -> In "gameid" labels.
Proof.
  intros H. pose proof (subset_columns_Some _ _ H) as [-> | ->];
    vm_compute in H; injection H as <-; simpl; auto.
Qed.

Lemma subset_data_keeps (n : nat) (df out : DataFrame) (split_on : string) :
  all_length n df -> gameid_present df ->
  subset_data (Some df) (Some split_on) = Ok out ->
  gameid_present out /\ exists n', all_length n' out.
Proof.
  unfold subset_data. intros Hall Hg H.
  destruct (subset_columns split_on) as [labels|] eqn:Hsub;
    [|discriminate].
  inv_bind_as H position Hpos.
  pose proof (all_length_rename n df "earned gpm" "egpm" Hall) as Hall'.
  assert (Hg' : gameid_present (rename df "earned gpm" "egpm")).
  { intros g Hgr. rewrite getitem_rename_other in Hgr by discriminate.
    now apply Hg. }
  pose proof (all_length_getitem n _ _ _ Hall' Hpos) as Hplen.
  set (masked := if String.eqb (lower split_on) "team"
                 then boolean_mask (map (cell_eqb (Str "team")) position)
                        (rename df "earned gpm" "egpm")
                 else boolean_mask
                        (map negb (map (cell_eqb (Str "team")) position))
                        (rename df "earned gpm" "egpm")) in H.
  assert (Hm : gameid_present masked /\ exists n', all_length n' masked).
  { unfold masked. destruct (String.eqb (lower split_on) "team"); split;
      try (now apply gameid_present_boolean_mask);
      eexists; apply (all_length_boolean_mask n); try assumption;
      now rewrite ?length_map. }
  destruct Hm as (Hgm & n' & Hallm). split.
  - intros g Hgo.
    rewrite (select_columns_getitem _ _ _ "gameid" H
               (subset_columns_NoDup _ _ Hsub)
               (subset_columns_gameid _ _ Hsub)) in Hgo.
    now apply Hgm.
  - exists n'. eapply all_length_select_columns; eassumption.
Qed.

Lemma remove_inconsistent_games_keeps (n : nat) (df out : DataFrame)
    (split_on : string) :
  all_length n df -> gameid_present df ->
  remove_inconsistent_games df (Some split_on) = Ok out ->
  exists gameid,
    getitem out "gameid" = Ok gameid
    /\ all_length (length gameid) out
    /\ ~ In NaN gameid
    /\ forall x, In x gameid ->
         count_occ cell_eq_dec gameid x = expected_count split_on.
Proof.
  intros Hall Hg H. unfold remove_inconsistent_games in H.
  inv_bind_as H g Hgs. injection H as <-.
  fold (inconsistent_games g split_on).
  change (fun c => negb (isin (inconsistent_games g split_on) c))
    with (consistent_row g split_on).
  exists (filter (consistent_row g split_on) g).
  split.
  { rewrite getitem_boolean_mask, Hgs. simpl.
    now rewrite mask_series_map_filter. }
  split.
  { rewrite <- count_true_map_filter.
    apply (all_length_boolean_mask n); [assumption|].
    rewrite length_map. eapply all_length_getitem; eassumption. }
  split.
  { intros Hin. apply filter_In in Hin. destruct Hin as (Hin & _).
    now apply (Hg g Hgs). }
  intros x Hx. pose proof Hx as Hx'. apply filter_In in Hx'.
  destruct Hx' as (Hin & Hk).
  rewrite count_occ_filter, Hk.
  apply consistent_row_true in Hk; [|assumption].
  destruct Hk as [->|Hc]; [|exact Hc].
  exfalso. now apply (Hg g Hgs).
Qed.

(** ** clean_data: the table that is enriched *)

Lemma get_opponent_whole_cycles {A : Type} (column : list A)
    (entity : option string) (gap : Z) :
  gap_dict_get entity = Some gap ->
  Z.of_nat (length column) mod (2 * gap) = 0 ->
  exists opponent,
    get_opponent column entity = Ok opponent
    /\ length opponent = length column.
Proof.
  intros Hgap Hmod. pose proof (gap_dict_get_pos _ _ Hgap) as Hpos.
  rewrite (get_opponent_by_cycle column entity gap Hgap).
  destruct (opponent_by_cycle_returns column gap Hpos) as (out & Hout).
  { intros i Hi Hflag.
    destruct (Z_lt_le_dec (Z.of_nat i + gap) (Z.of_nat (length column)))
      as [Hin|Hpast]; [exact Hin|].
    exfalso. apply (proj1 (past_end_iff_ragged column gap Hpos));
      [eauto | exact Hmod]. }
  exists out. split; [exact Hout|].
  now apply (opponent_by_cycle_elements column gap Hpos).
Qed.

(** On a rectangular table made of whole cycles, enrichment can only fail
    on a column that cannot be read, and it returns a rectangular table. *)
Lemma enrich_opponent_metrics_whole_cycles (m : nat) (df : DataFrame)
    (split_on : option string) (gap : Z) :
  all_length m df ->
  gap_dict_get split_on = Some gap ->
  Z.of_nat m mod (2 * gap) = 0 ->
  (forall e, enrich_opponent_metrics df split_on = Raise e ->
             e <> IndexError)
  /\ (forall out, enrich_opponent_metrics df split_on = Ok out ->
                  all_length m out).
Proof.
  intros Hall Hgap Hmod.
  assert (Hopp : forall label s,
            getitem df label = Ok s ->
            exists o, get_opponent s split_on = Ok o /\ length o = m).
  { intros label s Hs.
    pose proof (all_length_getitem m df _ _ Hall Hs) as Hlen.
    destruct (get_opponent_whole_cycles s split_on gap Hgap) as (o & Ho & Hl);
      [now rewrite Hlen|].
    exists o. split; [exact Ho | congruence]. }
  unfold enrich_opponent_metrics. split.
  - intros e H.
    raise_step H. rename x into teamid. raise_step H. rename x into teamname.
    destruct (Hopp _ _ Hx0) as (ot & Hot & _). rewrite Hot in H.
    cbn [bind] in H.
    destruct (Hopp _ _ Hx) as (oti & Hoti & _). rewrite Hoti in H.
    cbn [bind] in H.
    raise_step H. rename x into egpm.
    destruct (Hopp _ _ Hx1) as (oe & Hoe & _). rewrite Hoe in H.
    cbn [bind] in H.
    apply bind_Raise in H. destruct H as [H|(metrics & _ & H)];
      [|discriminate].
    destruct (py_eq split_on "player"); [|discriminate].
    raise_step H. rename x into playerid.
    raise_step H. rename x into playername.
    destruct (Hopp _ _ Hx3) as (on & Hon & _). rewrite Hon in H.
    cbn [bind] in H.
    destruct (Hopp _ _ Hx2) as (oi & Hoi & _). rewrite Hoi in H.
    discriminate.
  - intros out H.
    inv_bind_as H teamid Hteamid. inv_bind_as H teamname Hteamname.
    inv_bind_as H ot Hot. inv_bind_as H oti Hoti.
    inv_bind_as H egpm Hegpm. inv_bind_as H oe Hoe.
    inv_bind_as H metrics Hm. injection H as <-.
    apply all_length_assign; [assumption|].
    assert (Hlen : forall label s o,
              getitem df label = Ok s -> get_opponent s split_on = Ok o ->
              length o = m).
    { intros label s o Hs Ho. destruct (Hopp _ _ Hs) as (o' & Ho' & Hl).
      congruence. }
    assert (Hfill : forall a b, getitem df a = Ok b ->
              forall c, length (fillna b c) = m).
    { intros a b Hb c. rewrite length_fillna.
      eapply all_length_getitem; eassumption. }
    destruct (py_eq split_on "player").
    + inv_bind_as Hm playerid Hplayerid.
      inv_bind_as Hm playername Hplayername.
      inv_bind_as Hm on Hon. inv_bind_as Hm oi Hoi. injection Hm as <-.
      repeat constructor; simpl; eauto.
    + injection Hm as <-. repeat constructor; simpl; eauto.
Qed.

Section Filtered.

Variable to_datetime : Series -> option (list (option Z)).

Lemma format_data_types_keeps (n : nat) (df out : DataFrame) :
  all_length n df ->
  (forall date parsed,
     getitem df "date" = Ok date -> to_datetime date = Some parsed ->
     length parsed = length date) ->
  format_data_types to_datetime df = Ok out ->
  all_length n out.
Proof.
  intros Hall Hdate H. apply format_data_types_Ok in H.
  destruct H as (date & parsed & gameid & playerid & teamid & len & minutes
                 & Hd & Hparse & Hg & Hp & Ht & Hlen & Hmin & ->).
  apply all_length_setitem.
  - apply all_length_replace.
    repeat apply all_length_setitem; try assumption;
      unfold str_strip; rewrite length_map;
      try (eapply all_length_getitem; eassumption).
    rewrite (Hdate date parsed Hd Hparse).
    eapply all_length_getitem; eassumption.
  - apply mapM_length in Hmin. rewrite Hmin.
    eapply all_length_getitem; eassumption.
Qed.

(** The table handed to the enrichment is rectangular, has a game id on
    every row, and each of its games has the expected number of rows. *)
Lemma clean_data_filtered_keeps (df out : DataFrame)
    (split_on : option string) :
  rectangular df = true ->
  (forall date parsed,
     getitem df "date" = Ok date -> to_datetime date = Some parsed ->
     length parsed = length date) ->
  clean_data_filtered to_datetime df split_on = Ok out ->
  exists s gameid,
    split_on = Some s
    /\ (s = "team" \/ s = "player")
    /\ columns out = match subset_columns s with
                     | Some labels => labels
                     | None => []
                     end
    /\ getitem out "gameid" = Ok gameid
    /\ all_length (length gameid) out
    /\ ~ In NaN gameid
    /\ forall x, In x gameid ->
         count_occ cell_eq_dec gameid x = expected_count s.
Proof.
  intros Hrect Hdate H. unfold clean_data_filtered in H.
  inv_bind_as H d1 H1. inv_bind_as H d2 H2. inv_bind_as H d3 H3.
  inv_bind_as H o4 H4. inv_bind_as H o5 H5. inv_bind_as H d6 H6.
  destruct split_on as [s|]; [|discriminate].
  pose proof (subset_data_columns _ _ _ H6) as Hsub.
  pose proof (subset_columns_Some _ _ Hsub) as Hs.
  destruct o5 as [d5|];
    [|unfold subset_data in H6; rewrite Hsub in H6; discriminate].
  destruct o4 as [d4|].
  2:{ unfold fill_null_team_ids in H5.
      destruct (py_eq (Some s) "player"); discriminate. }
  pose proof (format_data_types_keeps _ _ _
                (rectangular_all_length _ Hrect) Hdate H1) as Hall1.
  destruct (remove_null_games_keeps _ _ _ Hall1 H2)
    as (Hs2 & Hg2 & n2 & Hall2).
  destruct (drop_unknown_entities_keeps _ _ _ Hall2 Hg2 Hs2 H3)
    as (Hs3 & Hg3 & n3 & Hall3).
  destruct (sort_data_keeps _ _ _ _ Hall3 Hg3 Hs3 H4) as (Hall4 & Hg4).
  destruct (fill_null_team_ids_keeps _ _ _ _ Hall4 Hg4 H5)
    as (Hall5 & Hg5).
  destruct (subset_data_keeps _ _ _ _ Hall5 Hg5 H6) as (Hg6 & n6 & Hall6).
  destruct (remove_inconsistent_games_keeps _ _ _ _ Hall6 Hg6 H)
    as (gameid & Hgo & Hallo & Hna & Hcount).
  exists s, gameid. split; [reflexivity|]. split; [exact Hs|].
  split.
  { rewrite (remove_inconsistent_games_columns _ _ _ H), Hsub.
    reflexivity. }
  repeat (split; [assumption|]). exact Hcount.
Qed.

Lemma expected_count_cycle (s : string) :
  s = "team" \/ s = "player" ->
  exists gap,
    gap_dict_get (Some s) = Some gap
    /\ Z.of_nat (expected_count s) = 2 * gap
    /\ expected_count s = (if String.eqb s "team" then 2 else 10)%nat.
Proof.
  intros [-> | ->]; [exists 1 | exists 5]; repeat split.
Qed.

(** X13.  On a rectangular table [clean_data] never raises [IndexError]:
    the games of another size are removed before the opponent columns are
    computed, so the positional cursor of [get_opponent] always runs over
    whole games. *)
Theorem clean_data_no_index_error (oe_data : DataFrame)
    (split_on : option string) :
  rectangular oe_data = true ->
  (forall date parsed,
     getitem oe_data "date" = Ok date -> to_datetime date = Some parsed ->
     length parsed = length date) ->
  clean_data to_datetime oe_data split_on <> Raise IndexError.
Proof.
  intros Hrect Hdate H. rewrite clean_data_filtered_then_enrich in H.
  apply bind_Raise in H. destruct H as [H|(d & Hd & H)].
  - now apply clean_data_filtered_raises in H.
  - destruct (clean_data_filtered_keeps _ _ _ Hrect Hdate Hd)
      as (s & gameid & -> & Hs & _ & Hg & Hall & Hna & Hcount).
    destruct (expected_count_cycle s Hs) as (gap & Hgap & Hexp & _).
    destruct (uniform_count_length _ _ Hcount) as (m & Hm).
    assert (Hmod : Z.of_nat (length gameid) mod (2 * gap) = 0).
    { rewrite Hm, Nat2Z.inj_mul, Hexp. apply Z.mod_mul.
      pose proof (gap_dict_get_pos _ _ Hgap). lia. }
    now apply (proj1 (enrich_opponent_metrics_whole_cycles _ _ _ _
                        Hall Hgap Hmod)) in H.
Qed.

(** X14.  In the table [clean_data] returns for a rectangular input, every
    row has a game id, every game has exactly 2 rows at team granularity
    and 10 at player granularity, and all columns, the opponent columns
    included, have the same number of rows. *)
Theorem clean_data_group_size (oe_data out : DataFrame)
    (split_on : option string) :
  rectangular oe_data = true ->
  (forall date parsed,
     getitem oe_data "date" = Ok date -> to_datetime date = Some parsed ->
     length parsed = length date) ->
  clean_data to_datetime oe_data split_on = Ok out ->
  exists s gameid,
    split_on = Some s
    /\ getitem out "gameid" = Ok gameid
    /\ ~ In NaN gameid
    /\ (forall x, In x gameid ->
          count_occ cell_eq_dec gameid x
          = if String.eqb s "team" then 2%nat else 10%nat)
    /\ all_length (length gameid) out.
Proof.
  intros Hrect Hdate H. rewrite clean_data_filtered_then_enrich in H.
  inv_bind_as H d Hd.
  destruct (clean_data_filtered_keeps _ _ _ Hrect Hdate Hd)
    as (s & gameid & -> & Hs & _ & Hg & Hall & Hna & Hcount).
  destruct (expected_count_cycle s Hs) as (gap & Hgap & Hexp & Hval).
  destruct (uniform_count_length _ _ Hcount) as (m & Hm).
  assert (Hmod : Z.of_nat (length gameid) mod (2 * gap) = 0).
  { rewrite Hm, Nat2Z.inj_mul, Hexp. apply Z.mod_mul.
    pose proof (gap_dict_get_pos _ _ Hgap). lia. }
  exists s, gameid. split; [reflexivity|].
  assert (Hgo : getitem out "gameid" = Ok gameid).
  { rewrite <- Hg. unfold enrich_opponent_metrics in H.
    inv_bind_as H teamid Hteamid. inv_bind_as H teamname Hteamname.
    inv_bind_as H ot Hot. inv_bind_as H oti Hoti.
    inv_bind_as H egpm Hegpm. inv_bind_as H oe Hoe.
    inv_bind_as H metrics Hmetrics. injection H as <-.
    apply getitem_assign_other.
    destruct (py_eq (Some s) "player").
    - inv_bind_as Hmetrics a Ha. inv_bind_as Hmetrics b Hb.
      inv_bind_as Hmetrics c Hc. inv_bind_as Hmetrics e He.
      injection Hmetrics as <-. simpl. intuition discriminate.
    - injection Hmetrics as <-. simpl. intuition discriminate. }
  split; [exact Hgo|]. split; [exact Hna|].
  split; [intros x Hx; rewrite <- Hval; now apply Hcount|].
  now apply (proj2 (enrich_opponent_metrics_whole_cycles _ _ _ _
                      Hall Hgap Hmod)).
Qed.

End Filtered.

Lemma clean_data_no_index_error_witness :
  clean_data to_datetime_compact example_ragged (Some "team")
  <> Raise IndexError.
Proof.
  apply (clean_data_no_index_error to_datetime_compact example_ragged
           (Some "team") eq_refl).
  intros date parsed Hd Hp.
  vm_compute in Hd. injection Hd as <-.
  vm_compute in Hp. injection Hp as <-. reflexivity.
Defined.

Lemma clean_data_group_size_witness :
  exists out gameid,
    clean_data to_datetime_compact example_game (Some "team") = Ok out
    /\ getitem out "gameid" = Ok gameid
    /\ ~ In NaN gameid
    /\ all_length (length gameid) out.
Proof.
  destruct (clean_data to_datetime_compact example_game (Some "team"))
    as [out|e] eqn:Hrun; [|vm_compute in Hrun; discriminate].
  destruct (clean_data_group_size to_datetime_compact example_game out
              (Some "team") eq_refl)
    as (s & gameid & _ & Hg & Hna & _ & Hall).
  - intros date parsed Hd Hp.
    vm_compute in Hd. injection Hd as <-.
    vm_compute in Hp. injection Hp as <-. reflexivity.
  - exact Hrun.
  - exists out, gameid. auto.
Defined.

(** ** Identifiers of the cleaned table *)

Lemma enrich_opponent_metrics_playerid (df out : DataFrame)
    (split_on : option string) :
  py_eq split_on "player" = true ->
  enrich_opponent_metrics df split_on = Ok out ->
  exists playerid playername,
    getitem df "playerid" = Ok playerid
    /\ getitem df "playername" = Ok playername
    /\ getitem out "playerid" = Ok (fillna playerid playername).
Proof.
  unfold enrich_opponent_metrics. intros Hp H. rewrite Hp in H.
  inv_bind_as H teamid Hteamid. inv_bind_as H teamname Hteamname.
  inv_bind_as H ot Hot. inv_bind_as H oti Hoti.
  inv_bind_as H egpm Hegpm. inv_bind_as H oe Hoe.
  inv_bind_as H metrics Hm. injection H as <-.
  inv_bind_as Hm playerid Hplayerid. inv_bind_as Hm playername Hplayername.
  inv_bind_as Hm on Hon. inv_bind_as Hm oi Hoi. injection Hm as <-.
  exists playerid, playername.
  split; [assumption|]. split; [assumption|].
  apply (getitem_assign_once df
           [("teamid", fillna teamid teamname); ("opponentteam", ot);
            ("opponentteamid", oti); ("opponent_egpm", oe)]
           [("opponentname", on); ("opponentid", oi)]); simpl.
  - intuition discriminate.
  - intuition discriminate.
  - left. apply is_series_Ok. eauto.
Qed.

Lemma enrich_opponent_metrics_names (df out : DataFrame)
    (split_on : option string) (label : string) :
  enrich_opponent_metrics df split_on = Ok out ->
  label = "teamname" \/ label = "playername" ->
  getitem out label = getitem df label.
Proof.
  unfold enrich_opponent_metrics. intros H Hl.
  inv_bind_as H teamid Hteamid. inv_bind_as H teamname Hteamname.
  inv_bind_as H ot Hot. inv_bind_as H oti Hoti.
  inv_bind_as H egpm Hegpm. inv_bind_as H oe Hoe.
  inv_bind_as H metrics Hm. injection H as <-.
  apply getitem_assign_other.
  destruct (py_eq split_on "player").
  - inv_bind_as Hm a Ha. inv_bind_as Hm b Hb.
    inv_bind_as Hm c Hc. inv_bind_as Hm e He. injection Hm as <-.
    destruct Hl as [-> | ->]; simpl; intuition discriminate.
  - injection Hm as <-.
    destruct Hl as [-> | ->]; simpl; intuition discriminate.
Qed.

Section Identifiers.

Variable to_datetime : Series -> option (list (option Z)).

(** X15.  In the table [clean_data] returns, a [teamid] is missing only on
    a row whose [teamname] is missing too, and at player granularity the
    same holds of [playerid] and [playername]: the identifiers that are
    still missing after [fill_null_team_ids] are backfilled from the names
    when the opponent columns are added. *)
Theorem clean_data_identifiers (oe_data out : DataFrame)
    (split_on : option string) :
  clean_data to_datetime oe_data split_on = Ok out ->
  (exists teamid teamname,
     getitem out "teamid" = Ok teamid
     /\ getitem out "teamname" = Ok teamname
     /\ forall i, nth_error teamid i = Some NaN -> nth i teamname NaN = NaN)
  /\ (split_on = Some "player" ->
      exists playerid playername,
        getitem out "playerid" = Ok playerid
        /\ getitem out "playername" = Ok playername
        /\ forall i, nth_error playerid i = Some NaN ->
                     nth i playername NaN = NaN).
Proof.
  unfold clean_data. intros H. do 8 inv_bind H. injection H as <-.
  destruct split_on as [s|]; [|discriminate].
  pose proof (subset_data_columns _ _ _ Hx4) as Hsub.
  pose proof (subset_columns_Some _ _ Hsub) as Hs.
  pose proof (remove_inconsistent_games_columns _ _ _ Hx5) as Hcols.
  assert (Hnew : ~ In "opponentteamid" (columns x5)).
  { rewrite Hcols. remember (columns x4) as labels.
    destruct Hs as [-> | ->]; vm_compute in Hsub; injection Hsub as <-;
      simpl; intuition discriminate. }
  split.
  - destruct (enrich_opponent_metrics_teamid _ _ _ Hx6 Hnew)
      as (teamid & teamname & opp & Hid & Hname & _ & _ & Hout).
    exists (fillna teamid teamname), teamname.
    split; [exact Hout|].
    split; [rewrite (enrich_opponent_metrics_names _ _ _ "teamname" Hx6);
            auto|].
    intros i Hi. now apply fillna_still_missing in Hi.
  - intros [= ->].
    destruct (enrich_opponent_metrics_playerid _ _ (Some "player")
                eq_refl Hx6)
      as (playerid & playername & Hid & Hname & Hout).
    exists (fillna playerid playername), playername.
    split; [exact Hout|].
    split; [rewrite (enrich_opponent_metrics_names _ _ _ "playername" Hx6);
            auto|].
    intros i Hi. now apply fillna_still_missing in Hi.
Qed.

End Identifiers.

Lemma clean_data_identifiers_witness :
  exists out teamid teamname,
    clean_data to_datetime_compact example_game (Some "team") = Ok out
    /\ getitem out "teamid" = Ok teamid
    /\ getitem out "teamname" = Ok teamname
    /\ forall i, nth_error teamid i = Some NaN -> nth i teamname NaN = NaN.
Proof.
  destruct (clean_data to_datetime_compact example_game (Some "team"))
    as [out|e] eqn:Hrun; [|vm_compute in Hrun; discriminate].
  destruct (proj1 (clean_data_identifiers to_datetime_compact example_game
                     out (Some "team") Hrun))
    as (teamid & teamname & H).
  exists out, teamid, teamname. split; [reflexivity | exact H].
Defined.

(** * PandaScore schedule *)

Lemma subscript_key_raises (obj : json) (key : string) (e : exn) :
  subscript_key obj key = Raise e -> e <> IndexError.
Proof.
  unfold subscript_key. destruct obj; try (intros [= <-]; discriminate).
  destruct (dict_get members key); [discriminate|].
  intros [= <-]. discriminate.
Qed.

Lemma side_named_Ok (entry : json) :
  side_named entry = true ->
  exists opponent name,
    subscript_key entry "opponent" = Ok opponent
    /\ subscript_key opponent "name" = Ok name.
Proof.
  unfold side_named.
  destruct (subscript_key entry "opponent") as [o|]; [|discriminate].
  destruct (subscript_key o "name") as [n|] eqn:Hn; [|discriminate]. eauto.
Qed.

Lemma has_member_Ok (m : json) (key : string) :
  has_member m key = true -> exists v, subscript_key m key = Ok v.
Proof.
  unfold has_member. destruct (subscript_key m key); [eauto | discriminate].
Qed.

(** A well-formed match with both sides gives a dict. *)
Lemma build_match_data_two_sided (m : json) :
  well_formed_match m = true -> two_sided m = true ->
  exists md, build_match_data m = Ok md.
Proof.
  unfold well_formed_match, two_sided, build_match_data.
  destruct (subscript_key m "league") as [league|]; [|discriminate].
  destruct (subscript_key m "opponents") as [opponents|]; [|discriminate].
  destruct opponents as [| | | |items|]; try discriminate.
  destruct items as [|first [|second rest]]; try discriminate.
  intros Hwf _.
  apply andb_true_iff in Hwf. destruct Hwf as (Hl & Hwf).
  apply andb_true_iff in Hwf. destruct Hwf as (Hwf & Hbo).
  apply andb_true_iff in Hwf. destruct Hwf as (Hwf & Hst).
  apply andb_true_iff in Hwf. destruct Hwf as (H1 & H2).
  destruct (has_member_Ok _ _ Hl) as (ln & Hln).
  destruct (side_named_Ok _ H1) as (b & bn & Hb & Hbn).
  destruct (side_named_Ok _ H2) as (r & rn & Hr & Hrn).
  destruct (has_member_Ok _ _ Hst) as (st & Hs).
  destruct (has_member_Ok _ _ Hbo) as (bo & Hn).
  cbn [bind]. rewrite Hln. cbn [bind subscript_index].
  rewrite (proj2 (list_getitem_nonneg (first :: second :: rest) 0 first
                    ltac:(lia)) eq_refl).
  rewrite (proj2 (list_getitem_nonneg (first :: second :: rest) 1 second
                    ltac:(lia)) eq_refl).
  cbn [bind]. rewrite Hb. cbn [bind]. rewrite Hbn. cbn [bind].
  rewrite Hr. cbn [bind]. rewrite Hrn. cbn [bind].
  rewrite Hs. cbn [bind]. rewrite Hn. cbn [bind]. eauto.
Qed.

(** A well-formed match that lacks a side runs into [IndexError]. *)
Lemma build_match_data_one_sided (m : json) :
  well_formed_match m = true -> two_sided m = false ->
  build_match_data m = Raise IndexError.
Proof.
  unfold well_formed_match, two_sided, build_match_data.
  destruct (subscript_key m "league") as [league|]; [|discriminate].
  destruct (subscript_key m "opponents") as [opponents|]; [|discriminate].
  destruct opponents as [| | | |items|]; try discriminate.
  destruct items as [|first [|second rest]]; try discriminate.
  - intros Hwf _. apply andb_true_iff in Hwf. destruct Hwf as (Hl & _).
    destruct (has_member_Ok _ _ Hl) as (ln & Hln).
    cbn [bind]. rewrite Hln. reflexivity.
  - intros Hwf _. apply andb_true_iff in Hwf. destruct Hwf as (Hl & Hs).
    destruct (has_member_Ok _ _ Hl) as (ln & Hln).
    destruct (side_named_Ok _ Hs) as (b & bn & Hb & Hbn).
    cbn [bind]. rewrite Hln. cbn [bind subscript_index].
    rewrite (proj2 (list_getitem_nonneg [first] 0 first ltac:(lia))
               eq_refl).
    cbn [bind]. rewrite Hb. cbn [bind]. rewrite Hbn. reflexivity.
Qed.

Lemma process_matches_well_formed (matches : list json) :
  forallb well_formed_match matches = true ->
  forall schedule,
    exists added,
      process_matches matches schedule = Ok (schedule ++ added)
      /\ Forall2 (fun m md => build_match_data m = Ok md)
           (filter two_sided matches) added.
Proof.
  induction matches as [|m matches IH]; intros Hwf schedule; simpl in *.
  - exists []. rewrite app_nil_r. split; [reflexivity | constructor].
  - apply andb_true_iff in Hwf. destruct Hwf as (Hm & Hrest).
    destruct (two_sided m) eqn:Hts.
    + destruct (build_match_data_two_sided m Hm Hts) as (md & Hmd).
      rewrite Hmd. destruct (IH Hrest (schedule ++ [md])) as (added & -> & Hf).
      exists (md :: added). rewrite <- app_assoc. split; [reflexivity|].
      now constructor.
    + rewrite (build_match_data_one_sided m Hm Hts). now apply IH.
Qed.

(** X16.  On a list of well-formed matches [process_response] returns one
    dict for every match that has both of its sides, in the order of the
    response; a match with fewer than two opponents is left out without an
    error, whether or not it has a start or a number of games. *)
Theorem process_response_well_formed (matches : list json) :
  forallb well_formed_match matches = true ->
  exists schedule,
    process_response (JArray matches) = Ok schedule
    /\ Forall2 (fun m md => build_match_data m = Ok md)
         (filter two_sided matches) schedule
    /\ length schedule = length (filter two_sided matches)
    /\ (length schedule <= length matches)%nat.
Proof.
  intros Hwf.
  destruct (process_matches_well_formed matches Hwf []) as (added & Hrun & Hf).
  exists added. split; [exact Hrun|]. split; [exact Hf|].
  pose proof (Forall2_length Hf) as Hlen. split; [now symmetry|].
  rewrite <- Hlen. apply filter_length_le.
Qed.

Lemma process_response_well_formed_witness :
  exists schedule,
    process_response
      (JArray [example_match "LCK" "T1" "Gen.G";
               JObject [("league", JObject [("name", JString "LPL")]);
                        ("opponents", JArray [])];
               example_match "LEC" "G2" "FNC"])
    = Ok schedule
    /\ map md_blue schedule = [JString "T1"; JString "G2"].
Proof.
  destruct (process_response_well_formed
              [example_match "LCK" "T1" "Gen.G";
               JObject [("league", JObject [("name", JString "LPL")]);
                        ("opponents", JArray [])];
               example_match "LEC" "G2" "FNC"] eq_refl)
    as (schedule & Hrun & _).
  exists schedule. split; [exact Hrun|].
  vm_compute in Hrun. injection Hrun as <-. reflexivity.
Defined.

Lemma process_matches_raises (before after : list json) (m : json)
    (e : exn) :
  forallb well_formed_match before = true ->
  build_match_data m = Raise e -> e <> IndexError ->
  forall schedule,
    process_matches (before ++ m :: after) schedule = Raise e.
Proof.
  intros Hwf Hm He. induction before as [|b before IH]; intros schedule;
    simpl in *.
  - rewrite Hm. destruct e; congruence.
  - apply andb_true_iff in Hwf. destruct Hwf as (Hb & Hrest).
    destruct (two_sided b) eqn:Hts.
    + destruct (build_match_data_two_sided b Hb Hts) as (md & ->).
      now apply IH.
    + rewrite (build_match_data_one_sided b Hb Hts). now apply IH.
Qed.

(** X17.  Only [IndexError] is caught: any other exception raised while a
    match is read is raised by [process_response], and the dicts built for
    the matches before it are lost.  In particular a match that is a dict
    without a "league" key raises [KeyError]. *)
Theorem process_response_aborts (before after : list json) (m : json) :
  forallb well_formed_match before = true ->
  (forall e, build_match_data m = Raise e -> e <> IndexError ->
             process_response (JArray (before ++ m :: after)) = Raise e)
  /\ (forall members,
        m = JObject members -> dict_get members "league" = None ->
        process_response (JArray (before ++ m :: after))
        = Raise (KeyError "league")).
Proof.
  intros Hwf. split.
  - intros e Hm He. unfold process_response. simpl.
    now apply process_matches_raises.
  - intros members -> Hno. unfold process_response. simpl.
    apply process_matches_raises; [assumption| |discriminate].
    unfold build_match_data. simpl. now rewrite Hno.
Qed.

Lemma process_response_aborts_witness :
  process_response
    (JArray [example_match "LCK" "T1" "Gen.G";
             JObject [("opponents", JArray [])];
             example_match "LEC" "G2" "FNC"])
  = Raise (KeyError "league").
Proof.
  apply (proj2 (process_response_aborts
                  [example_match "LCK" "T1" "Gen.G"]
                  [example_match "LEC" "G2" "FNC"]
                  (JObject [("opponents", JArray [])]) eq_refl)
           [("opponents", JArray [])] eq_refl eq_refl).
Defined.

(** X18.  A response that is not a list, such as the dict of an error
    payload, gives no schedule: a dict is enumerated by its keys and a
    string by its characters, which cannot be subscripted by "league", and
    nothing else can be enumerated.  [process_response] then raises
    [TypeError], unless the dict or the string is empty, in which case it
    returns the empty schedule. *)
Theorem process_response_not_a_list (response : json) :
  (forall items, response <> JArray items) ->
  (process_response response = Ok []
   /\ (response = JObject [] \/ response = JString ""))
  \/ process_response response = Raise TypeError.
Proof.
  intros Hnl. destruct response as [| | |s|items|members]; try (now right).
  - destruct s as [|c s]; [left; auto | now right].
  - now destruct (Hnl items).
  - destruct members as [|(k, v) members]; [left; auto | now right].
Qed.

Lemma process_response_not_a_list_witness :
  process_response (JObject [("error", JString "Unauthorized")])
  = Raise TypeError.
Proof.
  destruct (process_response_not_a_list
              (JObject [("error", JString "Unauthorized")])
              ltac:(discriminate))
    as [(Hrun & _)|Hrun]; [discriminate Hrun | exact Hrun].
Defined.

(** * The opponent columns of the cleaned table *)

Lemma enrich_opponent_metrics_opponentteam (df out : DataFrame)
    (split_on : option string) :
  enrich_opponent_metrics df split_on = Ok out ->
  ~ In "opponentteam" (columns df) ->
  exists teamname opponentteam,
    getitem df "teamname" = Ok teamname
    /\ get_opponent teamname split_on = Ok opponentteam
    /\ getitem out "opponentteam" = Ok opponentteam.
Proof.
  unfold enrich_opponent_metrics. intros H Hnew.
  inv_bind_as H teamid Hteamid. inv_bind_as H teamname Hteamname.
  inv_bind_as H ot Hot. inv_bind_as H oti Hoti.
  inv_bind_as H egpm Hegpm. inv_bind_as H oe Hoe.
  inv_bind_as H metrics Hm. injection H as <-.
  exists teamname, ot. split; [assumption|]. split; [assumption|].
  assert (Htail : exists tail,
            metrics
            = [("teamid", fillna teamid teamname)]
              ++ ("opponentteam", ot)
              :: [("opponentteamid", oti); ("opponent_egpm", oe)] ++ tail
            /\ ~ In "opponentteam" (map fst tail)).
  { destruct (py_eq split_on "player").
    - inv_bind_as Hm a Ha. inv_bind_as Hm b Hb.
      inv_bind_as Hm c Hc. inv_bind_as Hm e He. injection Hm as <-.
      eexists. split; [reflexivity|]. simpl. intuition discriminate.
    - injection Hm as <-. exists []. split; [reflexivity | simpl; tauto]. }
  destruct Htail as (tail & -> & Htail).
  apply getitem_assign_once; simpl.
  - intuition discriminate.
  - intros [H|[H|H]]; try discriminate. tauto.
  - now right.
Qed.

Section OpponentColumns.

Variable to_datetime : Series -> option (list (option Z)).

(** X19.  In the table [clean_data] returns, [opponentteam] pairs the rows
    position by position: on row [n] it holds the [teamname] of the row at
    the opponent position of [n], and the two rows name each other.  At
    team granularity these are rows [2k] and [2k+1]. *)
Theorem clean_data_opponentteam (oe_data out : DataFrame)
    (split_on : option string) :
  clean_data to_datetime oe_data split_on = Ok out ->
  exists gap teamname opponentteam,
    gap_dict_get split_on = Some gap
    /\ getitem out "teamname" = Ok teamname
    /\ getitem out "opponentteam" = Ok opponentteam
    /\ length opponentteam = length teamname
    /\ (forall n, nth_error opponentteam n
                  = nth_error teamname
                      (opponent_pos gap (length teamname) n))
    /\ (forall n, nth_error teamname n
                  = nth_error opponentteam
                      (opponent_pos gap (length teamname) n))
    /\ (split_on = Some "team" ->
        forall k, (2 * k + 1 < length teamname)%nat ->
          nth_error opponentteam (2 * k) = nth_error teamname (2 * k + 1)
          /\ nth_error opponentteam (2 * k + 1)
             = nth_error teamname (2 * k)).
Proof.
  unfold clean_data. intros H. do 8 inv_bind H. injection H as <-.
  destruct split_on as [s|]; [|discriminate].
  pose proof (subset_data_columns _ _ _ Hx4) as Hsub.
  pose proof (subset_columns_Some _ _ Hsub) as Hs.
  pose proof (remove_inconsistent_games_columns _ _ _ Hx5) as Hcols.
  assert (Hnew : ~ In "opponentteam" (columns x5)).
  { rewrite Hcols. remember (columns x4) as labels.
    destruct Hs as [-> | ->]; vm_compute in Hsub; injection Hsub as <-;
      simpl; intuition discriminate. }
  destruct (enrich_opponent_metrics_opponentteam _ _ _ Hx6 Hnew)
    as (teamname & opp & Hname & Hopp & Hout).
  destruct (gap_dict_get (Some s)) as [gap|] eqn:Hgap;
    [|unfold get_opponent in Hopp; rewrite Hgap in Hopp; discriminate].
  pose proof (gap_dict_get_pos _ _ Hgap) as Hpos.
  rewrite (get_opponent_by_cycle teamname _ _ Hgap) in Hopp.
  pose proof (opponent_by_cycle_back _ _ _ Hpos Hopp) as Hback.
  destruct (opponent_by_cycle_positions _ _ _ Hpos Hopp)
    as (Hmod & Hlen & Hel).
  destruct (opponent_by_cycle_positions _ _ _ Hpos Hback)
    as (_ & _ & Hel').
  exists gap, teamname, opp. split; [reflexivity|].
  split; [rewrite (enrich_opponent_metrics_names _ _ _ "teamname" Hx6);
          auto|].
  split; [exact Hout|]. split; [exact Hlen|]. split; [exact Hel|].
  split; [intros n; rewrite Hel', Hlen; reflexivity|].
  intros [= ->]. injection Hgap as <-. intros k Hk.
  assert (H0 : opponent_pos 1 (length teamname) (2 * k)
               = (2 * k + 1)%nat).
  { unfold opponent_pos, opponent_index.
    replace (2 * k <? length teamname)%nat with true
      by (symmetry; apply Nat.ltb_lt; lia).
    replace (Z.of_nat (2 * k) mod (2 * 1)) with 0.
    2:{ symmetry. replace (Z.of_nat (2 * k)) with (Z.of_nat k * (2 * 1))
          by lia. apply Z.mod_mul. lia. }
    simpl. lia. }
  assert (H1 : opponent_pos 1 (length teamname) (2 * k + 1)
               = (2 * k)%nat).
  { rewrite <- H0. now apply opponent_pos_involutive. }
  split.
  - now rewrite Hel, H0.
  - now rewrite Hel, H1.
Qed.

End OpponentColumns.

Lemma clean_data_opponentteam_witness :
  exists out,
    clean_data to_datetime_compact example_game (Some "team") = Ok out
    /\ getitem out "teamname" = Ok [Str "Alpha"; Str "Beta"]
    /\ getitem out "opponentteam" = Ok [Str "Beta"; Str "Alpha"].
Proof.
  destruct (clean_data to_datetime_compact example_game (Some "team"))
    as [out|e] eqn:Hrun; [|vm_compute in Hrun; discriminate].
  destruct (clean_data_opponentteam to_datetime_compact example_game out
              (Some "team") Hrun)
    as (gap & teamname & opp & _ & Hname & Hopp & _).
  exists out. split; [reflexivity|].
  vm_compute in Hrun. injection Hrun as <-.
  vm_compute in Hname. injection Hname as <-.
  vm_compute in Hopp. injection Hopp as <-.
  split; reflexivity.
Defined.
